(** * yt-transcript-kiro: strategy selection, language matching and fallback
    extraction, embedded from the JavaScript sources.

    - [Js]                : the string and array primitives the sources use;
    - [LanguageHandler]   : services/language-handler.js;
    - [StrategySelector]  : services/strategy-selector.js;
    - [UnifiedExtractor]  : services/unified-extractor.js;
    - [SrtSpec]           : the subtitle encoding as the specification words it;
    - [Aux], [Scenario]   : definitions the proofs and the concrete runs use;
    - [YoutubeValidator]  : utils/youtube-validator.js;
    - [LanguageDetection], [StrategyHelpers], [Backends] : the remaining
      functions of the language handler, the strategy selector and the
      extractor;
    - [ResponseFormatter], [MetadataExtractor], [Endpoint] : error codes and
      HTTP status, metadata errors and caption tracks, and the strategies of
      the [/transcript] handler of index.js;
    - the modules whose names end in [Facts] : the theorems.

    JavaScript strings are sequences of code units; they are modelled by
    [string], whose characters are read as the code units U+0000..U+00FF.
    Integer-valued JavaScript numbers (lengths, milliseconds, seconds) are
    modelled by [nat], [N] and [Z]: a JavaScript number is a double, which
    holds every whole number up to 2^53 exactly, and where a sum can pass
    that bound it is rounded as the double addition rounds it ([Js.add]).
    The match confidences, which the source writes as the literals 0, 0.3,
    0.6, 0.8 and 1.0 and compares with 0.7, are modelled by rationals. *)

From Stdlib Require Import String Ascii List Bool Arith ZArith NArith QArith Lia.
From Stdlib Require Import DecimalString DecimalN Permutation.
Import ListNotations.
Close Scope Q_scope.
Open Scope string_scope.
Open Scope list_scope.

(* ===================================================================== *)
(** ** JavaScript primitives *)
(* ===================================================================== *)

Module Js.

(** A code unit as a number. *)
Definition code (c : ascii) : N := N_of_ascii c.

(** White space removed by [String.prototype.trim], within U+0000..U+00FF:
    TAB, LF, VT, FF, CR, SPACE and NO-BREAK SPACE. *)
Definition isWhiteSpace (c : ascii) : bool :=
  let n := code c in
  ((9 <=? n) && (n <=? 13) || (n =? 32) || (n =? 160))%N.

(** [A-Z]. *)
Definition isAsciiUpper (c : ascii) : bool :=
  let n := code c in ((65 <=? n) && (n <=? 90))%N.

(** Upper-case letters of U+0000..U+00FF: [A-Z] and U+00C0..U+00DE without
    the multiplication sign U+00D7. *)
Definition isUpper (c : ascii) : bool :=
  let n := code c in
  (isAsciiUpper c || ((192 <=? n) && (n <=? 222) && negb (n =? 215)))%N.

Definition toLowerChar (c : ascii) : ascii :=
  if isUpper c then ascii_of_N (code c + 32) else c.

(** [s.toLowerCase()] *)
Fixpoint toLowerCase (s : string) : string :=
  match s with
  | EmptyString => EmptyString
  | String c r => String (toLowerChar c) (toLowerCase r)
  end.

Fixpoint trimStart (s : string) : string :=
  match s with
  | EmptyString => EmptyString
  | String c r => if isWhiteSpace c then trimStart r else s
  end.

Fixpoint trimEnd (s : string) : string :=
  match s with
  | EmptyString => EmptyString
  | String c r =>
      match trimEnd r with
      | EmptyString => if isWhiteSpace c then EmptyString else String c EmptyString
      | r' => String c r'
      end
  end.

(** [s.trim()] *)
Definition trim (s : string) : string := trimEnd (trimStart s).

(** [s.split(sep)[0]]: the part of [s] before the first [sep]. *)
Fixpoint splitHead (sep : ascii) (s : string) : string :=
  match s with
  | EmptyString => EmptyString
  | String c r => if Ascii.eqb c sep then EmptyString else String c (splitHead sep r)
  end.

(** [s.startsWith(p)] *)
Definition startsWith (s p : string) : bool := String.prefix p s.

(** Truthiness of a string value: only the empty string is falsy. *)
Definition truthy (s : string) : bool := negb (s =? "").

(** [l.includes(x)] on an array of strings. *)
Definition includes (l : list string) (x : string) : bool :=
  existsb (String.eqb x) l.

(** [[...new Set(l)]]: duplicates removed, first occurrences kept in order. *)
Fixpoint uniqFrom (seen l : list string) : list string :=
  match l with
  | [] => []
  | x :: r => if includes seen x then uniqFrom seen r
              else x :: uniqFrom (x :: seen) r
  end.

Definition uniq (l : list string) : list string := uniqFrom [] l.

(** [l.join(sep)] *)
Definition join (sep : string) (l : list string) : string := String.concat sep l.

(** The double nearest to the whole number [n] (below 2^1024): [n] itself
    when it has at most 53 significant bits, and otherwise its leading 53
    bits rounded to nearest, a tie going to the even significand. *)
Definition toDouble (n : N) : N :=
  let bits := N.size n in
  if (bits <=? 53)%N then n
  else
    let drop := (bits - 53)%N in
    let kept := N.shiftr n drop in
    let rest := N.land n (N.ones drop) in
    let half := N.shiftl 1 (drop - 1) in
    let up := ((half <? rest) || ((rest =? half) && N.odd kept))%N in
    N.shiftl (if up then kept + 1 else kept)%N drop.

(** [a + b] on two whole numbers held as doubles. *)
Definition add (a b : N) : N := toDouble (a + b).

(** [n.toString()] for a non-negative integer below 10^21, which is
    written in decimal notation. *)
Definition numberToString (n : N) : string :=
  NilEmpty.string_of_uint (N.to_uint n).

Fixpoint repeat0 (k : nat) : string :=
  match k with O => EmptyString | S k' => String "0" (repeat0 k') end.

(** [s.padStart(width, '0')] *)
Definition padStart0 (width : nat) (s : string) : string :=
  repeat0 (width - String.length s) ++ s.

(** [l.map((x, index) => f(x, index))] *)
Fixpoint mapiFrom {A B} (i : N) (f : A -> N -> B) (l : list A) : list B :=
  match l with
  | [] => []
  | x :: r => f x i :: mapiFrom (N.succ i) f r
  end.

Definition mapi {A B} (f : A -> N -> B) (l : list A) : list B := mapiFrom 0%N f l.

End Js.

(* ===================================================================== *)
(** ** services/language-handler.js *)
(* ===================================================================== *)

Module LanguageHandler.

(** The object [LANGUAGE_MAPPINGS]: keys in declaration order (the order
    [Object.entries] enumerates them in), each with its array of variants. *)
Definition Mappings := list (string * list string).

Definition LANGUAGE_MAPPINGS : Mappings :=
  [ ("en", ["en"; "en-US"; "en-GB"; "en-CA"; "en-AU"]);
    ("en-US", ["en-US"; "en"]);
    ("en-GB", ["en-GB"; "en"]);
    ("es", ["es"; "es-ES"; "es-MX"; "es-AR"]);
    ("es-ES", ["es-ES"; "es"]);
    ("es-MX", ["es-MX"; "es"]);
    ("fr", ["fr"; "fr-FR"; "fr-CA"]);
    ("fr-FR", ["fr-FR"; "fr"]);
    ("fr-CA", ["fr-CA"; "fr"]);
    ("de", ["de"; "de-DE"; "de-AT"; "de-CH"]);
    ("de-DE", ["de-DE"; "de"]);
    ("pt", ["pt"; "pt-BR"; "pt-PT"]);
    ("pt-BR", ["pt-BR"; "pt"]);
    ("pt-PT", ["pt-PT"; "pt"]);
    ("it", ["it"; "it-IT"]);
    ("ja", ["ja"; "ja-JP"]);
    ("ko", ["ko"; "ko-KR"]);
    ("zh", ["zh"; "zh-CN"; "zh-TW"; "zh-HK"]);
    ("zh-CN", ["zh-CN"; "zh"]);
    ("zh-TW", ["zh-TW"; "zh"]);
    ("ru", ["ru"; "ru-RU"]);
    ("ar", ["ar"; "ar-SA"; "ar-EG"]);
    ("hi", ["hi"; "hi-IN"]);
    ("nl", ["nl"; "nl-NL"]);
    ("sv", ["sv"; "sv-SE"]);
    ("no", ["no"; "nb"; "nn"]);
    ("da", ["da"; "da-DK"]);
    ("fi", ["fi"; "fi-FI"]);
    ("pl", ["pl"; "pl-PL"]);
    ("tr", ["tr"; "tr-TR"]);
    ("he", ["he"; "iw"]);
    ("th", ["th"; "th-TH"]);
    ("vi", ["vi"; "vi-VN"]);
    ("id", ["id"; "id-ID"]);
    ("ms", ["ms"; "ms-MY"]) ].

Definition LANGUAGE_PRIORITY : list string :=
  ["en"; "es"; "fr"; "de"; "pt"; "it"; "ja"; "ko"; "zh"; "ru"; "ar"; "hi"].

(** The state shared by every request: the module-level table, whose
    arrays are mutable, and the handler's [supportedLanguages] set, filled
    by the constructor from the table's keys. *)
Record Store := mkStore {
  mappings : Mappings;
  supportedLanguages : list string
}.

(** [new LanguageHandler()] over the table as the module declares it. *)
Definition initialStore : Store :=
  {| mappings := LANGUAGE_MAPPINGS;
     supportedLanguages := map fst LANGUAGE_MAPPINGS |}.

(** [LANGUAGE_MAPPINGS[key]] (own properties). *)
Fixpoint lookup (m : Mappings) (key : string) : option (list string) :=
  match m with
  | [] => None
  | (k, v) :: r => if k =? key then Some v else lookup r key
  end.

(** The table after the array stored under [key] has become [v]. *)
Fixpoint setArray (m : Mappings) (key : string) (v : list string) : Mappings :=
  match m with
  | [] => []
  | (k, old) :: r => if k =? key then (k, v) :: r else (k, old) :: setArray r key v
  end.

(** [this.supportedLanguages.has(x)] *)
Definition supported (st : Store) (x : string) : bool :=
  Js.includes (supportedLanguages st) x.

(** The loop over [Object.entries(LANGUAGE_MAPPINGS)] of
    [normalizeLanguageCode]: the first key whose variants include
    [normalized]. *)
Definition keyOfVariant (m : Mappings) (normalized : string) : option string :=
  match find (fun kv => Js.includes (snd kv) normalized) m with
  | Some kv => Some (fst kv)
  | None => None
  end.

Definition normalizeLanguageCode (st : Store) (languageCode : string) : string :=
  if negb (Js.truthy languageCode) then "en"
  else
    let normalized := Js.trim (Js.toLowerCase languageCode) in
    if supported st normalized then normalized
    else
      let baseLang := Js.splitHead "-" normalized in
      if supported st baseLang then baseLang
      else
        match keyOfVariant (mappings st) normalized with
        | Some key => key
        | None => "en"
        end.

Inductive MatchType := exact | family | priority_fallback | first_available | none.

Record LanguageMatch := mkMatch {
  selectedLanguage : string;
  matchType : MatchType;
  confidence : Q;
  availableAlternatives : list string
}.

(** [availableLanguages.find(p)] followed by the test [if (match)]: a found
    element counts only when it is a truthy string. *)
Definition findTruthy (p : string -> bool) (l : list string) : option string :=
  match find p l with
  | Some s => if Js.truthy s then Some s else None
  | None => None
  end.

(** [availableLanguages.filter(lang => lang !== x)] *)
Definition without (x : string) (l : list string) : list string :=
  filter (fun lang => negb (lang =? x)) l.

(** The loop over [LANGUAGE_PRIORITY]. *)
Fixpoint priorityMatch (st : Store) (availableLanguages priority : list string)
  : option string :=
  match priority with
  | [] => None
  | priorityLang :: rest =>
      match findTruthy (fun lang => normalizeLanguageCode st lang =? priorityLang)
                       availableLanguages with
      | Some m => Some m
      | None => priorityMatch st availableLanguages rest
      end
  end.

Definition findBestLanguageMatch (st : Store) (availableLanguages : list string)
    (preferredLanguage : string) : LanguageMatch :=
  match availableLanguages with
  | [] => mkMatch preferredLanguage none 0%Q []
  | firstAvailable :: others =>
      let normalizedPreferred := normalizeLanguageCode st preferredLanguage in
      match findTruthy (fun lang => normalizeLanguageCode st lang =? normalizedPreferred)
                       availableLanguages with
      | Some exactMatch =>
          mkMatch exactMatch exact 1%Q (without exactMatch availableLanguages)
      | None =>
          match findTruthy
                  (fun lang =>
                     let normalized := normalizeLanguageCode st lang in
                     let baseLang := Js.splitHead "-" normalizedPreferred in
                     Js.startsWith normalized baseLang || (normalized =? baseLang))
                  availableLanguages with
          | Some familyMatch =>
              mkMatch familyMatch family (8 # 10)%Q (without familyMatch availableLanguages)
          | None =>
              match priorityMatch st availableLanguages LANGUAGE_PRIORITY with
              | Some pm =>
                  mkMatch pm priority_fallback (6 # 10)%Q (without pm availableLanguages)
              | None => mkMatch firstAvailable first_available (3 # 10)%Q others
              end
          end
      end
  end.

(** *** Operations that use the shared table as a mutable object

    [M A] is a computation over the shared [Store]; the only primitive that
    writes is [push], on an array reference. *)

Definition M (A : Type) : Type := Store -> A * Store.

Definition ret {A} (a : A) : M A := fun st => (a, st).

Definition bind {A B} (c : M A) (k : A -> M B) : M B :=
  fun st => let (a, st') := c st in k a st'.

Notation "x <- c ;; k" := (bind c (fun x => k))
  (at level 61, c at next level, right associativity).

(** A pure reader of the store run as a computation. *)
Definition reads {A} (f : Store -> A) : M A := fun st => (f st, st).

(** A JavaScript array value is a reference: either one of the arrays held
    by the table (named by its key) or an array literal built by the
    caller. *)
Inductive ArrayRef :=
| TableArray (key : string)
| FreshArray (elements : list string).

(** The elements of the referenced array. *)
Definition elementsOf (a : ArrayRef) : M (list string) :=
  match a with
  | TableArray key =>
      reads (fun st => match lookup (mappings st) key with
                       | Some v => v
                       | None => []
                       end)
  | FreshArray l => ret l
  end.

(** [a.push(...xs)]: appends in place; a table array changes the table. *)
Definition push (a : ArrayRef) (xs : list string) : M ArrayRef :=
  match a with
  | TableArray key =>
      fun st =>
        match lookup (mappings st) key with
        | Some v =>
            (TableArray key,
             {| mappings := setArray (mappings st) key (v ++ xs);
                supportedLanguages := supportedLanguages st |})
        | None => (TableArray key, st)
        end
  | FreshArray l => ret (FreshArray (l ++ xs))
  end.

(** [LANGUAGE_MAPPINGS[normalized] || [normalized]] *)
Definition variantsRef (normalized : string) : M ArrayRef :=
  reads (fun st => match lookup (mappings st) normalized with
                   | Some _ => TableArray normalized
                   | None => FreshArray [normalized]
                   end).

Definition getLanguageVariants (languageCode : string) : M (list string) :=
  normalized <- reads (fun st => normalizeLanguageCode st languageCode) ;;
  variants <- variantsRef normalized ;;
  let baseLang := Js.splitHead "-" normalized in
  baseEntry <- reads (fun st => lookup (mappings st) baseLang) ;;
  variants' <- (match baseEntry with
                | Some baseVariants =>
                    if negb (baseLang =? normalized)
                    then push variants baseVariants
                    else ret variants
                | None => ret variants
                end) ;;
  elements <- elementsOf variants' ;;
  ret (Js.uniq elements).

(** [countryMappings] of [_getCountryForLanguage]. *)
Definition countryMappings : list (string * string) :=
  [ ("en", "US"); ("en-US", "US"); ("en-GB", "GB"); ("en-CA", "CA");
    ("en-AU", "AU"); ("es", "ES"); ("es-MX", "MX"); ("es-AR", "AR");
    ("fr", "FR"); ("fr-CA", "CA"); ("de", "DE"); ("pt", "BR");
    ("pt-BR", "BR"); ("pt-PT", "PT"); ("it", "IT"); ("ja", "JP");
    ("ko", "KR"); ("zh", "CN"); ("zh-CN", "CN"); ("zh-TW", "TW");
    ("ru", "RU") ].

Fixpoint assoc (m : list (string * string)) (key : string) : option string :=
  match m with
  | [] => None
  | (k, v) :: r => if k =? key then Some v else assoc r key
  end.

(** The names under which an object literal inherits a member of
    [Object.prototype]: looked up on [countryMappings], which has none of
    them as a key of its own, each yields that member (a function, or the
    prototype itself for [__proto__]), which is truthy. *)
Definition inheritedNames : list string :=
  [ "constructor"; "hasOwnProperty"; "isPrototypeOf"; "propertyIsEnumerable";
    "toLocaleString"; "toString"; "valueOf"; "__proto__";
    "__defineGetter__"; "__defineSetter__"; "__lookupGetter__";
    "__lookupSetter__" ].

(** The value of a [country] property: a string, or the member of
    [Object.prototype] inherited under [name]. *)
Inductive Country :=
| CountryCode (code : string)
| Inherited (name : string).

(** [countryMappings[languageCode] || 'US'] *)
Definition _getCountryForLanguage (languageCode : string) : Country :=
  match assoc countryMappings languageCode with
  | Some c => CountryCode c
  | None =>
      if Js.includes inheritedNames languageCode then Inherited languageCode
      else CountryCode "US"
  end.

(** The object built by [createLanguageConfig]; the last four fields are
    set by the method-specific adjustments only and are [None] (undefined)
    otherwise. *)
Record LanguageConfig := mkLanguageConfig {
  primaryLanguage : string;
  fallbackLanguages : list string;
  lc_availableLanguages : list string;
  matchConfidence : Q;
  lc_matchType : MatchType;
  country : option Country;
  retryLanguages : option (list string);
  langCode : option string;
  languageHint : option string
}.

Definition createLanguageConfig (preferredLanguage : string)
    (availableLanguages : list string) (extractionMethod : string)
  : M LanguageConfig :=
  matchResult <- reads (fun st =>
                   findBestLanguageMatch st availableLanguages preferredLanguage) ;;
  variants <- getLanguageVariants preferredLanguage ;;
  let config :=
    mkLanguageConfig (selectedLanguage matchResult) variants availableLanguages
                     (confidence matchResult) (matchType matchResult)
                     None None None None in
  if extractionMethod =? "youtube-transcript" then
    ret (mkLanguageConfig (primaryLanguage config) (fallbackLanguages config)
           (lc_availableLanguages config) (matchConfidence config)
           (lc_matchType config)
           (Some (_getCountryForLanguage (selectedLanguage matchResult)))
           (Some (firstn 3 variants)) None None)
  else if extractionMethod =? "youtube-caption-extractor" then
    ret (mkLanguageConfig (primaryLanguage config) (fallbackLanguages config)
           (lc_availableLanguages config) (matchConfidence config)
           (lc_matchType config)
           None None (Some (selectedLanguage matchResult)) None)
  else if extractionMethod =? "whisper-audio" then
    hint <- reads (fun st => normalizeLanguageCode st preferredLanguage) ;;
    ret (mkLanguageConfig (primaryLanguage config) (fallbackLanguages config)
           (lc_availableLanguages config) (matchConfidence config)
           (lc_matchType config)
           None None None (Some hint))
  else ret config.

(** The three public operations of the Language Matcher as calls on the
    shared handler, with the value each returns. *)
Inductive Call :=
| CallNormalize (languageCode : string)
| CallFindBest (availableLanguages : list string) (preferredLanguage : string)
| CallVariants (languageCode : string).

Inductive Answer :=
| AnsCode (code : string)
| AnsMatch (m : LanguageMatch)
| AnsVariants (l : list string).

Definition perform (c : Call) : M Answer :=
  match c with
  | CallNormalize code =>
      r <- reads (fun st => normalizeLanguageCode st code) ;; ret (AnsCode r)
  | CallFindBest available preferred =>
      r <- reads (fun st => findBestLanguageMatch st available preferred) ;;
      ret (AnsMatch r)
  | CallVariants code =>
      r <- getLanguageVariants code ;; ret (AnsVariants r)
  end.

(** A sequence of calls, one after the other, on the same handler. *)
Fixpoint performAll (cs : list Call) : M (list Answer) :=
  match cs with
  | [] => ret []
  | c :: rest =>
      a <- perform c ;;
      others <- performAll rest ;;
      ret (a :: others)
  end.

End LanguageHandler.

(* ===================================================================== *)
(** ** services/strategy-selector.js *)
(* ===================================================================== *)

Module StrategySelector.

(** [TRANSCRIPT_METHODS] *)
Definition YOUTUBE_TRANSCRIPT : string := "youtube-transcript".
Definition YOUTUBE_CAPTION_EXTRACTOR : string := "youtube-caption-extractor".
Definition WHISPER_AUDIO : string := "whisper-audio".

(** [VideoMetadata] (types/interfaces.js); [duration] is a whole number of
    seconds, [parseInt(lengthSeconds) || 0] in the metadata extractor. *)
Record VideoMetadata := mkMetadata {
  videoId : string;
  title : string;
  description : string;
  duration : Z;
  isLive : bool;
  isUpcoming : bool;
  hasClosedCaptions : bool;
  availableLanguages : list string
}.

(** The [preferences] argument: each property may be absent. *)
Record ExtractionPreferences := mkPreferences {
  preferredLanguage : option string;
  format : option string;
  fallbackToAudio : option bool
}.

(** [{ ...DEFAULT_PREFERENCES, ...preferences }] *)
Record Prefs := mkPrefs {
  p_preferredLanguage : string;
  p_format : string;
  p_fallbackToAudio : bool
}.

Definition DEFAULT_PREFERENCES : Prefs := mkPrefs "en" "txt" true.

Definition orDefault {A} (o : option A) (d : A) : A :=
  match o with Some a => a | None => d end.

Definition mergePreferences (preferences : ExtractionPreferences) : Prefs :=
  mkPrefs (orDefault (preferredLanguage preferences) (p_preferredLanguage DEFAULT_PREFERENCES))
          (orDefault (format preferences) (p_format DEFAULT_PREFERENCES))
          (orDefault (fallbackToAudio preferences) (p_fallbackToAudio DEFAULT_PREFERENCES)).

Definition _isVideoSuitableForExtraction (metadata : VideoMetadata) : bool :=
  if isLive metadata then false
  else if isUpcoming metadata then false
  else if ((0 <? duration metadata) && (duration metadata <? 10))%Z then false
  else true.

Definition _hasPreferredLanguage (availableLanguages : list string)
    (preferredLanguage : string) : bool :=
  match availableLanguages with
  | [] => false
  | _ =>
      if Js.includes availableLanguages preferredLanguage then true
      else
        let langPrefix := Js.splitHead "-" preferredLanguage in
        existsb (fun lang => Js.startsWith lang langPrefix) availableLanguages
  end.

Definition selectStrategy (metadata : VideoMetadata)
    (preferences : ExtractionPreferences) : list string :=
  let prefs := mergePreferences preferences in
  if negb (_isVideoSuitableForExtraction metadata) then
    if p_fallbackToAudio prefs then [WHISPER_AUDIO] else []
  else
    let strategies :=
      if hasClosedCaptions metadata then
        if _hasPreferredLanguage (availableLanguages metadata) (p_preferredLanguage prefs)
        then [YOUTUBE_TRANSCRIPT; YOUTUBE_CAPTION_EXTRACTOR]
        else [YOUTUBE_TRANSCRIPT; YOUTUBE_CAPTION_EXTRACTOR]
      else [] in
    let strategies :=
      if p_fallbackToAudio prefs then strategies ++ [WHISPER_AUDIO] else strategies in
    Js.uniq strategies.

Definition getPrimaryStrategy (metadata : VideoMetadata)
    (preferences : ExtractionPreferences) : option string :=
  match selectStrategy metadata preferences with
  | [] => None
  | first :: _ => Some first
  end.

(** The configuration object handed to the extractor.  Every property may
    be absent: the extractor also accepts [{}]. *)
Record Config := mkConfig {
  c_videoId : option string;
  c_language : option string;
  c_format : option string;
  c_languageConfig : option LanguageHandler.LanguageConfig;
  c_country : option LanguageHandler.Country;
  c_fallbackLanguages : option (list string);
  c_availableLanguages : option (list string);
  c_langCode : option string;
  c_title : option string;
  c_description : option string;
  c_duration : option Z;
  c_model : option string;
  c_response_format : option string;
  c_timestamp_granularities : option (list string);
  c_languageHint : option string
}.

(** [{}] *)
Definition emptyConfig : Config :=
  mkConfig None None None None None None None None None None None None None None None.

(** [a || b] on a possibly absent string. *)
Definition orElse (a : option string) (b : string) : string :=
  match a with
  | Some s => if Js.truthy s then s else b
  | None => b
  end.

(** [a || b] on a possibly absent country. *)
Definition countryOr (a : option LanguageHandler.Country) (b : string)
  : LanguageHandler.Country :=
  match a with
  | Some (LanguageHandler.CountryCode s) =>
      LanguageHandler.CountryCode (if Js.truthy s then s else b)
  | Some (LanguageHandler.Inherited name) => LanguageHandler.Inherited name
  | None => LanguageHandler.CountryCode b
  end.

(** [getMethodConfig].  In the [youtube-transcript] case the source writes
    [languageConfig.fallbackLanguages || this._getFallbackLanguages(...)];
    the left operand is always an array, which is truthy. *)
Definition getMethodConfig (method : string) (metadata : VideoMetadata)
    (preferences : ExtractionPreferences) : LanguageHandler.M Config :=
  let prefs := mergePreferences preferences in
  LanguageHandler.bind
    (LanguageHandler.createLanguageConfig (p_preferredLanguage prefs)
       (availableLanguages metadata) method)
    (fun languageConfig =>
       let base (country : option LanguageHandler.Country)
                (fallbacks avail : option (list string))
                (langCode title descr : option string) (dur : option Z)
                (model rf : option string) (tg : option (list string))
                (hint : option string) :=
         mkConfig (Some (videoId metadata))
                  (Some (LanguageHandler.primaryLanguage languageConfig))
                  (Some (p_format prefs))
                  (Some languageConfig)
                  country fallbacks avail langCode title descr dur model rf tg hint in
       LanguageHandler.ret
         (if method =? YOUTUBE_TRANSCRIPT then
            base (Some (countryOr (LanguageHandler.country languageConfig) "US"))
                 (Some (LanguageHandler.fallbackLanguages languageConfig))
                 None None None None None None None None None
          else if method =? YOUTUBE_CAPTION_EXTRACTOR then
            base None None (Some (availableLanguages metadata))
                 (Some (orElse (LanguageHandler.langCode languageConfig)
                               (LanguageHandler.primaryLanguage languageConfig)))
                 None None None None None None None
          else if method =? WHISPER_AUDIO then
            base None None None None
                 (Some (title metadata)) (Some (description metadata))
                 (Some (duration metadata))
                 (Some "whisper-1")
                 (Some (if p_format prefs =? "srt" then "srt" else "verbose_json"))
                 (if p_format prefs =? "json" then Some ["word"] else None)
                 (LanguageHandler.languageHint languageConfig)
          else
            base None None None None None None None None None None None)).

End StrategySelector.

(* ===================================================================== *)
(** ** services/unified-extractor.js *)
(* ===================================================================== *)

Module UnifiedExtractor.

Import StrategySelector.

(** [TranscriptSegment]: times in milliseconds, here whole numbers. *)
Record Segment := mkSegment {
  text : string;
  start : N;
  seg_duration : N
}.

(** The line feed the template literals write as [\n]. *)
Definition LF : string := String (ascii_of_N 10) EmptyString.

(** [_formatSrtTime] on a whole number of milliseconds up to 2^53: there
    [Math.floor] of each quotient is the integer quotient, [%] is the
    remainder and every field is written in decimal notation.  (On a number
    with a fraction the source leaves the fraction in the last field.) *)
Definition _formatSrtTime (milliseconds : N) : string :=
  let totalSeconds := (milliseconds / 1000)%N in
  let hours := (totalSeconds / 3600)%N in
  let minutes := ((totalSeconds mod 3600) / 60)%N in
  let seconds := (totalSeconds mod 60)%N in
  let ms := (milliseconds mod 1000)%N in
  Js.padStart0 2 (Js.numberToString hours) ++ ":" ++
  Js.padStart0 2 (Js.numberToString minutes) ++ ":" ++
  Js.padStart0 2 (Js.numberToString seconds) ++ "," ++
  Js.padStart0 3 (Js.numberToString ms).

(** The callback of [segments.map] in [_formatAsSrt]. *)
Definition srtBlock (segment : Segment) (index : N) : string :=
  let startTime := _formatSrtTime (start segment) in
  let endTime := _formatSrtTime (Js.add (start segment) (seg_duration segment)) in
  Js.numberToString (index + 1)%N ++ LF ++
  startTime ++ " --> " ++ endTime ++ LF ++
  text segment ++ LF.

Definition _formatAsSrt (segments : list Segment) : string :=
  Js.join LF (Js.mapi srtBlock segments).

(** The parameters [_transcribeWithWhisper] sends to the transcription
    backend; [tr_language = None] is a request without a [language]
    property, on which the backend detects the language itself. *)
Record TranscriptionRequest := mkRequest {
  tr_model : string;
  tr_response_format : string;
  tr_language : option string;
  tr_timestamp_granularities : option (list string)
}.

(** [x > 0.7] *)
Definition above07 (x : Q) : bool := negb (Qle_bool x (7 # 10)%Q).

(** [config.languageHint && config.languageConfig?.matchConfidence > 0.7] *)
Definition hintApplies (config : Config) : bool :=
  match c_languageHint config, c_languageConfig config with
  | Some hint, Some lc => Js.truthy hint && above07 (LanguageHandler.matchConfidence lc)
  | _, _ => false
  end.

(** [config.language && config.language !== 'auto'] *)
Definition languageSpecified (config : Config) : bool :=
  match c_language config with
  | Some l => Js.truthy l && negb (l =? "auto")
  | None => false
  end.

Definition transcriptionRequest (st : LanguageHandler.Store) (config : Config)
  : TranscriptionRequest :=
  mkRequest
    (orElse (c_model config) "whisper-1")
    (orElse (c_response_format config) "verbose_json")
    (if hintApplies config then
       Some (LanguageHandler.normalizeLanguageCode st (orElse (c_languageHint config) ""))
     else if languageSpecified config then
       Some (LanguageHandler.normalizeLanguageCode st (orElse (c_language config) ""))
     else None)
    (c_timestamp_granularities config).

(** What a backend call ([_extractWithYouTubeTranscript],
    [_extractWithCaptionExtractor], [_extractWithWhisperAudio]) completes
    with: a returned object or a thrown error with its message. *)
Inductive Completion (A : Type) :=
| Returned (a : A)
| Threw (message : string).
Arguments Returned {A} a.
Arguments Threw {A} message.

(** The object a backend returns; [raw_transcript = None] is an undefined
    [transcript] (Whisper's [text] when the response carries none). *)
Record RawResult := mkRaw {
  raw_transcript : option string;
  raw_language : string;
  raw_confidence : Q;
  raw_segments : list Segment;
  raw_audioSizeBytes : option N;
  raw_format : string;
  raw_source : option string
}.

(** [TranscriptResult] *)
Record TranscriptResult := mkResult {
  success : bool;
  transcript : option string;
  r_format : string;
  r_language : string;
  method : string;
  error : option string;
  extractionTime : Z;
  r_confidence : option Q;
  r_segments : option (list Segment);
  r_audioSizeBytes : option N;
  r_source : option string
}.

(** [result.transcript && result.transcript.length > 50] *)
Definition longEnough (t : option string) : bool :=
  match t with
  | Some s => Js.truthy s && (50 <? String.length s)%nat
  | None => false
  end.

(** The test of [extractWithFallback] that accepts a result. *)
Definition sufficient (result : TranscriptResult) : bool :=
  success result && longEnough (transcript result).

(** [result.transcript?.length || 0] *)
Definition transcriptLength (t : option string) : N :=
  match t with
  | Some s => N.of_nat (String.length s)
  | None => 0%N
  end.

Section Executor.

(** Everything outside the process: the network, the caption services,
    the transcription service, the clock. *)
Variable World : Type.

(** [Date.now()].  The clock is read off the world, which changes in the
    backend calls only: the time the process itself takes between two
    readings is not modelled. *)
Variable now : World -> Z.

(** The three backends, each called with the video id and the
    configuration. *)
Variable youtubeTranscript : string -> Config -> World -> Completion RawResult * World.
Variable captionExtractor : string -> Config -> World -> Completion RawResult * World.
Variable whisperAudio : string -> Config -> World -> Completion RawResult * World.

(** The state a request runs in: the world and the methods
    [extractTranscript] has been entered with so far (its first log
    line), oldest first. *)
Record Exec := mkExec {
  world : World;
  invoked : list string
}.

(** The object of the [catch] branch of [extractTranscript]. *)
Definition failed (method : string) (config : Config) (message : string)
    (extractionTime : Z) : TranscriptResult :=
  mkResult false (Some "") (orElse (c_format config) "txt")
           (orElse (c_language config) "en") method (Some message)
           extractionTime None None None None.

(** [{ ...result, success: true, method, extractionTime }] *)
Definition succeeded (method : string) (raw : RawResult) (extractionTime : Z)
  : TranscriptResult :=
  mkResult true (raw_transcript raw) (raw_format raw) (raw_language raw) method
           None extractionTime (Some (raw_confidence raw))
           (Some (raw_segments raw)) (raw_audioSizeBytes raw) (raw_source raw).

(** The [switch] of [extractTranscript]. *)
Definition dispatch (videoId method : string) (config : Config) (w : World)
  : Completion RawResult * World :=
  if method =? YOUTUBE_TRANSCRIPT then youtubeTranscript videoId config w
  else if method =? YOUTUBE_CAPTION_EXTRACTOR then captionExtractor videoId config w
  else if method =? WHISPER_AUDIO then whisperAudio videoId config w
  else (Threw ("Unsupported extraction method: " ++ method)%string, w).

(** The object [extractTranscript] returns: the one of its [try] block
    when the backend returns, the one of its [catch] block when the
    backend (or the [default] case) throws. *)
Definition transcriptResultOf (videoId method : string) (config : Config)
    (s : Exec) : TranscriptResult * Exec :=
  let startTime := now (world s) in
  let (outcome, w') := dispatch videoId method config (world s) in
  let extractionTime := (now w' - startTime)%Z in
  let s' := mkExec w' (invoked s ++ [method]) in
  match outcome with
  | Returned raw => (succeeded method raw extractionTime, s')
  | Threw message => (failed method config message extractionTime, s')
  end.

(** [extractTranscript] as its caller sees it: it completes by returning
    that object, on both paths. *)
Definition extractTranscript (videoId method : string) (config : Config)
    (s : Exec) : Completion TranscriptResult * Exec :=
  let (result, s') := transcriptResultOf videoId method config s in
  (Returned result, s').

(** The entry pushed onto [errors] for a result that is not accepted. *)
Definition insufficientEntry (method : string) (result : TranscriptResult) : string :=
  method ++ ": Insufficient content (" ++
  Js.numberToString (transcriptLength (transcript result)) ++ " chars)".

(** The object returned after the loop. *)
Definition allFailed (config : Config) (errors : list string) : TranscriptResult :=
  mkResult false (Some "") (orElse (c_format config) "txt")
           (orElse (c_language config) "en") "none"
           (Some ("All extraction methods failed. Errors: " ++ Js.join "; " errors)%string)
           0%Z None None None None.

(** The [for] loop of [extractWithFallback] from index [i] on, [methods]
    being the methods still to try and [errors] the array so far. *)
Fixpoint fallbackLoop (videoId : string) (methods : list string) (config : Config)
    (errors : list string) (s : Exec) : TranscriptResult * Exec :=
  match methods with
  | [] => (allFailed config errors, s)
  | method :: rest =>
      match extractTranscript videoId method config s with
      | (Returned result, s') =>
          if sufficient result then (result, s')
          else fallbackLoop videoId rest config
                 (errors ++ [insufficientEntry method result]) s'
      | (Threw message, s') =>
          fallbackLoop videoId rest config (errors ++ [(method ++ ": " ++ message)%string]) s'
      end
  end.

Definition extractWithFallback (videoId : string) (methods : list string)
    (config : Config) (s : Exec) : TranscriptResult * Exec :=
  fallbackLoop videoId methods config [] s.

(** The attempts on [methods], each made in the state the one before it
    left, whatever their results. *)
Fixpoint attempts (videoId : string) (methods : list string) (config : Config)
    (s : Exec) : list TranscriptResult * Exec :=
  match methods with
  | [] => ([], s)
  | method :: rest =>
      let (result, s') := transcriptResultOf videoId method config s in
      let (results, s'') := attempts videoId rest config s' in
      (result :: results, s'')
  end.

End Executor.

(** The entries the loop pushes for rejected results, in order. *)
Definition entries (methods : list string) (results : list TranscriptResult)
  : list string :=
  map (fun mr => insufficientEntry (fst mr) (snd mr)) (combine methods results).

(** No result of the list passes the sufficiency test. *)
Definition rejected (results : list TranscriptResult) : bool :=
  forallb (fun r => negb (sufficient r)) results.

Arguments world {World} e.
Arguments invoked {World} e.
Arguments mkExec {World} world invoked.

End UnifiedExtractor.

(* ===================================================================== *)
(** ** The subtitle encoding as the specification words it *)
(* ===================================================================== *)

Module SrtSpec.

Import UnifiedExtractor.

(** The line feed, code unit 10. *)
Definition newline : ascii := "010"%char.

(** A number zero-padded to two digits. *)
Definition twoDigits (n : N) : string :=
  if (n <? 10)%N then "0" ++ Js.numberToString n else Js.numberToString n.

(** A number zero-padded to three digits. *)
Definition threeDigits (n : N) : string :=
  if (n <? 10)%N then "00" ++ Js.numberToString n
  else if (n <? 100)%N then "0" ++ Js.numberToString n
  else Js.numberToString n.

(** [HH:MM:SS,mmm]: hours, minutes and seconds by integer division of the
    total, milliseconds as the total modulo 1000. *)
Definition timestamp (totalMs : N) : string :=
  twoDigits (totalMs / 3600000)%N ++ ":" ++
  twoDigits ((totalMs / 60000) mod 60)%N ++ ":" ++
  twoDigits ((totalMs / 1000) mod 60)%N ++ "," ++
  threeDigits (totalMs mod 1000)%N.

(** [HH:MM:SS,mmm --> HH:MM:SS,mmm] from the segment's start to its start
    plus its duration. *)
Definition timingLine (segment : Segment) : string :=
  timestamp (start segment) ++ " --> " ++
  timestamp (start segment + seg_duration segment)%N.

(** The lines of the subtitle text: for each segment, numbered from
    [index] on, its index line, its timing line and its text, with one
    blank line between a block and the next. *)
Fixpoint linesFrom (index : N) (segments : list Segment) : list string :=
  match segments with
  | [] => []
  | segment :: rest =>
      Js.numberToString index :: timingLine segment :: text segment
        :: match rest with
           | [] => []
           | _ :: _ => "" :: linesFrom (N.succ index) rest
           end
  end.

Definition lines (segments : list Segment) : list string := linesFrom 1%N segments.

(** A text from its lines, each ended by a line feed. *)
Fixpoint unlines (ls : list string) : string :=
  match ls with
  | [] => EmptyString
  | l :: rest => l ++ String newline (unlines rest)
  end.

(** The subtitle text of the segments. *)
Definition render (segments : list Segment) : string := unlines (lines segments).

(** The largest start plus duration under which every time of a segment is
    a whole number that a double holds exactly: 2^53. *)
Definition exactBound : N := 9007199254740992.

(** The segment ends no later than that. *)
Definition exactTimes (segment : Segment) : Prop :=
  (start segment + seg_duration segment <= exactBound)%N.

End SrtSpec.

(* ===================================================================== *)
(** ** Auxiliary definitions for the proofs *)
(* ===================================================================== *)

Module Aux.

(** Some code unit of [s] is one of [A-Z]. *)
Fixpoint hasAsciiUpper (s : string) : bool :=
  match s with
  | EmptyString => false
  | String c r => Js.isAsciiUpper c || hasAsciiUpper r
  end.

(** The keys of [LANGUAGE_MAPPINGS] written without a capital letter; they
    are the bare two-letter language codes. *)
Definition baseKeys : list string :=
  filter (fun k => negb (hasAsciiUpper k)) (map fst LanguageHandler.LANGUAGE_MAPPINGS).

(** Membership in a list of strings, as a boolean. *)
Definition mem (l : list string) (x : string) : bool := Js.includes l x.

(** Equality of two lists of strings, as a boolean. *)
Definition sameList (a b : list string) : bool :=
  if list_eq_dec string_dec a b then true else false.

(** A code that [normalizeLanguageCode] finds nowhere: lower-cased and
    trimmed it is no key, its part before the first hyphen is no key, and no
    key lists it as a variant. *)
Definition unknownCode (languageCode : string) : bool :=
  let normalized := Js.trim (Js.toLowerCase languageCode) in
  negb (LanguageHandler.supported LanguageHandler.initialStore normalized)
  && negb (LanguageHandler.supported LanguageHandler.initialStore
             (Js.splitHead "-" normalized))
  && match LanguageHandler.keyOfVariant LanguageHandler.LANGUAGE_MAPPINGS normalized with
     | Some _ => false
     | None => true
     end.

End Aux.

(* ===================================================================== *)
(** ** Concrete backends used to run the executor *)
(* ===================================================================== *)

Module Scenario.

Import StrategySelector UnifiedExtractor.

(** The world is a clock: every backend call takes 7 ms. *)
Definition World := Z.
Definition now (w : World) : Z := w.

Definition shortText : string := "Hello".

Definition longText : string :=
  "The quick brown fox jumps over the lazy dog, and then it sleeps.".

Definition rawOf (t : option string) (source : string) : RawResult :=
  mkRaw t "en" (9 # 10)%Q [] None "txt" (Some source).

(** A caption backend with no transcript for the video. *)
Definition throwingTranscript (videoId : string) (config : Config) (w : World)
  : Completion RawResult * World :=
  (Threw "youtube-transcript: No transcript data available", (w + 7)%Z).

(** A caption backend that returns five characters. *)
Definition shortCaptions (videoId : string) (config : Config) (w : World)
  : Completion RawResult * World :=
  (Returned (rawOf (Some shortText) "youtube-caption-extractor"), (w + 7)%Z).

(** A caption backend that returns a usable transcript. *)
Definition longCaptions (videoId : string) (config : Config) (w : World)
  : Completion RawResult * World :=
  (Returned (rawOf (Some longText) "youtube-caption-extractor"), (w + 7)%Z).

(** An audio backend that returns a usable transcript. *)
Definition longAudio (videoId : string) (config : Config) (w : World)
  : Completion RawResult * World :=
  (Returned (mkRaw (Some longText) "en" (95 # 100)%Q [] (Some 2000000%N) "txt" None),
   (w + 7)%Z).

Definition startState : Exec World := mkExec 0%Z [].

(** A live video with captions. *)
Definition liveWithCaptions : VideoMetadata :=
  mkMetadata "dQw4w9WgXcQ" "Live" "" 600%Z true false true ["en"].

(** An ordinary ten-minute video with captions in French only. *)
Definition frenchCaptions : VideoMetadata :=
  mkMetadata "dQw4w9WgXcQ" "Film" "" 600%Z false false true ["fr"].

(** A video without captions. *)
Definition noCaptions : VideoMetadata :=
  mkMetadata "dQw4w9WgXcQ" "Clip" "" 600%Z false false false [].

(** No preference given: every default applies. *)
Definition defaults : ExtractionPreferences := mkPreferences None None None.

(** The caller allows the audio fallback, and forbids it. *)
Definition withFallback : ExtractionPreferences :=
  mkPreferences (Some "en") (Some "txt") (Some true).

Definition noFallback : ExtractionPreferences :=
  mkPreferences (Some "en") (Some "txt") (Some false).

(** An upcoming premiere with captions, and a five-second clip with
    captions. *)
Definition premiere : VideoMetadata :=
  mkMetadata "dQw4w9WgXcQ" "Premiere" "" 0%Z false true true ["en"].

Definition fiveSeconds : VideoMetadata :=
  mkMetadata "dQw4w9WgXcQ" "Clip" "" 5%Z false false true ["en"].

(** A segment that starts at 2^53 ms and lasts 1 ms. *)
Definition farSegment : Segment := mkSegment "x" 9007199254740992 1.

(** Two segments, the second starting after an hour. *)
Definition twoSegments : list Segment :=
  [mkSegment "Hello" 0 1500; mkSegment "world" 3723004 996].

End Scenario.
(* ===================================================================== *)
(** ** Substring search *)
(* ===================================================================== *)

Module JsString.

(** [s.includes(pattern)] on strings: [pattern] occurs somewhere in [s]. *)
Fixpoint includes (s pattern : string) : bool :=
  String.prefix pattern s
  || match s with
     | EmptyString => false
     | String _ r => includes r pattern
     end.

(** A string of one code unit. *)
Definition unit (n : N) : string := String (ascii_of_N n) EmptyString.

End JsString.

(* ===================================================================== *)
(** ** utils/youtube-validator.js *)
(* ===================================================================== *)

Module YoutubeValidator.

(** The class [[a-zA-Z0-9_-]]. *)
Definition isIdChar (c : ascii) : bool :=
  let n := Js.code c in
  ((97 <=? n) && (n <=? 122) || (65 <=? n) && (n <=? 90)
   || (48 <=? n) && (n <=? 57) || (n =? 95) || (n =? 45))%N.

Fixpoint allIdChars (s : string) : bool :=
  match s with
  | EmptyString => true
  | String c r => isIdChar c && allIdChars r
  end.

(** [/^[a-zA-Z0-9_-]{11}$/.test(s)] *)
Definition isBareId (s : string) : bool :=
  (String.length s =? 11)%nat && allIdChars s.

(** The group [([a-zA-Z0-9_-]{11})] matched at the head of [s]. *)
Definition idAtHead (s : string) : option string :=
  let id := String.substring 0 11 s in
  if isBareId id then Some id else None.

(** The literal [literal] matched at the head of [s]: what follows it. *)
Fixpoint afterLiteral (literal s : string) : option string :=
  match literal with
  | EmptyString => Some s
  | String a l =>
      match s with
      | EmptyString => None
      | String b r => if Ascii.eqb a b then afterLiteral l r else None
      end
  end.

(** [s.match(/head([a-zA-Z0-9_-]{11})/)]: the group of the leftmost match,
    [head] being the part of the pattern before the group. *)
Fixpoint search (head : string -> option string) (s : string) : option string :=
  match match head s with
        | Some rest => idAtHead rest
        | None => None
        end with
  | Some id => Some id
  | None =>
      match s with
      | EmptyString => None
      | String _ r => search head r
      end
  end.

(** [[?&]v=] *)
Definition watchHead (s : string) : option string :=
  match s with
  | EmptyString => None
  | String c r =>
      if Ascii.eqb c "?" || Ascii.eqb c "&" then afterLiteral "v=" r else None
  end.

Definition extractVideoId (input : string) : option string :=
  if negb (Js.truthy input) then None
  else if isBareId input then Some input
  else
    match search watchHead input with
    | Some id => Some id
    | None =>
        match search (afterLiteral "youtu.be/") input with
        | Some id => Some id
        | None =>
            match search (afterLiteral "youtube.com/embed/") input with
            | Some id => Some id
            | None => search (afterLiteral "youtube.com/shorts/") input
            end
        end
    end.

Definition watchUrl (videoId : string) : string :=
  "https://www.youtube.com/watch?v=" ++ videoId.

Definition normalizeYouTubeUrl (input : string) : string :=
  match extractVideoId input with
  | None => input
  | Some videoId => watchUrl videoId
  end.

Definition isValidVideoId (videoId : string) : bool :=
  if negb (Js.truthy videoId) then false else isBareId videoId.

Record ValidationResult := mkValidation {
  isValid : bool;
  v_videoId : option string;
  normalizedUrl : option string;
  v_error : option string
}.

Definition validateYouTubeUrl (input : string) : ValidationResult :=
  if negb (Js.truthy input) then
    mkValidation false None None (Some "Input must be a non-empty string")
  else
    let trimmedInput := Js.trim input in
    match extractVideoId trimmedInput with
    | None =>
        mkValidation false None None (Some "Invalid YouTube URL format or video ID")
    | Some videoId =>
        if negb (isValidVideoId videoId) then
          mkValidation false (Some videoId) None
            (Some "Invalid video ID format (must be 11 characters)")
        else
          mkValidation true (Some videoId) (Some (normalizeYouTubeUrl trimmedInput)) None
    end.

Definition getUrlType (input : string) : string :=
  if negb (Js.truthy input) then "invalid"
  else if isBareId input then "videoId"
  else if JsString.includes input "youtube.com/watch" then "watch"
  else if JsString.includes input "youtu.be/" then "short"
  else if JsString.includes input "youtube.com/embed/" then "embed"
  else if JsString.includes input "youtube.com/shorts/" then "shorts"
  else "invalid".

End YoutubeValidator.

(* ===================================================================== *)
(** ** services/language-handler.js: detection from text *)
(* ===================================================================== *)

Module LanguageDetection.

Record Detection := mkDetection {
  detectedLanguage : string;
  d_confidence : Q;
  d_method : string
}.

Definition englishWords : list string :=
  ["the"; "and"; "that"; "have"; "for"; "not"; "with"; "you"; "this"; "but"].

Definition spanishWords : list string :=
  ["que"; "de"; "no"; "la"; "el"; "en"; "es"; "se"; "te"; "lo"].

(** The fourth word is U+00E0, the seventh starts with U+00EA; [et] is
    listed twice. *)
Definition frenchWords : list string :=
  ["le"; "de"; "et"; JsString.unit 224; "un"; "il";
   (JsString.unit 234 ++ "tre")%string; "et"; "en"; "avoir"].

Definition germanWords : list string :=
  ["der"; "die"; "und"; "in"; "den"; "von"; "zu"; "das"; "mit"; "sich"].

(** [words.filter(word => text.includes(` ${word} `)).length >= 3] *)
Definition hasIndicators (words : list string) (text : string) : bool :=
  (3 <=? length (filter (fun word => JsString.includes text (" " ++ word ++ " ")%string) words))%nat.

Definition _hasEnglishIndicators := hasIndicators englishWords.
Definition _hasSpanishIndicators := hasIndicators spanishWords.
Definition _hasFrenchIndicators := hasIndicators frenchWords.
Definition _hasGermanIndicators := hasIndicators germanWords.

Definition detectLanguageFromText (text : string) : Detection :=
  if negb (Js.truthy text) || (String.length text <? 50)%nat then
    mkDetection "en" (1 # 10)%Q "default"
  else
    let lowerText := Js.toLowerCase text in
    if _hasEnglishIndicators lowerText then mkDetection "en" (7 # 10)%Q "heuristic"
    else if _hasSpanishIndicators lowerText then mkDetection "es" (7 # 10)%Q "heuristic"
    else if _hasFrenchIndicators lowerText then mkDetection "fr" (7 # 10)%Q "heuristic"
    else if _hasGermanIndicators lowerText then mkDetection "de" (7 # 10)%Q "heuristic"
    else mkDetection "en" (3 # 10)%Q "fallback".

End LanguageDetection.

(* ===================================================================== *)
(** ** services/strategy-selector.js: the remaining helpers *)
(* ===================================================================== *)

Module StrategyHelpers.

Import StrategySelector.

(** [this.selectStrategy(metadata, preferences).includes(method)] *)
Definition isMethodRecommended (metadata : VideoMetadata) (method : string)
    (preferences : ExtractionPreferences) : bool :=
  Js.includes (selectStrategy metadata preferences) method.

(** [availableLanguages.forEach(lang => { if (test(lang) &&
    !fallbacks.includes(lang)) fallbacks.push(lang) })] *)
Definition pushNew (test : string -> bool) (availableLanguages fallbacks : list string)
  : list string :=
  fold_left (fun fallbacks lang =>
               if test lang && negb (Js.includes fallbacks lang)
               then fallbacks ++ [lang] else fallbacks)
            availableLanguages fallbacks.

Definition _getFallbackLanguages (availableLanguages : list string)
    (preferredLanguage : string) : list string :=
  match availableLanguages with
  | [] => [preferredLanguage]
  | _ =>
      let langPrefix := Js.splitHead "-" preferredLanguage in
      let fallbacks :=
        if Js.includes availableLanguages preferredLanguage
        then [preferredLanguage] else [] in
      let fallbacks :=
        pushNew (fun lang => Js.startsWith lang langPrefix) availableLanguages fallbacks in
      let fallbacks :=
        if negb (existsb (fun lang => Js.startsWith lang "en") fallbacks)
        then fallbacks ++ filter (fun lang => Js.startsWith lang "en") availableLanguages
        else fallbacks in
      let fallbacks := pushNew (fun _ => true) availableLanguages fallbacks in
      match fallbacks with
      | [] => [preferredLanguage]
      | _ => fallbacks
      end
  end.

End StrategyHelpers.

(* ===================================================================== *)
(** ** services/unified-extractor.js: the three backends *)
(* ===================================================================== *)

Module Backends.

Import StrategySelector UnifiedExtractor.

(** The options object of [YoutubeTranscript.fetchTranscript]: omitted, or
    [{ lang, country }] with a possibly undefined [lang]. *)
Inductive FetchOptions :=
| NoOptions
| LangCountry (lang : option string) (country : LanguageHandler.Country).

(** The [lang] property of the argument of [getSubtitles]: omitted, or
    given with a possibly undefined value. *)
Inductive LangArg :=
| LangOmitted
| Lang (lang : option string).

(** The calls a backend makes to the libraries it wraps. *)
Inductive Request :=
| FetchTranscript (videoId : string) (options : FetchOptions)
| GetSubtitles (videoId : string) (lang : LangArg)
| GetVideoDetails (videoId : string)
| DownloadAudio (videoUrl : string)
| CreateTranscription (request : TranscriptionRequest).

(** The response of [openai.audio.transcriptions.create]. *)
Record WhisperResponse := mkWhisperResponse {
  w_text : option string;
  w_language : option string;
  w_segments : option (list Segment)
}.

(** What [_extractWithCaptionExtractor] returns: the formatted result and
    the value it then assigns to the result's [language] property. *)
Record CaptionResult := mkCaptionResult {
  cr_result : RawResult;
  cr_language : option string
}.

Section Libraries.

(** Everything outside the process. *)
Variable World : Type.

(** An element of the arrays the caption libraries return, and the callback
    of [rawTranscript.map] in [_formatTranscriptResult], which keeps the
    item's text and converts its offset and duration to milliseconds (taken
    here as whole numbers). *)
Variable Item : Type.
Variable segmentOf : Item -> Segment.

(** What [getVideoDetails] returns, and
    [JSON.stringify({ segments, source, videoDetails }, null, 2)]. *)
Variable VideoDetails : Type.
Variable stringify : list Segment -> string -> option VideoDetails -> string.

(** The wrapped libraries. *)
Variable fetchTranscript :
  string -> FetchOptions -> World -> Completion (list Item) * World.
Variable getSubtitles :
  string -> LangArg -> World -> Completion (list Item) * World.
Variable getVideoDetails :
  string -> World -> Completion VideoDetails * World.

(** [this.openai] is set. *)
Variable openaiConfigured : bool.

(** [_downloadYouTubeAudio]: the byte length of the buffer it returns. *)
Variable downloadAudio : string -> World -> Completion N * World.
Variable createTranscription :
  TranscriptionRequest -> World -> Completion WhisperResponse * World.

(** The world together with the library calls made so far, oldest first. *)
Record Outside := mkOutside {
  outer : World;
  calls : list Request
}.

(** One library call, recorded. *)
Definition call {A} (r : Request) (f : World -> Completion A * World) (o : Outside)
  : Completion A * Outside :=
  let (c, w') := f (outer o) in
  (c, mkOutside w' (calls o ++ [r])).

Definition _formatTranscriptResult (rawTranscript : list Item) (config : Config)
    (source : string) (videoDetails : option VideoDetails) : RawResult :=
  let format := orElse (c_format config) "txt" in
  let segments := map segmentOf rawTranscript in
  let transcript :=
    if format =? "srt" then _formatAsSrt segments
    else if format =? "json" then stringify segments source videoDetails
    else Js.join " " (map text segments) in
  mkRaw (Some transcript) (orElse (c_language config) "en") (9 # 10)%Q segments
        None format (Some source).

(** The [methods] array of [_extractWithYouTubeTranscript], by the options
    each entry fetches with. *)
Definition transcriptAttempts (config : Config) : list FetchOptions :=
  [LangCountry (c_language config) (countryOr (c_country config) "US"); NoOptions]
  ++ match c_fallbackLanguages config with
     | Some languages =>
         map (fun lang => LangCountry (Some lang) (LanguageHandler.CountryCode "US"))
             languages
     | None => []
     end.

(** The [for] loop of [_extractWithYouTubeTranscript] and the [throw] after
    it. *)
Fixpoint tryTranscripts (videoId : string) (config : Config)
    (attempts : list FetchOptions) (o : Outside) : Completion RawResult * Outside :=
  match attempts with
  | [] => (Threw "youtube-transcript: No transcript data available", o)
  | options :: rest =>
      match call (FetchTranscript videoId options)
                 (fetchTranscript videoId options) o with
      | (Returned [], o') => tryTranscripts videoId config rest o'
      | (Returned transcript, o') =>
          (Returned (_formatTranscriptResult transcript config "youtube-transcript" None),
           o')
      | (Threw _, o') => tryTranscripts videoId config rest o'
      end
  end.

Definition _extractWithYouTubeTranscript (videoId : string) (config : Config)
    (o : Outside) : Completion RawResult * Outside :=
  tryTranscripts videoId config (transcriptAttempts config) o.

(** An answer that loop accepts: a non-empty array. *)
Definition usable (answer : Completion (list Item)) : bool :=
  match answer with
  | Returned (_ :: _) => true
  | Returned [] => false
  | Threw _ => false
  end.

(** The answers of [fetchTranscript] to the requests [attempts] made one
    after the other, whatever is answered. *)
Fixpoint fetchEach (videoId : string) (attempts : list FetchOptions) (o : Outside)
  : list (Completion (list Item)) * Outside :=
  match attempts with
  | [] => ([], o)
  | options :: rest =>
      let (answer, o') :=
        call (FetchTranscript videoId options) (fetchTranscript videoId options) o in
      let (answers, o'') := fetchEach videoId rest o' in
      (answer :: answers, o'')
  end.

(** The loop over [languages] of [_extractWithCaptionExtractor]: the
    subtitles of the first language whose request does not throw, with that
    language. *)
Fixpoint firstAnswer (videoId : string) (languages : list (option string))
    (o : Outside) : option (list Item * option string) * Outside :=
  match languages with
  | [] => (None, o)
  | lang :: rest =>
      match call (GetSubtitles videoId (Lang lang))
                 (getSubtitles videoId (Lang lang)) o with
      | (Returned subtitles, o') => (Some (subtitles, lang), o')
      | (Threw _, o') => firstAnswer videoId rest o'
      end
  end.

(** The first part of the [try] block: [subtitles] (undefined when every
    language threw) and [usedLanguage], or the error that leaves the
    block. *)
Definition findSubtitles (videoId : string) (config : Config) (o : Outside)
  : Completion (option (list Item) * option string) * Outside :=
  match c_languageConfig config with
  | Some languageConfig =>
      let languages :=
        c_language config :: map Some (LanguageHandler.fallbackLanguages languageConfig) in
      match firstAnswer videoId languages o with
      | (Some (subtitles, lang), o') => (Returned (Some subtitles, lang), o')
      | (None, o') => (Returned (None, c_language config), o')
      end
  | None =>
      match call (GetSubtitles videoId (Lang (c_language config)))
                 (getSubtitles videoId (Lang (c_language config))) o with
      | (Returned subtitles, o') => (Returned (Some subtitles, c_language config), o')
      | (Threw _, o') =>
          match call (GetSubtitles videoId LangOmitted)
                     (getSubtitles videoId LangOmitted) o' with
          | (Returned subtitles, o'') =>
              (Returned (Some subtitles, Some "auto-detected"), o'')
          | (Threw message, o'') => (Threw message, o'')
          end
      end
  end.

(** The [try] block of [_extractWithCaptionExtractor]. *)
Definition captionAttempt (videoId : string) (config : Config) (o : Outside)
  : Completion CaptionResult * Outside :=
  match findSubtitles videoId config o with
  | (Threw message, o') => (Threw message, o')
  | (Returned (None, _), o') => (Threw "No subtitles found", o')
  | (Returned (Some [], _), o') => (Threw "No subtitles found", o')
  | (Returned (Some subtitles, usedLanguage), o') =>
      let (details, o'') :=
        match call (GetVideoDetails videoId) (getVideoDetails videoId) o' with
        | (Returned d, o'') => (Some d, o'')
        | (Threw _, o'') => (None, o'')
        end in
      (Returned (mkCaptionResult
                   (_formatTranscriptResult subtitles config
                      "youtube-caption-extractor" details)
                   usedLanguage),
       o'')
  end.

Definition _extractWithCaptionExtractor (videoId : string) (config : Config)
    (o : Outside) : Completion CaptionResult * Outside :=
  match captionAttempt videoId config o with
  | (Returned result, o') => (Returned result, o')
  | (Threw message, o') => (Threw ("youtube-caption-extractor: " ++ message)%string, o')
  end.

Definition _transcribeWithWhisper (config : Config) (o : Outside)
  : Completion WhisperResponse * Outside :=
  let request := transcriptionRequest LanguageHandler.initialStore config in
  match call (CreateTranscription request) (createTranscription request) o with
  | (Returned response, o') => (Returned response, o')
  | (Threw message, o') => (Threw ("Whisper API error: " ++ message)%string, o')
  end.

(** [a || b || 'en'] on two possibly absent strings. *)
Definition firstTruthy (a b : option string) (c : string) : string :=
  orElse a (orElse b c).

Definition _extractWithWhisperAudio (videoId : string) (config : Config)
    (o : Outside) : Completion RawResult * Outside :=
  if negb openaiConfigured then
    (Threw "OpenAI API key not configured for audio transcription", o)
  else
    let videoUrl := ("https://www.youtube.com/watch?v=" ++ videoId)%string in
    match call (DownloadAudio videoUrl) (downloadAudio videoUrl) o with
    | (Threw message, o') => (Threw message, o')
    | (Returned byteLength, o') =>
        if (byteLength <? 1000000)%N then
          (Threw ("Audio too small (" ++ Js.numberToString byteLength
                  ++ " bytes) - likely not real content")%string, o')
        else
          match _transcribeWithWhisper config o' with
          | (Threw message, o'') => (Threw message, o'')
          | (Returned whisperResult, o'') =>
              (Returned
                 (mkRaw (w_text whisperResult)
                        (firstTruthy (w_language whisperResult) (c_language config) "en")
                        (95 # 100)%Q
                        (match w_segments whisperResult with
                         | Some segments => segments
                         | None => []
                         end)
                        (Some byteLength)
                        (orElse (c_format config) "txt")
                        None),
               o'')
          end
    end.

End Libraries.

Arguments outer {World} o.
Arguments calls {World} o.
Arguments mkOutside {World} outer calls.

End Backends.

(* ===================================================================== *)
(** ** services/response-formatter.js: error codes and HTTP status *)
(* ===================================================================== *)

Module ResponseFormatter.

(** [ERROR_CODES] (types/interfaces.js) *)
Definition INVALID_URL : string := "INVALID_URL".
Definition INVALID_VIDEO_ID : string := "INVALID_VIDEO_ID".
Definition MISSING_PARAMETERS : string := "MISSING_PARAMETERS".
Definition VIDEO_NOT_FOUND : string := "VIDEO_NOT_FOUND".
Definition VIDEO_PRIVATE : string := "VIDEO_PRIVATE".
Definition VIDEO_RESTRICTED : string := "VIDEO_RESTRICTED".
Definition NO_CAPTIONS_AVAILABLE : string := "NO_CAPTIONS_AVAILABLE".
Definition AUDIO_DOWNLOAD_FAILED : string := "AUDIO_DOWNLOAD_FAILED".
Definition WHISPER_API_ERROR : string := "WHISPER_API_ERROR".
Definition ALL_METHODS_FAILED : string := "ALL_METHODS_FAILED".
Definition RATE_LIMIT_EXCEEDED : string := "RATE_LIMIT_EXCEEDED".
Definition QUOTA_EXCEEDED : string := "QUOTA_EXCEEDED".

(** [_determineErrorCode]; [None] is a message that is not a string. *)
Definition _determineErrorCode (message : option string) : string :=
  match message with
  | None => ALL_METHODS_FAILED
  | Some message =>
      if message =? "" then ALL_METHODS_FAILED
      else
        let lowerMessage := Js.toLowerCase message in
        let has := JsString.includes lowerMessage in
        if has "invalid" && has "url" then INVALID_URL
        else if has "invalid" && has "video" then INVALID_VIDEO_ID
        else if has "not found" || has "unavailable" then VIDEO_NOT_FOUND
        else if has "private" || has "access denied" then VIDEO_PRIVATE
        else if has "restricted" || has "blocked" then VIDEO_RESTRICTED
        else if has "no captions" || has "no transcript" then NO_CAPTIONS_AVAILABLE
        else if has "audio download" || has "download failed" then AUDIO_DOWNLOAD_FAILED
        else if has "whisper" || has "openai" then WHISPER_API_ERROR
        else if has "all methods failed" then ALL_METHODS_FAILED
        else if has "rate limit" then RATE_LIMIT_EXCEEDED
        else if has "quota" then QUOTA_EXCEEDED
        else ALL_METHODS_FAILED
  end.

Definition _getHttpStatusForError (errorCode : string) : N :=
  if (errorCode =? INVALID_URL) || (errorCode =? INVALID_VIDEO_ID)
     || (errorCode =? MISSING_PARAMETERS) then 400
  else if errorCode =? VIDEO_PRIVATE then 403
  else if errorCode =? VIDEO_NOT_FOUND then 404
  else if (errorCode =? RATE_LIMIT_EXCEEDED) || (errorCode =? QUOTA_EXCEEDED) then 429
  else if (errorCode =? NO_CAPTIONS_AVAILABLE) || (errorCode =? AUDIO_DOWNLOAD_FAILED)
          || (errorCode =? WHISPER_API_ERROR) || (errorCode =? ALL_METHODS_FAILED) then 502
  else if errorCode =? VIDEO_RESTRICTED then 451
  else 500.

(** An error object: its [message] and [code] properties, each possibly
    absent. *)
Record ErrorObject := mkError {
  e_message : option string;
  e_code : option string
}.

(** [error.message] after the first two statements of [formatError]; the
    argument [None] is a missing error. *)
Definition messageOf (error : option ErrorObject) : string :=
  match error with
  | Some e =>
      match e_message e with
      | Some m => m
      | None => "Unknown error occurred"
      end
  | None => "Unknown error occurred"
  end.

(** The constant [errorCode] of [formatError]:
    [error.code || this._determineErrorCode(error.message)]. *)
Definition errorCodeOf (error : option ErrorObject) : string :=
  StrategySelector.orElse
    (match error with Some e => e_code e | None => None end)
    (_determineErrorCode (Some (messageOf error))).

(** The [httpStatus] that [formatError] returns. *)
Definition httpStatusOf (error : option ErrorObject) : N :=
  _getHttpStatusForError (errorCodeOf error).

(** The error [formatValidationError] builds before it calls
    [formatError]. *)
Definition validationError (field reason : string) : ErrorObject :=
  mkError (Some ("Invalid " ++ field ++ ": " ++ reason)%string) (Some INVALID_URL).

End ResponseFormatter.

(* ===================================================================== *)
(** ** services/metadata-extractor.js: error classification *)
(* ===================================================================== *)

Module MetadataExtractor.

Import ResponseFormatter.


(** An element of [captionTracks]: its [languageCode] and [vssId]
    properties, each possibly absent. *)
Record CaptionTrack := mkTrack {
  languageCode : option string;
  vssId : option string
}.

Record CaptionInfo := mkCaptionInfo {
  ci_hasClosedCaptions : bool;
  ci_availableLanguages : list string
}.

(** [_extractCaptionInfo], on the value of
    [playerResponse?.captions?.playerCaptionsTracklistRenderer?.captionTracks];
    [None] is a value that is missing or is no array. *)
Definition _extractCaptionInfo (captionTracks : option (list CaptionTrack))
  : CaptionInfo :=
  match captionTracks with
  | None => mkCaptionInfo false []
  | Some [] => mkCaptionInfo false []
  | Some captions =>
      let availableLanguages :=
        filter (fun lang => negb (lang =? "unknown"))
               (map (fun caption =>
                       StrategySelector.orElse (languageCode caption)
                         (StrategySelector.orElse (vssId caption) "unknown"))
                    captions) in
      mkCaptionInfo true (Js.uniq availableLanguages)
  end.

End MetadataExtractor.

(* ===================================================================== *)
(** ** index.js: the strategies of the [/transcript] endpoint *)
(* ===================================================================== *)

Module Endpoint.

Import StrategySelector.

(** The [preferences] object built from the query parameters [lang],
    [format] and [fallbackToAudio]. *)
Definition requestPreferences (lang format fallbackToAudio : string)
  : ExtractionPreferences :=
  mkPreferences (Some lang) (Some format) (Some (fallbackToAudio =? "true")).

(** The value of [strategies] after step 3 of the handler. *)
Definition resolveStrategies (method lang format fallbackToAudio : string)
    (metadata : VideoMetadata) : list string :=
  if method =? "auto" then
    if negb (hasClosedCaptions metadata) || Js.startsWith (title metadata) "Video " then
      ["youtube-transcript"; "youtube-caption-extractor"]
      ++ (if fallbackToAudio =? "true" then ["whisper-audio"] else [])
    else selectStrategy metadata (requestPreferences lang format fallbackToAudio)
  else
    [method]
    ++ (if (fallbackToAudio =? "true") && negb (method =? "whisper-audio")
        then ["whisper-audio"] else []).

(** The error the handler builds from a failed result,
    [new Error(result.error)], whose message is the empty string when
    [result.error] is undefined. *)
Definition extractionError (result : UnifiedExtractor.TranscriptResult)
  : ResponseFormatter.ErrorObject :=
  ResponseFormatter.mkError
    (Some (match UnifiedExtractor.error result with
           | Some m => m
           | None => ""
           end))
    None.

End Endpoint.

(* ===================================================================== *)
(** ** Concrete libraries used to run the backends *)
(* ===================================================================== *)

Module LibraryScenario.

Import StrategySelector UnifiedExtractor Backends.

(** The world counts the library calls answered so far. *)
Definition World := nat.

(** A caption item is its text; every item lasts one second from 0. *)
Definition Item := string.
Definition segmentOf (item : Item) : Segment := mkSegment item 0 1000.

Definition VideoDetails := unit.
Definition stringify (segments : list Segment) (source : string)
    (details : option VideoDetails) : string := "{}".

(** No transcript under any options. *)
Definition fetchTranscript (videoId : string) (options : FetchOptions) (w : World)
  : Completion (list Item) * World :=
  (Threw "Transcript is disabled on this video", S w).

(** English subtitles exist but are empty; every other language has one
    line. *)
Definition getSubtitles (videoId : string) (lang : LangArg) (w : World)
  : Completion (list Item) * World :=
  match lang with
  | Lang (Some "en") => (Returned [], S w)
  | _ => (Returned ["Bonjour"], S w)
  end.

Definition getVideoDetails (videoId : string) (w : World)
  : Completion VideoDetails * World :=
  (Threw "details unavailable", S w).

(** The download yields half a megabyte. *)
Definition downloadAudio (videoUrl : string) (w : World) : Completion N * World :=
  (Returned 500000%N, S w).

Definition createTranscription (request : TranscriptionRequest) (w : World)
  : Completion WhisperResponse * World :=
  (Returned (mkWhisperResponse (Some "never reached") None None), S w).

Definition start : Outside World := mkOutside 0%nat [].

(** The request for the transcript of the sample video in the language
    [lang], for the country "US". *)
Definition fetchIn (lang : string) : Request :=
  FetchTranscript "dQw4w9WgXcQ"
    (LangCountry (Some lang) (LanguageHandler.CountryCode "US")).

(** A transcript library whose first call fails, whose second call answers
    an empty array, whose third call answers one line and whose later calls
    would answer another. *)
Definition fetchThird (videoId : string) (options : FetchOptions) (w : World)
  : Completion (list Item) * World :=
  match w with
  | 0%nat => (Threw "Transcript is disabled on this video", S w)
  | 1%nat => (Returned [], S w)
  | 2%nat => (Returned ["Hello"], S w)
  | _ => (Returned ["Later"], S w)
  end.

(** The configuration of the transcript technique for an English request on
    a video whose captions are English. *)
Definition transcriptConfig : Config :=
  fst (getMethodConfig YOUTUBE_TRANSCRIPT
         (mkMetadata "dQw4w9WgXcQ" "Film" "" 600%Z false false true ["en"])
         (mkPreferences None None None) LanguageHandler.initialStore).


End LibraryScenario.

(* ===================================================================== *)
(** ** Auxiliary definitions for the proofs about error messages *)
(* ===================================================================== *)

Module Mask.

(** [0-9]. *)
Definition isDigit (c : ascii) : bool :=
  let n := Js.code c in ((48 <=? n) && (n <=? 57))%N.

(** Every digit replaced by [0]. *)
Fixpoint mask (s : string) : string :=
  match s with
  | EmptyString => EmptyString
  | String c r => String (if isDigit c then "0"%char else c) (mask r)
  end.

Fixpoint noDigit (s : string) : bool :=
  match s with
  | EmptyString => true
  | String c r => negb (isDigit c) && noDigit r
  end.

(** The entry of the aggregated message for a technique and a count. *)
Definition entry (method : string) (count : N) : string :=
  method ++ ": Insufficient content (" ++ Js.numberToString count ++ " chars)".

(** The aggregated message for techniques and counts. *)
Definition report (items : list (string * N)) : string :=
  "All extraction methods failed. Errors: "
  ++ Js.join "; " (map (fun item => entry (fst item) (snd item)) items).

(** One of the three technique names. *)
Definition standard (method : string) : Prop :=
  method = StrategySelector.YOUTUBE_TRANSCRIPT
  \/ method = StrategySelector.YOUTUBE_CAPTION_EXTRACTOR
  \/ method = StrategySelector.WHISPER_AUDIO.

End Mask.


(* ===================================================================== *)
(** ** Facts about the JavaScript primitives *)
(* ===================================================================== *)

Module JsFacts.

Import Js Aux.

Lemma toLowerChar_not_upper (c : ascii) : isAsciiUpper (toLowerChar c) = false.
Proof.
  destruct c as [[] [] [] [] [] [] [] []]; reflexivity.
Qed.

Lemma toLowerCase_no_upper (s : string) : hasAsciiUpper (toLowerCase s) = false.
Proof.
  induction s as [|c r IH]; simpl.
  - reflexivity.
  - now rewrite toLowerChar_not_upper, IH.
Qed.

Lemma trimStart_no_upper (s : string) :
  hasAsciiUpper s = false -> hasAsciiUpper (trimStart s) = false.
Proof.
  induction s as [|c r IH]; simpl; intros H.
  - reflexivity.
  - apply orb_false_iff in H as [Hc Hr].
    destruct (isWhiteSpace c).
    + now apply IH.
    + simpl. now rewrite Hc, Hr.
Qed.

Lemma trimEnd_no_upper (s : string) :
  hasAsciiUpper s = false -> hasAsciiUpper (trimEnd s) = false.
Proof.
  induction s as [|c r IH]; simpl; intros H.
  - reflexivity.
  - apply orb_false_iff in H as [Hc Hr].
    specialize (IH Hr).
    destruct (trimEnd r) as [|c' r'].
    + destruct (isWhiteSpace c); simpl; [reflexivity | now rewrite Hc].
    + simpl in *. now rewrite Hc, IH.
Qed.

Lemma trim_no_upper (s : string) :
  hasAsciiUpper s = false -> hasAsciiUpper (trim s) = false.
Proof.
  intros H. unfold trim. now apply trimEnd_no_upper, trimStart_no_upper.
Qed.

Lemma splitHead_no_upper (sep : ascii) (s : string) :
  hasAsciiUpper s = false -> hasAsciiUpper (splitHead sep s) = false.
Proof.
  induction s as [|c r IH]; simpl; intros H.
  - reflexivity.
  - apply orb_false_iff in H as [Hc Hr].
    destruct (Ascii.eqb c sep); simpl; [reflexivity | now rewrite Hc, IH].
Qed.

Lemma includes_In (l : list string) (x : string) : includes l x = true <-> In x l.
Proof.
  unfold includes. rewrite existsb_exists. split.
  - intros [y [Hy He]]. apply String.eqb_eq in He. now subst.
  - intros H. exists x. split; [assumption | apply String.eqb_refl].
Qed.

(** A property checked by a boolean on every element of a list holds of
    each of its members. *)
Lemma checked_on (l : list string) (p : string -> bool) (x : string) :
  forallb p l = true -> In x l -> p x = true.
Proof.
  intros H Hx. rewrite forallb_forall in H. now apply H.
Qed.

Lemma join_cons2 (sep a b : string) (l : list string) :
  join sep (a :: b :: l) = (a ++ sep ++ join sep (b :: l))%string.
Proof. reflexivity. Qed.

Lemma append_assoc (a b c : string) : ((a ++ b) ++ c = a ++ (b ++ c))%string.
Proof.
  induction a as [|x a IH]; simpl; [reflexivity | now rewrite IH].
Qed.

Lemma append_empty_r (a : string) : (a ++ "")%string = a.
Proof.
  induction a as [|x a IH]; simpl; [reflexivity | now rewrite IH].
Qed.

End JsFacts.

(* ===================================================================== *)
(** ** Facts about the language handler *)
(* ===================================================================== *)

Module LanguageFacts.

Import LanguageHandler Aux JsFacts.

Lemma find_some_In {A} (p : A -> bool) (l : list A) (x : A) :
  find p l = Some x -> In x l /\ p x = true.
Proof. apply find_some. Qed.

(** Every variant written without a capital letter either is itself a key
    or is listed under a bare two-letter key. *)
Lemma variants_of_regional_keys :
  forallb (fun kv =>
             forallb (fun v => hasAsciiUpper v
                               || mem (map fst LANGUAGE_MAPPINGS) v
                               || negb (hasAsciiUpper (fst kv)))
                     (snd kv))
          LANGUAGE_MAPPINGS = true.
Proof. vm_compute. reflexivity. Qed.

Lemma lower_key_is_base (k : string) :
  In k (map fst LANGUAGE_MAPPINGS) -> hasAsciiUpper k = false -> In k baseKeys.
Proof.
  intros Hk Hu. unfold baseKeys. apply filter_In. split; [assumption|].
  now rewrite Hu.
Qed.

Lemma en_is_base : In "en" baseKeys.
Proof. vm_compute. auto. Qed.

(** [normalizeLanguageCode] only ever answers a bare two-letter key of the
    table. *)
Lemma normalize_range (languageCode : string) :
  In (normalizeLanguageCode initialStore languageCode) baseKeys.
Proof.
  unfold normalizeLanguageCode.
  destruct (negb (Js.truthy languageCode)); [apply en_is_base|].
  set (normalized := Js.trim (Js.toLowerCase languageCode)).
  assert (Hn : hasAsciiUpper normalized = false)
    by apply trim_no_upper, toLowerCase_no_upper.
  destruct (supported initialStore normalized) eqn:Hs.
  - apply lower_key_is_base; [| assumption]. now apply includes_In in Hs.
  - destruct (supported initialStore (Js.splitHead "-" normalized)) eqn:Hb.
    + apply lower_key_is_base.
      * now apply includes_In in Hb.
      * now apply splitHead_no_upper.
    + unfold keyOfVariant.
      destruct (find _ (mappings initialStore)) as [kv|] eqn:Hf; [| apply en_is_base].
      apply find_some_In in Hf as [Hin Hinc].
      apply includes_In in Hinc.
      pose proof variants_of_regional_keys as Htab.
      rewrite forallb_forall in Htab. specialize (Htab kv Hin).
      rewrite forallb_forall in Htab. specialize (Htab normalized Hinc).
      rewrite Hn in Htab. unfold mem in Htab.
      change (Js.includes (map fst LANGUAGE_MAPPINGS) normalized)
        with (supported initialStore normalized) in Htab.
      rewrite Hs in Htab. simpl in Htab.
      apply lower_key_is_base.
      * apply in_map_iff. exists kv. split; [reflexivity | assumption].
      * now apply negb_true_iff in Htab.
Qed.

(** What holds of every bare key, each checked on the table. *)
Lemma base_key_facts (k : string) :
  In k baseKeys ->
  Js.splitHead "-" k = k
  /\ Js.truthy k = true
  /\ normalizeLanguageCode initialStore k = k
  /\ (exists arr, lookup LANGUAGE_MAPPINGS k = Some arr
                  /\ (2 <= length (Js.uniq arr))%nat).
Proof.
  intros Hk.
  assert (H1 : forallb (fun k => Js.splitHead "-" k =? k) baseKeys = true)
    by (vm_compute; reflexivity).
  assert (H2 : forallb Js.truthy baseKeys = true) by (vm_compute; reflexivity).
  assert (H3 : forallb (fun k => normalizeLanguageCode initialStore k =? k) baseKeys = true)
    by (vm_compute; reflexivity).
  assert (H4 : forallb (fun k => match lookup LANGUAGE_MAPPINGS k with
                                 | Some arr => (2 <=? length (Js.uniq arr))%nat
                                 | None => false
                                 end) baseKeys = true)
    by (vm_compute; reflexivity).
  pose proof (checked_on _ _ _ H1 Hk) as E1.
  pose proof (checked_on _ _ _ H2 Hk) as E2.
  pose proof (checked_on _ _ _ H3 Hk) as E3.
  pose proof (checked_on _ _ _ H4 Hk) as E4.
  cbv beta in E1, E3, E4.
  apply String.eqb_eq in E1. apply String.eqb_eq in E3.
  repeat split; try assumption.
  destruct (lookup LANGUAGE_MAPPINGS k) as [arr|]; [| discriminate].
  exists arr. split; [reflexivity | now apply Nat.leb_le].
Qed.

(** Between two bare keys, "starts with" is equality. *)
Lemma base_keys_prefix_free (a b : string) :
  In a baseKeys -> In b baseKeys ->
  (Js.startsWith a b || (a =? b)) = (a =? b).
Proof.
  intros Ha Hb.
  assert (H : forallb (fun a =>
                forallb (fun b => Bool.eqb (Js.startsWith a b || (a =? b)) (a =? b))
                        baseKeys) baseKeys = true)
    by (vm_compute; reflexivity).
  pose proof (checked_on _ _ _ H Ha) as Ea. cbv beta in Ea.
  pose proof (checked_on _ _ _ Ea Hb) as Eb. cbv beta in Eb.
  now apply Bool.eqb_prop in Eb.
Qed.

Lemma normalize_idempotent (languageCode : string) :
  normalizeLanguageCode initialStore (normalizeLanguageCode initialStore languageCode)
  = normalizeLanguageCode initialStore languageCode.
Proof.
  apply (base_key_facts _ (normalize_range languageCode)).
Qed.

(** On the table as declared, [getLanguageVariants] reads the array of the
    normalized code and writes nothing. *)
Lemma getLanguageVariants_run (languageCode : string) :
  exists arr,
    lookup LANGUAGE_MAPPINGS (normalizeLanguageCode initialStore languageCode) = Some arr
    /\ getLanguageVariants languageCode initialStore = (Js.uniq arr, initialStore).
Proof.
  destruct (base_key_facts _ (normalize_range languageCode))
    as (Hsplit & _ & _ & arr & Harr & _).
  exists arr. split; [assumption|].
  cbv beta iota zeta delta [getLanguageVariants bind reads variantsRef ret].
  change (mappings initialStore) with LANGUAGE_MAPPINGS.
  rewrite Hsplit, Harr, String.eqb_refl.
  cbv beta iota zeta delta [negb elementsOf reads].
  change (mappings initialStore) with LANGUAGE_MAPPINGS.
  now rewrite Harr.
Qed.

Lemma perform_keeps_store (c : Call) : snd (perform c initialStore) = initialStore.
Proof.
  destruct c as [code | available preferred | code]; try reflexivity.
  unfold perform, bind, ret.
  destruct (getLanguageVariants_run code) as (arr & _ & Hrun).
  now rewrite Hrun.
Qed.

Lemma performAll_keeps_store (cs : list Call) :
  snd (performAll cs initialStore) = initialStore.
Proof.
  induction cs as [|c rest IH].
  - reflexivity.
  - cbn [performAll]. unfold bind at 1.
    pose proof (perform_keeps_store c) as Hc.
    destruct (perform c initialStore) as [a st]. cbn [snd] in Hc. subst st.
    unfold bind, ret.
    destruct (performAll rest initialStore) as [others st']. cbn [snd] in *.
    assumption.
Qed.

(** The family test of [findBestLanguageMatch] accepts exactly the codes
    its exact test accepts. *)
Lemma family_test_is_exact_test (preferredLanguage lang : string) :
  (let normalized := normalizeLanguageCode initialStore lang in
   let baseLang := Js.splitHead "-" (normalizeLanguageCode initialStore preferredLanguage) in
   Js.startsWith normalized baseLang || (normalized =? baseLang))
  = (normalizeLanguageCode initialStore lang
     =? normalizeLanguageCode initialStore preferredLanguage).
Proof.
  cbv zeta.
  pose proof (normalize_range preferredLanguage) as Hp.
  pose proof (normalize_range lang) as Hl.
  destruct (base_key_facts _ Hp) as (Hsplit & _).
  rewrite Hsplit.
  now apply base_keys_prefix_free.
Qed.

Lemma findTruthy_ext (p q : string -> bool) (l : list string) :
  (forall x, p x = q x) -> findTruthy p l = findTruthy q l.
Proof.
  intros H. unfold findTruthy.
  assert (E : find p l = find q l).
  { induction l as [|x r IH]; simpl; [reflexivity|]. now rewrite H, IH. }
  now rewrite E.
Qed.

Lemma never_family (availableLanguages : list string) (preferredLanguage : string) :
  matchType (findBestLanguageMatch initialStore availableLanguages preferredLanguage)
  <> family.
Proof.
  unfold findBestLanguageMatch.
  destruct availableLanguages as [|firstAvailable others]; [discriminate|].
  set (available := firstAvailable :: others).
  cbv zeta.
  destruct (findTruthy _ available) as [e|] eqn:Hexact; [discriminate|].
  rewrite (findTruthy_ext _
             (fun lang => normalizeLanguageCode initialStore lang
                          =? normalizeLanguageCode initialStore preferredLanguage)
             available)
    by (intros lang; apply (family_test_is_exact_test preferredLanguage lang)).
  rewrite Hexact.
  destruct (priorityMatch initialStore available LANGUAGE_PRIORITY); discriminate.
Qed.

(** With the family branch out of reach, a confidence above 0.7 is the
    confidence of an exact match. *)
Lemma confidence_cases (availableLanguages : list string) (preferredLanguage : string) :
  let m := findBestLanguageMatch initialStore availableLanguages preferredLanguage in
  UnifiedExtractor.above07 (confidence m)
  = match matchType m with exact => true | _ => false end.
Proof.
  cbv zeta.
  pose proof (never_family availableLanguages preferredLanguage) as Hnf.
  unfold findBestLanguageMatch in *.
  destruct availableLanguages as [|firstAvailable others]; [reflexivity|].
  cbv zeta in *.
  destruct (findTruthy _ (firstAvailable :: others)); [reflexivity|].
  destruct (findTruthy _ (firstAvailable :: others)); [now elim Hnf|].
  destruct (priorityMatch _ _ _); reflexivity.
Qed.

(** C6.  The Language Matcher operations leave the shared table as it was
    declared: after any call on the handler the store is the initial one,
    and a call repeated after any other calls in between answers what it
    answered the first time. *)
Theorem language_table_never_mutated :
  (forall c : Call,
      snd (perform c initialStore) = initialStore
      /\ mappings (snd (perform c initialStore)) = LANGUAGE_MAPPINGS)
  /\ (forall (c : Call) (between : list Call),
        fst (perform c (snd (performAll between (snd (perform c initialStore)))))
        = fst (perform c initialStore)).
Proof.
  split.
  - intros c. now rewrite perform_keeps_store.
  - intros c between.
    now rewrite perform_keeps_store, performAll_keeps_store.
Qed.

(** The arrays of the bare keys hold no duplicate. *)
Lemma base_arrays_distinct (k : string) (arr : list string) :
  In k baseKeys -> lookup LANGUAGE_MAPPINGS k = Some arr -> Js.uniq arr = arr.
Proof.
  intros Hk Harr.
  assert (H : forallb (fun k => match lookup LANGUAGE_MAPPINGS k with
                                | Some arr => sameList (Js.uniq arr) arr
                                | None => true
                                end) baseKeys = true)
    by (vm_compute; reflexivity).
  pose proof (checked_on _ _ _ H Hk) as E. cbv beta in E.
  rewrite Harr in E. unfold sameList in E.
  destruct (list_eq_dec string_dec (Js.uniq arr) arr); [assumption | discriminate].
Qed.

Lemma unknown_normalizes_to_en (languageCode : string) :
  unknownCode languageCode = true ->
  normalizeLanguageCode initialStore languageCode = "en".
Proof.
  unfold unknownCode, normalizeLanguageCode. cbv zeta.
  change (mappings initialStore) with LANGUAGE_MAPPINGS.
  intros H. apply andb_true_iff in H as [H Hkey].
  apply andb_true_iff in H as [Hn Hb].
  apply negb_true_iff in Hn. apply negb_true_iff in Hb.
  destruct (negb (Js.truthy languageCode)); [reflexivity|].
  rewrite Hn, Hb.
  destruct (keyOfVariant LANGUAGE_MAPPINGS _); [discriminate | reflexivity].
Qed.

(** C7 fails as stated: [xx] is no key of the table, and
    [getLanguageVariants] answers the English variants for it, not the
    singleton [xx]. *)
Lemma unknown_code_gets_english_variants :
  lookup LANGUAGE_MAPPINGS "xx" = None
  /\ fst (getLanguageVariants "xx" initialStore)
     = ["en"; "en-US"; "en-GB"; "en-CA"; "en-AU"]
  /\ fst (getLanguageVariants "xx" initialStore) <> ["xx"].
Proof.
  split; [reflexivity|]. split; [vm_compute; reflexivity|].
  vm_compute. discriminate.
Qed.

(** C7, amended.  [getLanguageVariants], applied to a code that is not a
    key of the table, answers the variants the table lists under
    [normalizeLanguageCode] of the code, which are two or more; for a code
    found nowhere in the table these are the English variants. *)
Theorem getLanguageVariants_of_non_key (languageCode : string) :
  lookup LANGUAGE_MAPPINGS languageCode = None ->
  (exists arr : list string,
      lookup LANGUAGE_MAPPINGS (normalizeLanguageCode initialStore languageCode)
      = Some arr
      /\ fst (getLanguageVariants languageCode initialStore) = arr
      /\ (2 <= length arr)%nat)
  /\ (unknownCode languageCode = true ->
      fst (getLanguageVariants languageCode initialStore)
      = ["en"; "en-US"; "en-GB"; "en-CA"; "en-AU"]).
Proof.
  intros _.
  destruct (getLanguageVariants_run languageCode) as (arr & Harr & Hrun).
  pose proof (normalize_range languageCode) as Hrange.
  pose proof (base_arrays_distinct _ _ Hrange Harr) as Huniq.
  destruct (base_key_facts _ Hrange) as (_ & _ & _ & arr' & Harr' & Hlen).
  rewrite Harr in Harr'. injection Harr' as <-.
  rewrite Hrun, Huniq in *. cbn [fst].
  split.
  - exists arr. repeat split; assumption.
  - intros Hunknown.
    rewrite (unknown_normalizes_to_en _ Hunknown) in Harr.
    vm_compute in Harr. now injection Harr as <-.
Qed.

Lemma getLanguageVariants_of_non_key_witness :
  lookup LANGUAGE_MAPPINGS "xx" = None
  /\ unknownCode "xx" = true
  /\ fst (getLanguageVariants "xx" initialStore)
     = ["en"; "en-US"; "en-GB"; "en-CA"; "en-AU"].
Proof.
  split; [reflexivity|]. split; [reflexivity|].
  apply (getLanguageVariants_of_non_key "xx"); reflexivity.
Defined.

(** C8 (the code departs from it).  With [en] preferred and only [en-GB]
    available, or only [en-US] (the example of the comment on the family
    branch), [findBestLanguageMatch] answers an exact match of confidence 1;
    no input at all makes it answer a family match. *)
Theorem family_match_unreachable :
  findBestLanguageMatch initialStore ["en-GB"] "en" = mkMatch "en-GB" exact 1%Q []
  /\ findBestLanguageMatch initialStore ["en-US"] "en" = mkMatch "en-US" exact 1%Q []
  /\ (forall (availableLanguages : list string) (preferredLanguage : string),
        matchType (findBestLanguageMatch initialStore availableLanguages preferredLanguage)
        <> family).
Proof.
  split; [vm_compute; reflexivity |].
  split; [vm_compute; reflexivity | exact never_family].
Qed.

End LanguageFacts.

(* ===================================================================== *)
(** ** Facts about the strategy selector *)
(* ===================================================================== *)

Module StrategyFacts.

Import StrategySelector.

Lemma uniq_three :
  Js.uniq [YOUTUBE_TRANSCRIPT; YOUTUBE_CAPTION_EXTRACTOR; WHISPER_AUDIO]
  = [YOUTUBE_TRANSCRIPT; YOUTUBE_CAPTION_EXTRACTOR; WHISPER_AUDIO].
Proof. reflexivity. Qed.

Lemma suitable_iff (metadata : VideoMetadata) :
  _isVideoSuitableForExtraction metadata = true
  <-> isLive metadata = false /\ isUpcoming metadata = false
      /\ ~ (0 < duration metadata < 10)%Z.
Proof.
  unfold _isVideoSuitableForExtraction.
  destruct (isLive metadata), (isUpcoming metadata);
    try (split; [discriminate | intros (? & ? & ?); discriminate]).
  destruct (Z.ltb_spec 0 (duration metadata)), (Z.ltb_spec (duration metadata) 10);
    cbn [andb]; split; intros H';
    first [ discriminate H'
          | destruct H' as (_ & _ & H'); exfalso; apply H'; lia
          | repeat split; lia ].
Qed.

(** C3 fails as stated: a live video with captions gets the audio
    technique alone. *)
Lemma live_video_with_captions_gets_audio_only :
  hasClosedCaptions Scenario.liveWithCaptions = true
  /\ p_fallbackToAudio (mergePreferences Scenario.defaults) = true
  /\ selectStrategy Scenario.liveWithCaptions Scenario.defaults = [WHISPER_AUDIO]
  /\ selectStrategy Scenario.liveWithCaptions Scenario.defaults
     <> [YOUTUBE_TRANSCRIPT; YOUTUBE_CAPTION_EXTRACTOR; WHISPER_AUDIO].
Proof.
  repeat split; discriminate.
Qed.

(** C3, amended.  For a video that is not live, not upcoming and whose
    duration is not strictly between 0 and 10 seconds, with captions and
    with the audio fallback enabled, [selectStrategy] answers the two
    caption techniques and then the audio technique, whatever the
    preferred and the available languages. *)
Theorem selectStrategy_with_captions (metadata : VideoMetadata)
    (preferences : ExtractionPreferences) :
  isLive metadata = false ->
  isUpcoming metadata = false ->
  ~ (0 < duration metadata < 10)%Z ->
  hasClosedCaptions metadata = true ->
  p_fallbackToAudio (mergePreferences preferences) = true ->
  selectStrategy metadata preferences
  = [YOUTUBE_TRANSCRIPT; YOUTUBE_CAPTION_EXTRACTOR; WHISPER_AUDIO].
Proof.
  intros Hlive Hup Hdur Hcc Hfb.
  assert (Hs : _isVideoSuitableForExtraction metadata = true)
    by (apply suitable_iff; auto).
  unfold selectStrategy. rewrite Hs, Hcc, Hfb. cbn [negb].
  destruct (_hasPreferredLanguage _ _); apply uniq_three.
Qed.

Lemma selectStrategy_with_captions_witness :
  selectStrategy Scenario.frenchCaptions Scenario.defaults
  = [YOUTUBE_TRANSCRIPT; YOUTUBE_CAPTION_EXTRACTOR; WHISPER_AUDIO].
Proof.
  apply (selectStrategy_with_captions Scenario.frenchCaptions Scenario.defaults);
    try reflexivity.
  simpl. lia.
Defined.

(** C4.  For a live video, an upcoming video, or one whose duration is
    strictly between 0 and 10 seconds, [selectStrategy] answers
    [whisper-audio] alone when the caller's [fallbackToAudio] is true (or
    absent, the default being true) and the empty list when it is false; no
    caption technique is in the answer. *)
Theorem selectStrategy_unsuitable (metadata : VideoMetadata)
    (preferences : ExtractionPreferences) :
  isLive metadata = true \/ isUpcoming metadata = true
    \/ (0 < duration metadata < 10)%Z ->
  selectStrategy metadata preferences
  = match fallbackToAudio preferences with
    | Some true => ["whisper-audio"]
    | Some false => []
    | None => ["whisper-audio"]
    end
  /\ ~ In "youtube-transcript" (selectStrategy metadata preferences)
  /\ ~ In "youtube-caption-extractor" (selectStrategy metadata preferences).
Proof.
  intros H.
  assert (Hs : _isVideoSuitableForExtraction metadata = false).
  { destruct (_isVideoSuitableForExtraction metadata) eqn:E; [| reflexivity].
    apply suitable_iff in E as (Hl & Hu & Hd).
    destruct H as [H | [H | H]]; [congruence | congruence | contradiction]. }
  unfold selectStrategy. rewrite Hs. cbn [negb].
  unfold mergePreferences. cbn [p_fallbackToAudio].
  destruct (fallbackToAudio preferences) as [[|]|]; cbn [orDefault DEFAULT_PREFERENCES
                                                           p_fallbackToAudio].
  - repeat split; intros [E | []]; discriminate E.
  - repeat split; intros [].
  - repeat split; intros [E | []]; discriminate E.
Qed.

Lemma selectStrategy_unsuitable_witness :
  (selectStrategy Scenario.liveWithCaptions Scenario.withFallback = ["whisper-audio"]
   /\ selectStrategy Scenario.liveWithCaptions Scenario.noFallback = []
   /\ selectStrategy Scenario.liveWithCaptions Scenario.defaults = ["whisper-audio"])
  /\ (selectStrategy Scenario.premiere Scenario.withFallback = ["whisper-audio"]
      /\ selectStrategy Scenario.premiere Scenario.noFallback = [])
  /\ (selectStrategy Scenario.fiveSeconds Scenario.withFallback = ["whisper-audio"]
      /\ selectStrategy Scenario.fiveSeconds Scenario.noFallback = [])
  /\ ~ In "youtube-transcript"
         (selectStrategy Scenario.liveWithCaptions Scenario.withFallback).
Proof.
  assert (Hlive : isLive Scenario.liveWithCaptions = true
                  \/ isUpcoming Scenario.liveWithCaptions = true
                  \/ (0 < duration Scenario.liveWithCaptions < 10)%Z)
    by (left; reflexivity).
  assert (Hsoon : isLive Scenario.premiere = true
                  \/ isUpcoming Scenario.premiere = true
                  \/ (0 < duration Scenario.premiere < 10)%Z)
    by (right; left; reflexivity).
  assert (Hshort : isLive Scenario.fiveSeconds = true
                   \/ isUpcoming Scenario.fiveSeconds = true
                   \/ (0 < duration Scenario.fiveSeconds < 10)%Z)
    by (right; right; simpl; lia).
  pose proof (selectStrategy_unsuitable Scenario.liveWithCaptions
                Scenario.withFallback Hlive) as (A & Hno & _).
  pose proof (selectStrategy_unsuitable Scenario.liveWithCaptions
                Scenario.noFallback Hlive) as (B & _).
  pose proof (selectStrategy_unsuitable Scenario.liveWithCaptions
                Scenario.defaults Hlive) as (C & _).
  pose proof (selectStrategy_unsuitable Scenario.premiere
                Scenario.withFallback Hsoon) as (D & _).
  pose proof (selectStrategy_unsuitable Scenario.premiere
                Scenario.noFallback Hsoon) as (E & _).
  pose proof (selectStrategy_unsuitable Scenario.fiveSeconds
                Scenario.withFallback Hshort) as (F & _).
  pose proof (selectStrategy_unsuitable Scenario.fiveSeconds
                Scenario.noFallback Hshort) as (G & _).
  exact (conj (conj A (conj B C)) (conj (conj D E) (conj (conj F G) Hno))).
Defined.

End StrategyFacts.

(* ===================================================================== *)
(** ** Facts about the transcription request *)
(* ===================================================================== *)

Module WhisperFacts.

Import StrategySelector UnifiedExtractor LanguageFacts.
Import LanguageHandler.

(** The configuration [getMethodConfig] builds for the audio technique. *)
Lemma whisper_config (metadata : VideoMetadata) (preferences : ExtractionPreferences) :
  let prefs := mergePreferences preferences in
  let m := findBestLanguageMatch initialStore (availableLanguages metadata)
             (p_preferredLanguage prefs) in
  let config := fst (getMethodConfig WHISPER_AUDIO metadata preferences initialStore) in
  c_language config = Some (selectedLanguage m)
  /\ c_languageHint config
     = Some (normalizeLanguageCode initialStore (p_preferredLanguage prefs))
  /\ option_map matchConfidence (c_languageConfig config) = Some (confidence m).
Proof.
  cbv zeta.
  destruct (getLanguageVariants_run (p_preferredLanguage (mergePreferences preferences)))
    as (arr & _ & Hrun).
  cbv beta iota zeta delta [getMethodConfig createLanguageConfig bind reads ret].
  rewrite Hrun.
  change (WHISPER_AUDIO =? "youtube-transcript") with false.
  change (WHISPER_AUDIO =? "youtube-caption-extractor") with false.
  change (WHISPER_AUDIO =? "whisper-audio") with true.
  change (WHISPER_AUDIO =? YOUTUBE_TRANSCRIPT) with false.
  change (WHISPER_AUDIO =? YOUTUBE_CAPTION_EXTRACTOR) with false.
  change (WHISPER_AUDIO =? WHISPER_AUDIO) with true.
  cbv beta iota.
  repeat split.
Qed.

(** C5 fails as stated: for a video without caption languages the match
    confidence is 0, and the request still names a language. *)
Lemma language_sent_at_confidence_zero :
  let config := fst (getMethodConfig WHISPER_AUDIO Scenario.noCaptions
                       Scenario.defaults initialStore) in
  option_map matchConfidence (c_languageConfig config) = Some 0%Q
  /\ above07 0%Q = false
  /\ tr_language (transcriptionRequest initialStore config) = Some "en"
  /\ tr_language (transcriptionRequest initialStore config) <> None.
Proof.
  vm_compute. repeat split; discriminate.
Qed.

(** C5, amended.  For the configuration built for the audio technique,
    the request names the normalized preferred language when the match
    confidence exceeds 0.7 (which is the case of an exact match only);
    otherwise it names the normalized selected language whenever that is
    a non-empty code other than [auto]; only in the remaining case does it
    name no language, leaving detection to the backend. *)
Theorem whisper_language_choice (metadata : VideoMetadata)
    (preferences : ExtractionPreferences) :
  let prefs := mergePreferences preferences in
  let m := findBestLanguageMatch initialStore (availableLanguages metadata)
             (p_preferredLanguage prefs) in
  let config := fst (getMethodConfig WHISPER_AUDIO metadata preferences initialStore) in
  tr_language (transcriptionRequest initialStore config)
  = (if above07 (confidence m)
     then Some (normalizeLanguageCode initialStore (p_preferredLanguage prefs))
     else if Js.truthy (selectedLanguage m) && negb (selectedLanguage m =? "auto")
          then Some (normalizeLanguageCode initialStore (selectedLanguage m))
          else None)
  /\ above07 (confidence m) = match matchType m with exact => true | _ => false end.
Proof.
  cbv zeta.
  destruct (whisper_config metadata preferences) as (Hlang & Hhint & Hconf).
  cbv zeta in Hlang, Hhint, Hconf.
  split; [| apply confidence_cases].
  set (config := fst (getMethodConfig WHISPER_AUDIO metadata preferences initialStore)) in *.
  set (pref := p_preferredLanguage (mergePreferences preferences)) in *.
  set (m := findBestLanguageMatch initialStore (availableLanguages metadata) pref) in *.
  assert (Htruthy : Js.truthy (normalizeLanguageCode initialStore pref) = true)
    by apply (base_key_facts _ (normalize_range pref)).
  unfold transcriptionRequest, hintApplies, languageSpecified. cbn [tr_language].
  rewrite Hhint, Hlang.
  destruct (c_languageConfig config) as [lc|]; [| discriminate Hconf].
  cbn [option_map] in Hconf. injection Hconf as Hconf. rewrite Hconf.
  unfold orElse. rewrite Htruthy. cbn [andb].
  rewrite normalize_idempotent.
  destruct (above07 (confidence m)); [reflexivity|].
  destruct (Js.truthy (selectedLanguage m)); reflexivity.
Qed.

End WhisperFacts.

(* ===================================================================== *)
(** ** Facts about the fallback executor *)
(* ===================================================================== *)

Module ExecutorFacts.

Import StrategySelector UnifiedExtractor.

Section Executor.

Variable World : Type.
Variable now : World -> Z.
Variable youtubeTranscript : string -> Config -> World -> Completion RawResult * World.
Variable captionExtractor : string -> Config -> World -> Completion RawResult * World.
Variable whisperAudio : string -> Config -> World -> Completion RawResult * World.

Local Abbreviation run :=
  (transcriptResultOf World now youtubeTranscript captionExtractor whisperAudio).
Local Abbreviation tries :=
  (attempts World now youtubeTranscript captionExtractor whisperAudio).
Local Abbreviation loop :=
  (fallbackLoop World now youtubeTranscript captionExtractor whisperAudio).
Local Abbreviation fallback :=
  (extractWithFallback World now youtubeTranscript captionExtractor whisperAudio).

(** [extractTranscript] enters the log once and calls nothing else. *)
Lemma run_invoked (videoId method : string) (config : Config) (s : Exec World) :
  invoked (snd (run videoId method config s)) = invoked s ++ [method].
Proof.
  unfold transcriptResultOf.
  destruct (dispatch _ _ _ _ _ _ _ _) as [[raw|message] w']; reflexivity.
Qed.

Lemma tries_invoked (videoId : string) (methods : list string) (config : Config)
    (s : Exec World) :
  invoked (snd (tries videoId methods config s)) = invoked s ++ methods.
Proof.
  revert s. induction methods as [|m rest IH]; intros s.
  - cbn. now rewrite app_nil_r.
  - cbn [attempts].
    pose proof (run_invoked videoId m config s) as Hm.
    destruct (transcriptResultOf _ _ _ _ _ _ _ _ s) as [r s1]. cbn [snd] in Hm.
    specialize (IH s1).
    destruct (attempts _ _ _ _ _ _ rest _ s1) as [rs s2]. cbn [snd] in *.
    rewrite IH, Hm, <- app_assoc. reflexivity.
Qed.

(** Through a prefix of rejected attempts the loop only collects their
    entries. *)
Lemma loop_through_rejected (videoId : string) (config : Config)
    (pre rest errors : list string) (s : Exec World) :
  rejected (fst (tries videoId pre config s)) = true ->
  loop videoId (pre ++ rest) config errors s
  = loop videoId rest config
      (errors ++ entries pre (fst (tries videoId pre config s)))
      (snd (tries videoId pre config s)).
Proof.
  revert errors s. induction pre as [|m pre IH]; intros errors s Hrej.
  - cbn. now rewrite app_nil_r.
  - unfold rejected, entries in *.
    cbn [app fallbackLoop attempts]. unfold extractTranscript.
    cbn [attempts] in Hrej.
    destruct (transcriptResultOf _ _ _ _ _ _ m _ s) as [r s1].
    specialize (IH (errors ++ [insufficientEntry m r]) s1).
    destruct (attempts _ _ _ _ _ _ pre _ s1) as [rs s2].
    cbn [fst snd forallb combine map] in *.
    apply andb_true_iff in Hrej as [Hr Hrs].
    apply negb_true_iff in Hr. rewrite Hr.
    rewrite (IH Hrs), <- app_assoc. reflexivity.
Qed.

(** A result the loop returns with [success] set was accepted by the
    sufficiency test. *)
Lemma loop_success_sufficient (videoId : string) (config : Config)
    (methods errors : list string) (s : Exec World) :
  success (fst (loop videoId methods config errors s)) = true ->
  sufficient (fst (loop videoId methods config errors s)) = true.
Proof.
  revert errors s. induction methods as [|m rest IH]; intros errors s.
  - cbn. discriminate.
  - cbn [fallbackLoop]. unfold extractTranscript.
    destruct (transcriptResultOf _ _ _ _ _ _ m _ s) as [r s1].
    destruct (sufficient r) eqn:Hr.
    + intros _. exact Hr.
    + apply IH.
Qed.

(** C1.  When the attempts on the techniques before [m] are all
    rejected and the attempt on [m] is accepted (success and more than
    50 characters), [extractWithFallback] returns that attempt's result
    in the state that attempt left, and the techniques entered are those
    up to [m], none after it.  Every result it returns with [success]
    set has a transcript of more than 50 characters. *)
Theorem extractWithFallback_first_sufficient :
  (forall (videoId : string) (config : Config) (pre : list string) (m : string)
          (post : list string) (s : Exec World),
      rejected (fst (tries videoId pre config s)) = true ->
      sufficient (fst (run videoId m config (snd (tries videoId pre config s)))) = true ->
      fallback videoId (pre ++ m :: post) config s
      = run videoId m config (snd (tries videoId pre config s))
      /\ invoked (snd (fallback videoId (pre ++ m :: post) config s))
         = invoked s ++ pre ++ [m])
  /\ (forall (videoId : string) (methods : list string) (config : Config)
             (s : Exec World),
        success (fst (fallback videoId methods config s)) = true ->
        exists t : string,
          transcript (fst (fallback videoId methods config s)) = Some t
          /\ (50 < String.length t)%nat).
Proof.
  split.
  - intros videoId config pre m post s Hrej Hsuff.
    assert (E : fallback videoId (pre ++ m :: post) config s
                = run videoId m config (snd (tries videoId pre config s))).
    { unfold extractWithFallback.
      rewrite (loop_through_rejected _ _ _ _ _ _ Hrej).
      cbn [fallbackLoop]. unfold extractTranscript.
      destruct (transcriptResultOf _ _ _ _ _ _ m _ _) as [r s1].
      cbn [fst] in Hsuff. now rewrite Hsuff. }
    split; [exact E|].
    rewrite E, run_invoked, tries_invoked. now rewrite app_assoc.
  - intros videoId methods config s Hsucc.
    unfold extractWithFallback in *.
    pose proof (loop_success_sufficient _ _ _ _ _ Hsucc) as Hsuff.
    unfold sufficient, longEnough in Hsuff.
    apply andb_true_iff in Hsuff as [_ Hlong].
    destruct (transcript _) as [t|]; [| discriminate].
    exists t. split; [reflexivity|].
    apply andb_true_iff in Hlong as [_ Hlen]. now apply Nat.ltb_lt.
Qed.

(** When every attempt is rejected, the result is the failure object
    whose message joins one entry per technique, in order. *)
Lemma fallback_all_rejected (videoId : string) (methods : list string)
    (config : Config) (s : Exec World) :
  rejected (fst (tries videoId methods config s)) = true ->
  fallback videoId methods config s
  = (allFailed config (entries methods (fst (tries videoId methods config s))),
     snd (tries videoId methods config s)).
Proof.
  intros Hrej. unfold extractWithFallback.
  rewrite <- (app_nil_r methods) at 1.
  rewrite (loop_through_rejected _ _ _ _ _ _ Hrej). reflexivity.
Qed.

(** C2 (the code departs from it).  When the [youtube-transcript]
    backend throws, whatever its message, the aggregated message of
    [extractWithFallback] on that technique alone reports
    "Insufficient content (0 chars)" and not the message thrown. *)
Theorem backend_error_message_lost (videoId : string) (config : Config)
    (s : Exec World) (message : string) (w' : World) :
  youtubeTranscript videoId config (world s) = (Threw message, w') ->
  error (fst (fallback videoId [YOUTUBE_TRANSCRIPT] config s))
  = Some "All extraction methods failed. Errors: youtube-transcript: Insufficient content (0 chars)".
Proof.
  intros Hthrow.
  unfold extractWithFallback. cbn [fallbackLoop].
  unfold extractTranscript, transcriptResultOf, dispatch.
  change (YOUTUBE_TRANSCRIPT =? YOUTUBE_TRANSCRIPT) with true. cbv iota.
  rewrite Hthrow. reflexivity.
Qed.

(** C10.  On an empty technique list [extractWithFallback] leaves the
    state as it was (no backend is entered) and returns the failure
    object: no success, empty transcript, method [none], extraction time
    0, and the aggregated message with no entry. *)
Theorem extractWithFallback_no_methods (videoId : string) (config : Config)
    (s : Exec World) :
  snd (fallback videoId [] config s) = s
  /\ success (fst (fallback videoId [] config s)) = false
  /\ transcript (fst (fallback videoId [] config s)) = Some ""
  /\ method (fst (fallback videoId [] config s)) = "none"
  /\ extractionTime (fst (fallback videoId [] config s)) = 0%Z
  /\ error (fst (fallback videoId [] config s))
     = Some "All extraction methods failed. Errors: ".
Proof.
  repeat split.
Qed.

End Executor.

Lemma extractWithFallback_first_sufficient_witness :
  (extractWithFallback Scenario.World Scenario.now Scenario.throwingTranscript
     Scenario.shortCaptions Scenario.longAudio "dQw4w9WgXcQ"
     ([YOUTUBE_TRANSCRIPT; YOUTUBE_CAPTION_EXTRACTOR] ++ WHISPER_AUDIO :: ["bogus"])
     emptyConfig Scenario.startState
   = transcriptResultOf Scenario.World Scenario.now Scenario.throwingTranscript
       Scenario.shortCaptions Scenario.longAudio "dQw4w9WgXcQ" WHISPER_AUDIO emptyConfig
       (snd (attempts Scenario.World Scenario.now Scenario.throwingTranscript
               Scenario.shortCaptions Scenario.longAudio "dQw4w9WgXcQ"
               [YOUTUBE_TRANSCRIPT; YOUTUBE_CAPTION_EXTRACTOR] emptyConfig
               Scenario.startState))
   /\ invoked (snd (extractWithFallback Scenario.World Scenario.now
                      Scenario.throwingTranscript Scenario.shortCaptions
                      Scenario.longAudio "dQw4w9WgXcQ"
                      ([YOUTUBE_TRANSCRIPT; YOUTUBE_CAPTION_EXTRACTOR]
                         ++ WHISPER_AUDIO :: ["bogus"])
                      emptyConfig Scenario.startState))
      = invoked Scenario.startState
          ++ [YOUTUBE_TRANSCRIPT; YOUTUBE_CAPTION_EXTRACTOR] ++ [WHISPER_AUDIO])
  /\ (exists t : string,
        transcript (fst (extractWithFallback Scenario.World Scenario.now
                           Scenario.throwingTranscript Scenario.shortCaptions
                           Scenario.longAudio "dQw4w9WgXcQ"
                           [YOUTUBE_TRANSCRIPT; WHISPER_AUDIO]
                           emptyConfig Scenario.startState)) = Some t
        /\ (50 < String.length t)%nat).
Proof.
  split.
  - apply (proj1 (extractWithFallback_first_sufficient Scenario.World Scenario.now
                    Scenario.throwingTranscript Scenario.shortCaptions
                    Scenario.longAudio)); reflexivity.
  - apply (proj2 (extractWithFallback_first_sufficient Scenario.World Scenario.now
                    Scenario.throwingTranscript Scenario.shortCaptions
                    Scenario.longAudio)); reflexivity.
Defined.

Lemma backend_error_message_lost_witness :
  error (fst (extractWithFallback Scenario.World Scenario.now
                Scenario.throwingTranscript Scenario.shortCaptions Scenario.longAudio
                "dQw4w9WgXcQ" [YOUTUBE_TRANSCRIPT] emptyConfig Scenario.startState))
  = Some "All extraction methods failed. Errors: youtube-transcript: Insufficient content (0 chars)".
Proof.
  apply (backend_error_message_lost Scenario.World Scenario.now
           Scenario.throwingTranscript Scenario.shortCaptions Scenario.longAudio
           "dQw4w9WgXcQ" emptyConfig Scenario.startState
           "youtube-transcript: No transcript data available" 7%Z).
  reflexivity.
Defined.

End ExecutorFacts.

(* ===================================================================== *)
(** ** Facts about the subtitle encoding *)
(* ===================================================================== *)

Module SrtFacts.

Import UnifiedExtractor SrtSpec JsFacts.

(** A property checked on the numbers below [bound] holds of each. *)
Lemma checked_below (bound : nat) (p : N -> bool) (n : N) :
  forallb (fun k => p (N.of_nat k)) (seq 0 bound) = true ->
  (n < N.of_nat bound)%N -> p n = true.
Proof.
  intros H Hn. rewrite forallb_forall in H.
  rewrite <- (N2Nat.id n). apply H. apply in_seq. lia.
Qed.

(** The decimal writing of a number from 10 on has two digits or more. *)
Lemma two_digits_from_ten (n : N) :
  (10 <= n)%N -> (2 <= String.length (Js.numberToString n))%nat.
Proof.
  intros Hn. unfold Js.numberToString.
  pose proof (DecimalN.Unsigned.of_to n) as Hof.
  destruct (N.to_uint n) as [|d|d|d|d|d|d|d|d|d|d];
    try (cbn in Hof; lia);
    destruct d; try (cbn in Hof; lia); cbn; lia.
Qed.

Lemma padStart_two (n : N) : Js.padStart0 2 (Js.numberToString n) = twoDigits n.
Proof.
  unfold twoDigits. destruct (N.ltb_spec n 10) as [Hlt | Hge].
  - assert (H : forallb (fun k => Js.padStart0 2 (Js.numberToString (N.of_nat k))
                                  =? "0" ++ Js.numberToString (N.of_nat k))%string
                        (seq 0 10) = true) by (vm_compute; reflexivity).
    apply String.eqb_eq.
    apply (checked_below 10 (fun m => Js.padStart0 2 (Js.numberToString m)
                                      =? "0" ++ Js.numberToString m)%string n H Hlt).
  - unfold Js.padStart0.
    pose proof (two_digits_from_ten n Hge) as Hlen.
    replace (2 - String.length (Js.numberToString n))%nat with 0%nat by lia.
    reflexivity.
Qed.

Lemma padStart_three (n : N) :
  (n < 1000)%N -> Js.padStart0 3 (Js.numberToString n) = threeDigits n.
Proof.
  intros Hlt.
  assert (H : forallb (fun k => Js.padStart0 3 (Js.numberToString (N.of_nat k))
                                =? threeDigits (N.of_nat k))%string
                      (seq 0 1000) = true) by (vm_compute; reflexivity).
  apply String.eqb_eq.
  apply (checked_below 1000 (fun m => Js.padStart0 3 (Js.numberToString m)
                                      =? threeDigits m)%string n H Hlt).
Qed.

(** Minutes taken from the seconds left in the hour are the total minutes
    modulo 60. *)
Lemma minutes_of_total (totalSeconds : N) :
  ((totalSeconds mod 3600) / 60 = (totalSeconds / 60) mod 60)%N.
Proof.
  change 3600%N with (60 * 60)%N.
  rewrite N.Div0.mod_mul_r.
  rewrite N.add_comm, N.mul_comm, N.div_add_l by discriminate.
  rewrite (N.div_small (totalSeconds mod 60) 60), N.add_0_r.
  - reflexivity.
  - apply N.mod_lt. discriminate.
Qed.

Lemma formatSrtTime_timestamp (milliseconds : N) :
  _formatSrtTime milliseconds = timestamp milliseconds.
Proof.
  unfold _formatSrtTime, timestamp. cbv zeta.
  rewrite !padStart_two, padStart_three by (apply N.mod_lt; discriminate).
  rewrite minutes_of_total, !N.Div0.div_div.
  reflexivity.
Qed.

(** A whole number up to 2^53 is a double: the sum of two doubles that
    does not pass 2^53 is their exact sum. *)
Lemma toDouble_exact (n : N) : (n <= exactBound)%N -> Js.toDouble n = n.
Proof.
  intros H. unfold exactBound in H.
  destruct (N.eq_dec n 9007199254740992) as [-> | Hne]; [reflexivity|].
  unfold Js.toDouble. cbv zeta.
  destruct (N.leb_spec (N.size n) 53) as [_ | Hbig]; [reflexivity|].
  exfalso.
  pose proof (N.size_le n) as Hle. rewrite N.succ_double_spec in Hle.
  assert (Hpow : (2 ^ 54 <= 2 ^ N.size n)%N)
    by (apply N.pow_le_mono_r; [discriminate | lia]).
  change (2 ^ 54)%N with 18014398509481984%N in Hpow. lia.
Qed.

Lemma add_exact (a b : N) : (a + b <= exactBound)%N -> Js.add a b = (a + b)%N.
Proof.
  apply toDouble_exact.
Qed.

Lemma srtBlock_lines (segment : Segment) (index : N) :
  exactTimes segment ->
  srtBlock segment index
  = unlines [Js.numberToString (index + 1); timingLine segment; text segment].
Proof.
  intros Hexact. unfold srtBlock, timingLine. cbv zeta.
  rewrite (add_exact _ _ Hexact), !formatSrtTime_timestamp.
  cbn [unlines]. rewrite !append_assoc. reflexivity.
Qed.

Lemma unlines_app (a b : list string) : unlines (a ++ b) = (unlines a ++ unlines b)%string.
Proof.
  induction a as [|l a IH]; [reflexivity|].
  cbn [app unlines]. rewrite IH, append_assoc. reflexivity.
Qed.

Lemma formatAsSrt_from (index : N) (segments : list Segment) :
  Forall exactTimes segments ->
  Js.join LF (Js.mapiFrom index srtBlock segments)
  = unlines (linesFrom (index + 1) segments).
Proof.
  intros Hall. revert index.
  induction Hall as [|segment rest Hexact Hrest IH]; intros index.
  - reflexivity.
  - destruct rest as [|next rest'].
    + cbn [Js.mapiFrom linesFrom]. rewrite (srtBlock_lines _ _ Hexact).
      reflexivity.
    + specialize (IH (N.succ index)).
      rewrite <- N.add_1_r in IH at 2.
      change (Js.mapiFrom index srtBlock (segment :: next :: rest'))
        with (srtBlock segment index
                :: Js.mapiFrom (N.succ index) srtBlock (next :: rest')).
      change (linesFrom (index + 1) (segment :: next :: rest'))
        with ([Js.numberToString (index + 1); timingLine segment; text segment]
                ++ "" :: linesFrom (N.succ (index + 1)) (next :: rest')).
      rewrite unlines_app. cbn [unlines]. cbn [Js.mapiFrom] in IH |- *.
      rewrite join_cons2. cbn [Js.mapiFrom] in IH. rewrite IH.
      rewrite (srtBlock_lines _ _ Hexact), <- !N.add_1_r.
      cbn [unlines]. rewrite !append_assoc. reflexivity.
Qed.

(** C9 fails as stated: for a segment that starts at 2^53 ms and lasts
    1 ms the sum is no double, the addition rounds it to 2^53, and the end
    time written is the start time (milliseconds 992), not start plus
    duration (milliseconds 993). *)
Lemma end_time_rounded_beyond_exact_bound :
  _formatAsSrt [Scenario.farSegment]
  = unlines ["1"; "2501999792:59:00,992 --> 2501999792:59:00,992"; "x"]
  /\ render [Scenario.farSegment]
     = unlines ["1"; "2501999792:59:00,992 --> 2501999792:59:00,993"; "x"]
  /\ _formatAsSrt [Scenario.farSegment] <> render [Scenario.farSegment].
Proof.
  split; [| split].
  - vm_compute. reflexivity.
  - vm_compute. reflexivity.
  - vm_compute. discriminate.
Qed.

(** C9, amended.  For segments whose start plus duration does not exceed
    2^53 ms, [_formatAsSrt] writes, for each segment in order, its 1-based
    index line, the timing line [HH:MM:SS,mmm --> HH:MM:SS,mmm] from the
    segment's start to its start plus its duration (hours, minutes and
    seconds by integer division, milliseconds as the total modulo 1000,
    zero-padded to two and three digits) and its text, each line ended by a
    line feed and one blank line between a block and the next; a segment
    starting at 0 ms and lasting 1500 ms gets the timing line
    [00:00:00,000 --> 00:00:01,500]. *)
Theorem formatAsSrt_follows_spec :
  (forall segments : list Segment,
      Forall exactTimes segments -> _formatAsSrt segments = render segments)
  /\ (forall milliseconds : N,
        (milliseconds <= exactBound)%N ->
        _formatSrtTime milliseconds = timestamp milliseconds)
  /\ (forall t : string,
        _formatAsSrt [mkSegment t 0 1500]
        = ("1" ++ String "010"
             ("00:00:00,000 --> 00:00:01,500" ++ String "010"
                (t ++ String "010" "")))%string).
Proof.
  split; [| split].
  - intros segments Hall. unfold _formatAsSrt, Js.mapi, render, lines.
    apply (formatAsSrt_from 0 segments Hall).
  - intros milliseconds _. apply formatSrtTime_timestamp.
  - intros t. reflexivity.
Qed.

Lemma formatAsSrt_follows_spec_witness :
  _formatAsSrt Scenario.twoSegments
  = ("1" ++ String "010"
       ("00:00:00,000 --> 00:00:01,500" ++ String "010"
          ("Hello" ++ String "010"
             (String "010"
                ("2" ++ String "010"
                   ("01:02:03,004 --> 01:02:04,000" ++ String "010"
                      ("world" ++ String "010" "")))))))%string
  /\ _formatSrtTime 3723004 = "01:02:03,004".
Proof.
  split.
  - rewrite (proj1 formatAsSrt_follows_spec Scenario.twoSegments).
    + reflexivity.
    + repeat constructor; unfold exactTimes, exactBound; simpl; lia.
  - rewrite (proj1 (proj2 formatAsSrt_follows_spec) 3723004%N).
    + reflexivity.
    + unfold exactBound. lia.
Defined.

End SrtFacts.

(* ===================================================================== *)
(** ** Facts about the URL validator *)
(* ===================================================================== *)

Module ValidatorFacts.

Import YoutubeValidator.

Lemma idAtHead_bare (s id : string) : idAtHead s = Some id -> isBareId id = true.
Proof.
  unfold idAtHead. cbv zeta.
  destruct (isBareId (substring 0 11 s)) eqn:E; [| discriminate].
  intros H. injection H as <-. exact E.
Qed.

Lemma search_bare (head : string -> option string) (s id : string) :
  search head s = Some id -> isBareId id = true.
Proof.
  induction s as [|c r IH]; cbn [search].
  - destruct (head ""%string) as [rest|]; [| discriminate].
    destruct (idAtHead rest) as [i|] eqn:E; [| discriminate].
    intros H. injection H as <-. now apply idAtHead_bare in E.
  - destruct (head (String c r)) as [rest|].
    + destruct (idAtHead rest) as [i|] eqn:E.
      * intros H. injection H as <-. now apply idAtHead_bare in E.
      * exact IH.
    + exact IH.
Qed.

Lemma extractVideoId_bare (input id : string) :
  extractVideoId input = Some id -> isBareId id = true.
Proof.
  unfold extractVideoId.
  destruct (negb (Js.truthy input)); [discriminate|].
  destruct (isBareId input) eqn:E.
  - intros H. injection H as <-. exact E.
  - destruct (search watchHead input) eqn:E1;
      [intros H; injection H as <-; now apply search_bare in E1|].
    destruct (search (afterLiteral "youtu.be/") input) eqn:E2;
      [intros H; injection H as <-; now apply search_bare in E2|].
    destruct (search (afterLiteral "youtube.com/embed/") input) eqn:E3;
      [intros H; injection H as <-; now apply search_bare in E3|].
    apply search_bare.
Qed.

Lemma bare_truthy (id : string) : isBareId id = true -> Js.truthy id = true.
Proof.
  unfold isBareId. destruct id; [discriminate | reflexivity].
Qed.

Lemma bare_valid (id : string) : isBareId id = true -> isValidVideoId id = true.
Proof.
  intros H. unfold isValidVideoId. now rewrite (bare_truthy _ H).
Qed.

Lemma substring_all (s : string) : substring 0 (String.length s) s = s.
Proof.
  induction s as [|c r IH]; cbn; [reflexivity | now rewrite IH].
Qed.

Lemma idAtHead_self (id : string) : isBareId id = true -> idAtHead id = Some id.
Proof.
  intros H. unfold idAtHead. cbv zeta.
  assert (L : String.length id = 11%nat).
  { unfold isBareId in H. apply andb_true_iff in H as [H _]. now apply Nat.eqb_eq. }
  rewrite <- L, !substring_all, H. reflexivity.
Qed.

Lemma substring_prefix (s suffix : string) :
  substring 0 (String.length s) (s ++ suffix) = s.
Proof.
  induction s as [|c r IH]; cbn.
  - destruct suffix; reflexivity.
  - now rewrite IH.
Qed.

Lemma bare_length (id : string) : isBareId id = true -> String.length id = 11%nat.
Proof.
  unfold isBareId. intros H. apply andb_true_iff in H as [H _]. now apply Nat.eqb_eq.
Qed.

Lemma idAtHead_prefix (id suffix : string) :
  isBareId id = true -> idAtHead (id ++ suffix) = Some id.
Proof.
  intros H. unfold idAtHead. cbv zeta.
  rewrite <- (bare_length _ H), !substring_prefix, H. reflexivity.
Qed.

Lemma length_append (a b : string) :
  String.length (a ++ b) = (String.length a + String.length b)%nat.
Proof.
  induction a as [|c r IH]; cbn; [reflexivity | now rewrite IH].
Qed.

(** The id is read back from the watch address built from it, whatever
    follows it. *)
Lemma extractVideoId_watchUrl_then (id suffix : string) :
  isBareId id = true -> extractVideoId (watchUrl id ++ suffix) = Some id.
Proof.
  intros H. unfold extractVideoId, watchUrl.
  cbn [append Js.truthy String.eqb negb].
  unfold isBareId at 1. cbn [String.length]. rewrite !length_append, (bare_length _ H).
  cbn [Nat.add Nat.eqb andb].
  cbn [search watchHead afterLiteral Ascii.eqb Bool.eqb orb].
  rewrite (idAtHead_prefix _ _ H). reflexivity.
Qed.

Lemma extractVideoId_watchUrl (id : string) :
  isBareId id = true -> extractVideoId (watchUrl id) = Some id.
Proof.
  intros H. rewrite <- (JsFacts.append_empty_r (watchUrl id)).
  now apply extractVideoId_watchUrl_then.
Qed.

(** X1.  [validateYouTubeUrl] either accepts, with an id of exactly eleven
    characters of [[a-zA-Z0-9_-]], the watch address of that id as the
    normalized address (from which the same id is read back) and no error;
    or it rejects with no id, no address and one of two messages.  The third
    message of the source, "Invalid video ID format (must be 11
    characters)", is never produced. *)
Theorem validateYouTubeUrl_outcomes (input : string) :
  let r := validateYouTubeUrl input in
  if isValid r then
    exists id : string,
      extractVideoId (Js.trim input) = Some id
      /\ v_videoId r = Some id /\ isBareId id = true /\ isValidVideoId id = true
      /\ normalizedUrl r = Some (watchUrl id)
      /\ extractVideoId (watchUrl id) = Some id
      /\ v_error r = None
  else
    v_videoId r = None /\ normalizedUrl r = None
    /\ (v_error r = Some "Input must be a non-empty string"
        \/ v_error r = Some "Invalid YouTube URL format or video ID").
Proof.
  cbv zeta. unfold validateYouTubeUrl.
  destruct (negb (Js.truthy input)); cbn [isValid v_videoId normalizedUrl v_error].
  - auto.
  - cbv zeta.
    destruct (extractVideoId (Js.trim input)) as [id|] eqn:E;
      cbn [isValid v_videoId normalizedUrl v_error]; [| auto].
    pose proof (extractVideoId_bare _ _ E) as Hb.
    rewrite (bare_valid _ Hb). cbn [negb isValid v_videoId normalizedUrl v_error].
    exists id. unfold normalizeYouTubeUrl. rewrite E.
    repeat split; auto using bare_valid, extractVideoId_watchUrl.
Qed.

(** X2.  [normalizeYouTubeUrl] is idempotent and keeps the id:
    normalizing twice gives what normalizing once gives, and
    [extractVideoId] reads from the normalized address what it reads from
    the input. *)
Theorem normalizeYouTubeUrl_idempotent (input : string) :
  normalizeYouTubeUrl (normalizeYouTubeUrl input) = normalizeYouTubeUrl input
  /\ extractVideoId (normalizeYouTubeUrl input) = extractVideoId input.
Proof.
  unfold normalizeYouTubeUrl at 2 3 4.
  destruct (extractVideoId input) as [id|] eqn:E.
  - pose proof (extractVideoId_watchUrl _ (extractVideoId_bare _ _ E)) as Hw.
    unfold normalizeYouTubeUrl. rewrite Hw. split; reflexivity.
  - unfold normalizeYouTubeUrl. rewrite E. split; reflexivity.
Qed.

(** X3.  In a watch address the id is the first eleven characters after
    [?v=]: whatever follows an eleven-character id, further id characters
    included, [extractVideoId] answers that id. *)
Theorem extractVideoId_ignores_what_follows (id suffix : string) :
  isBareId id = true ->
  extractVideoId (watchUrl id ++ suffix) = Some id
  /\ normalizeYouTubeUrl (watchUrl id ++ suffix) = watchUrl id.
Proof.
  intros H. pose proof (extractVideoId_watchUrl_then id suffix H) as E.
  split; [exact E|]. unfold normalizeYouTubeUrl. now rewrite E.
Qed.

Lemma extractVideoId_ignores_what_follows_witness :
  extractVideoId (watchUrl "dQw4w9WgXcQ" ++ "ZZZ&t=42s") = Some "dQw4w9WgXcQ"
  /\ normalizeYouTubeUrl (watchUrl "dQw4w9WgXcQ" ++ "ZZZ&t=42s") = watchUrl "dQw4w9WgXcQ".
Proof.
  apply (extractVideoId_ignores_what_follows "dQw4w9WgXcQ" "ZZZ&t=42s").
  reflexivity.
Defined.

(** X4.  [extractVideoId] answers its input unchanged exactly for the
    eleven-character ids, which are also exactly the inputs [getUrlType]
    calls [videoId] and [isValidVideoId] accepts. *)
Theorem bare_id_passes_through (input : string) :
  (extractVideoId input = Some input <-> isBareId input = true)
  /\ (getUrlType input = "videoId" <-> isBareId input = true)
  /\ isValidVideoId input = isBareId input.
Proof.
  split; [| split].
  - split.
    + apply extractVideoId_bare.
    + intros H. unfold extractVideoId. now rewrite (bare_truthy _ H), H.
  - unfold getUrlType. split.
    + destruct (negb (Js.truthy input)); [discriminate|].
      destruct (isBareId input); [reflexivity|].
      repeat match goal with
             | |- context [if ?b then _ else _] => destruct b
             end; discriminate.
    + intros H. now rewrite (bare_truthy _ H), H.
  - unfold isValidVideoId.
    destruct input; reflexivity.
Qed.

End ValidatorFacts.

(* ===================================================================== *)
(** ** More facts about the JavaScript primitives *)
(* ===================================================================== *)

Module JsMoreFacts.

Import Js JsFacts.

Lemma includes_false (l : list string) (x : string) : includes l x = false <-> ~ In x l.
Proof.
  rewrite <- includes_In. destruct (includes l x); split; congruence.
Qed.

(** [[...new Set(l)]] keeps each element once: the elements of [l] not seen
    before, without repetition. *)
Lemma uniqFrom_spec (l seen : list string) :
  NoDup (uniqFrom seen l)
  /\ (forall x, In x (uniqFrom seen l) <-> In x l /\ ~ In x seen).
Proof.
  revert seen. induction l as [|a r IH]; intros seen; cbn [uniqFrom].
  - split; [constructor | intros x; cbn; tauto].
  - destruct (includes seen a) eqn:E.
    + destruct (IH seen) as [Hnd Hin]. split; [assumption|].
      intros x. rewrite Hin. apply includes_In in E. cbn.
      split; [tauto|]. intros [[<- | H] Hs]; [contradiction | tauto].
    + destruct (IH (a :: seen)) as [Hnd Hin]. apply includes_false in E. split.
      * constructor; [| assumption]. rewrite Hin. cbn. tauto.
      * intros x. cbn. rewrite Hin. cbn.
        destruct (string_dec a x) as [<- | Hne]; [tauto|]. tauto.
Qed.

Lemma uniq_NoDup (l : list string) : NoDup (uniq l).
Proof. apply uniqFrom_spec. Qed.

Lemma uniq_In (l : list string) (x : string) : In x (uniq l) <-> In x l.
Proof.
  unfold uniq. destruct (uniqFrom_spec l []) as [_ H]. rewrite H. cbn. tauto.
Qed.

Lemma prefix_refl (s : string) : String.prefix s s = true.
Proof.
  induction s as [|c r IH]; cbn; [reflexivity|].
  destruct (ascii_dec c c); [assumption | contradiction].
Qed.

Lemma startsWith_splitHead (sep : ascii) (s : string) :
  startsWith s (splitHead sep s) = true.
Proof.
  unfold startsWith. induction s as [|c r IH]; cbn; [reflexivity|].
  destruct (Ascii.eqb c sep); cbn; [reflexivity|].
  destruct (ascii_dec c c); [assumption | contradiction].
Qed.

Lemma toLowerChar_idempotent (c : ascii) : toLowerChar (toLowerChar c) = toLowerChar c.
Proof.
  destruct c as [[] [] [] [] [] [] [] []]; reflexivity.
Qed.

Lemma toLowerCase_idempotent (s : string) : toLowerCase (toLowerCase s) = toLowerCase s.
Proof.
  induction s as [|c r IH]; cbn; [reflexivity|].
  now rewrite toLowerChar_idempotent, IH.
Qed.

Lemma toLowerCase_length (s : string) : String.length (toLowerCase s) = String.length s.
Proof.
  induction s as [|c r IH]; cbn; [reflexivity | now rewrite IH].
Qed.

Lemma toLowerCase_truthy (s : string) : truthy (toLowerCase s) = truthy s.
Proof. destruct s; reflexivity. Qed.

End JsMoreFacts.

(* ===================================================================== *)
(** ** More facts about the language handler *)
(* ===================================================================== *)

Module LanguageMoreFacts.

Import LanguageHandler Aux JsFacts JsMoreFacts LanguageFacts.

(** X5.  [normalizeLanguageCode] always answers a two-letter key of the
    table, written without hyphen; applied to its own answer it changes
    nothing. *)
Theorem normalizeLanguageCode_closed (languageCode : string) :
  let n := normalizeLanguageCode initialStore languageCode in
  String.length n = 2%nat
  /\ supported initialStore n = true
  /\ Js.splitHead "-" n = n
  /\ normalizeLanguageCode initialStore n = n.
Proof.
  cbv zeta. pose proof (normalize_range languageCode) as Hr.
  destruct (base_key_facts _ Hr) as (Hsplit & _ & Hidem & _).
  assert (H : forallb (fun k => (String.length k =? 2)%nat && supported initialStore k)
                      baseKeys = true) by (vm_compute; reflexivity).
  pose proof (checked_on _ _ _ H Hr) as E. cbv beta in E.
  apply andb_true_iff in E as [El Es]. apply Nat.eqb_eq in El.
  repeat split; assumption.
Qed.

Lemma variants_head (languageCode : string) :
  hd_error (fst (getLanguageVariants languageCode initialStore))
  = Some (normalizeLanguageCode initialStore languageCode).
Proof.
  destruct (getLanguageVariants_run languageCode) as (arr & Harr & Hrun).
  pose proof (normalize_range languageCode) as Hr.
  rewrite Hrun. cbn [fst].
  rewrite (base_arrays_distinct _ _ Hr Harr).
  assert (H : forallb (fun k => match lookup LANGUAGE_MAPPINGS k with
                                | Some (first :: _) => first =? k
                                | _ => false
                                end) baseKeys = true) by (vm_compute; reflexivity).
  pose proof (checked_on _ _ _ H Hr) as E. cbv beta in E. rewrite Harr in E.
  destruct arr as [|first rest]; [discriminate|].
  apply String.eqb_eq in E. now subst.
Qed.

(** X6.  The variants [getLanguageVariants] answers start with the
    normalized code, hold no duplicate, and each of them normalizes back to
    that code. *)
Theorem getLanguageVariants_same_language (languageCode : string) :
  let variants := fst (getLanguageVariants languageCode initialStore) in
  hd_error variants = Some (normalizeLanguageCode initialStore languageCode)
  /\ NoDup variants
  /\ (forall v : string,
        In v variants ->
        normalizeLanguageCode initialStore v
        = normalizeLanguageCode initialStore languageCode).
Proof.
  cbv zeta. split; [apply variants_head|].
  destruct (getLanguageVariants_run languageCode) as (arr & Harr & Hrun).
  pose proof (normalize_range languageCode) as Hr.
  rewrite Hrun. cbn [fst].
  split.
  - apply uniq_NoDup.
  - intros v Hv. apply (proj1 (uniq_In _ _)) in Hv.
    assert (H : forallb (fun k => match lookup LANGUAGE_MAPPINGS k with
                                  | Some arr =>
                                      forallb (fun v => normalizeLanguageCode initialStore v
                                                        =? k) arr
                                  | None => false
                                  end) baseKeys = true) by (vm_compute; reflexivity).
    pose proof (checked_on _ _ _ H Hr) as E. cbv beta in E. rewrite Harr in E.
    rewrite forallb_forall in E. specialize (E v Hv). cbv beta in E.
    now apply String.eqb_eq in E.
Qed.

Lemma findTruthy_some (p : string -> bool) (l : list string) (s : string) :
  findTruthy p l = Some s -> In s l /\ p s = true /\ Js.truthy s = true.
Proof.
  unfold findTruthy. destruct (find p l) as [x|] eqn:E; [| discriminate].
  destruct (Js.truthy x) eqn:T; [| discriminate].
  intros H. injection H as <-. apply find_some in E. tauto.
Qed.

Lemma priorityMatch_some (available priority : list string) (s : string) :
  priorityMatch initialStore available priority = Some s ->
  In s available /\ Js.truthy s = true
  /\ exists p, In p priority
               /\ findTruthy (fun lang => normalizeLanguageCode initialStore lang =? p)
                             available = Some s.
Proof.
  induction priority as [|p rest IH]; cbn [priorityMatch]; [discriminate|].
  destruct (findTruthy _ available) as [m|] eqn:E.
  - intros H. injection H as <-.
    destruct (findTruthy_some _ _ _ E) as (Hin & _ & Ht).
    repeat split; try assumption. exists p. split; [now left | assumption].
  - intros H. destruct (IH H) as (Hin & Ht & q & Hq & Hf).
    repeat split; try assumption. exists q. split; [now right | assumption].
Qed.

Lemma without_incl (x : string) (l : list string) : incl (without x l) l.
Proof.
  intros y Hy. unfold without in Hy. now apply filter_In in Hy.
Qed.

(** X7.  On a non-empty list, [findBestLanguageMatch] selects a code of the
    list, offers only codes of the list as alternatives, and never answers
    the kind [none]; an exact or priority selection is not among its own
    alternatives. *)
Theorem findBestLanguageMatch_selects_available
    (availableLanguages : list string) (preferredLanguage : string) :
  availableLanguages <> [] ->
  let m := findBestLanguageMatch initialStore availableLanguages preferredLanguage in
  In (selectedLanguage m) availableLanguages
  /\ incl (availableAlternatives m) availableLanguages
  /\ matchType m <> none
  /\ (matchType m <> first_available ->
      ~ In (selectedLanguage m) (availableAlternatives m)).
Proof.
  intros Hne. cbv zeta.
  unfold findBestLanguageMatch.
  destruct availableLanguages as [|firstAvailable others]; [contradiction|].
  cbv zeta in *.
  set (available := firstAvailable :: others) in *.
  assert (Hwo : forall x, ~ In x (without x available)).
  { intros x Hx. unfold without in Hx. apply filter_In in Hx as [_ Hx].
    now rewrite String.eqb_refl in Hx. }
  destruct (findTruthy _ available) as [e|] eqn:He.
  - cbn [selectedLanguage availableAlternatives matchType]. destruct (findTruthy_some _ _ _ He) as (Hin & _).
    split; [assumption|]. split; [apply without_incl|].
    split; [discriminate | intros _; apply Hwo].
  - rewrite (findTruthy_ext _
               (fun lang => normalizeLanguageCode initialStore lang
                            =? normalizeLanguageCode initialStore preferredLanguage)
               available)
      by (intros lang; apply (family_test_is_exact_test preferredLanguage lang)).
    rewrite He.
    destruct (priorityMatch initialStore available LANGUAGE_PRIORITY) as [pm|] eqn:Hp.
    + cbn [selectedLanguage availableAlternatives matchType]. destruct (priorityMatch_some _ _ _ Hp) as (Hin & _).
      split; [assumption|]. split; [apply without_incl|].
      split; [discriminate | intros _; apply Hwo].
    + cbn [selectedLanguage availableAlternatives matchType].
      split; [now left|]. split; [intros y Hy; now right|].
      split; [discriminate | intros H; now elim H].
Qed.

Lemma findBestLanguageMatch_selects_available_witness :
  In (selectedLanguage (findBestLanguageMatch initialStore ["fr"; "de"] "uk")) ["fr"; "de"]
  /\ incl (availableAlternatives (findBestLanguageMatch initialStore ["fr"; "de"] "uk"))
          ["fr"; "de"]
  /\ matchType (findBestLanguageMatch initialStore ["fr"; "de"] "uk") <> none
  /\ (matchType (findBestLanguageMatch initialStore ["fr"; "de"] "uk") <> first_available ->
      ~ In (selectedLanguage (findBestLanguageMatch initialStore ["fr"; "de"] "uk"))
           (availableAlternatives (findBestLanguageMatch initialStore ["fr"; "de"] "uk"))).
Proof.
  apply (findBestLanguageMatch_selects_available ["fr"; "de"] "uk"). discriminate.
Defined.

(** X8.  On a non-empty list the match is [exact] exactly when the selected
    code is non-empty and normalizes to the language the preferred code
    normalizes to; a priority selection normalizes to a language of
    [LANGUAGE_PRIORITY]; and the confidence is the one of the kind (1, 0.6,
    0.3). *)
Theorem exact_iff_same_language
    (availableLanguages : list string) (preferredLanguage : string) :
  availableLanguages <> [] ->
  let m := findBestLanguageMatch initialStore availableLanguages preferredLanguage in
  (matchType m = exact <->
   Js.truthy (selectedLanguage m) = true
   /\ normalizeLanguageCode initialStore (selectedLanguage m)
      = normalizeLanguageCode initialStore preferredLanguage)
  /\ (matchType m = priority_fallback ->
      In (normalizeLanguageCode initialStore (selectedLanguage m)) LANGUAGE_PRIORITY)
  /\ confidence m = match matchType m with
                    | exact => 1%Q
                    | family => (8 # 10)%Q
                    | priority_fallback => (6 # 10)%Q
                    | first_available => (3 # 10)%Q
                    | none => 0%Q
                    end.
Proof.
  intros Hne. cbv zeta. unfold findBestLanguageMatch.
  destruct availableLanguages as [|firstAvailable others]; [contradiction|].
  cbv zeta.
  set (available := firstAvailable :: others) in *.
  set (exactTest := fun lang : string =>
                      normalizeLanguageCode initialStore lang
                      =? normalizeLanguageCode initialStore preferredLanguage).
  destruct (findTruthy exactTest available) as [e|] eqn:He.
  - cbn [selectedLanguage matchType confidence].
    destruct (findTruthy_some _ _ _ He) as (_ & Hp & Ht). unfold exactTest in Hp.
    apply String.eqb_eq in Hp.
    split; [tauto|]. split; [discriminate | reflexivity].
  - rewrite (findTruthy_ext _ exactTest available)
      by (intros lang; apply (family_test_is_exact_test preferredLanguage lang)).
    rewrite He.
    destruct (priorityMatch initialStore available LANGUAGE_PRIORITY) as [pm|] eqn:Hp;
      cbn [selectedLanguage matchType confidence].
    + destruct (priorityMatch_some _ _ _ Hp) as (_ & _ & p & Hin & Hf).
      destruct (findTruthy_some _ _ _ Hf) as (_ & Hnorm & _).
      apply String.eqb_eq in Hnorm.
      split; [split; [discriminate|] | split; [intros _; now rewrite Hnorm | reflexivity]].
      intros [_ Hsame]. exfalso.
      assert (Hp' : p = normalizeLanguageCode initialStore preferredLanguage)
        by congruence.
      clear Hnorm Hsame. subst p.
      change (findTruthy exactTest available = Some pm) in Hf. congruence.
    + split; [split; [discriminate|] | split; [discriminate | reflexivity]].
      intros [Ht Hsame]. exfalso.
      unfold findTruthy, available in He. cbn [find] in He.
      unfold exactTest in He at 1. rewrite Hsame, String.eqb_refl, Ht in He.
      discriminate.
Qed.

Lemma exact_iff_same_language_witness :
  (matchType (findBestLanguageMatch initialStore ["de"; "EN-au"] "en-US") = exact <->
   Js.truthy (selectedLanguage (findBestLanguageMatch initialStore ["de"; "EN-au"] "en-US"))
   = true
   /\ normalizeLanguageCode initialStore
        (selectedLanguage (findBestLanguageMatch initialStore ["de"; "EN-au"] "en-US"))
      = normalizeLanguageCode initialStore "en-US")
  /\ (matchType (findBestLanguageMatch initialStore ["de"; "EN-au"] "en-US")
      = priority_fallback ->
      In (normalizeLanguageCode initialStore
            (selectedLanguage (findBestLanguageMatch initialStore ["de"; "EN-au"] "en-US")))
         LANGUAGE_PRIORITY)
  /\ confidence (findBestLanguageMatch initialStore ["de"; "EN-au"] "en-US")
     = match matchType (findBestLanguageMatch initialStore ["de"; "EN-au"] "en-US") with
       | exact => 1%Q
       | family => (8 # 10)%Q
       | priority_fallback => (6 # 10)%Q
       | first_available => (3 # 10)%Q
       | none => 0%Q
       end.
Proof.
  apply (exact_iff_same_language ["de"; "EN-au"] "en-US"). discriminate.
Defined.

(** X9.  [createLanguageConfig] leaves the shared table as it was; its
    primary language is the selection of [findBestLanguageMatch], its
    confidence and kind are that match's, and its fallback languages are the
    variants of the preferred code, whatever the available languages and
    the method. *)
Theorem createLanguageConfig_fields (preferredLanguage : string)
    (availableLanguages : list string) (extractionMethod : string) :
  let run := createLanguageConfig preferredLanguage availableLanguages extractionMethod
               initialStore in
  let m := findBestLanguageMatch initialStore availableLanguages preferredLanguage in
  snd run = initialStore
  /\ primaryLanguage (fst run) = selectedLanguage m
  /\ matchConfidence (fst run) = confidence m
  /\ lc_matchType (fst run) = matchType m
  /\ fallbackLanguages (fst run) = fst (getLanguageVariants preferredLanguage initialStore)
  /\ hd_error (fallbackLanguages (fst run))
     = Some (normalizeLanguageCode initialStore preferredLanguage).
Proof.
  cbv zeta.
  pose proof (variants_head preferredLanguage) as Hhd.
  destruct (getLanguageVariants_run preferredLanguage) as (arr & _ & Hrun).
  rewrite Hrun in *. cbn [fst] in Hhd.
  cbv beta iota zeta delta [createLanguageConfig bind reads ret].
  rewrite Hrun.
  destruct (extractionMethod =? "youtube-transcript");
    [cbn [fst snd primaryLanguage matchConfidence lc_matchType fallbackLanguages];
     repeat split; assumption|].
  destruct (extractionMethod =? "youtube-caption-extractor");
    [cbn [fst snd primaryLanguage matchConfidence lc_matchType fallbackLanguages];
     repeat split; assumption|].
  destruct (extractionMethod =? "whisper-audio");
    cbn [fst snd primaryLanguage matchConfidence lc_matchType fallbackLanguages];
    repeat split; assumption.
Qed.

End LanguageMoreFacts.

(* ===================================================================== *)
(** ** More facts about the strategy selector *)
(* ===================================================================== *)

Module StrategyMoreFacts.

Import StrategySelector StrategyHelpers JsFacts JsMoreFacts.

Lemma selectStrategy_formula (metadata : VideoMetadata)
    (preferences : ExtractionPreferences) :
  selectStrategy metadata preferences
  = (if _isVideoSuitableForExtraction metadata && hasClosedCaptions metadata
     then [YOUTUBE_TRANSCRIPT; YOUTUBE_CAPTION_EXTRACTOR] else [])
    ++ (if p_fallbackToAudio (mergePreferences preferences) then [WHISPER_AUDIO] else []).
Proof.
  unfold selectStrategy.
  destruct (_isVideoSuitableForExtraction metadata); cbn [negb andb].
  - destruct (hasClosedCaptions metadata);
      destruct (p_fallbackToAudio (mergePreferences preferences));
      try destruct (_hasPreferredLanguage _ _); reflexivity.
  - destruct (p_fallbackToAudio (mergePreferences preferences)); reflexivity.
Qed.

(** X10.  [selectStrategy] is decided by three facts alone: whether the
    video is suitable, whether it has captions, and whether the audio
    fallback is enabled.  Its answer is the two caption techniques (for a
    suitable video with captions) followed by the audio technique (when
    enabled); it holds no duplicate, and does not depend on the preferred or
    the available languages. *)
Theorem selectStrategy_table (metadata : VideoMetadata)
    (preferences : ExtractionPreferences) :
  selectStrategy metadata preferences
  = (if _isVideoSuitableForExtraction metadata && hasClosedCaptions metadata
     then [YOUTUBE_TRANSCRIPT; YOUTUBE_CAPTION_EXTRACTOR] else [])
    ++ (if p_fallbackToAudio (mergePreferences preferences) then [WHISPER_AUDIO] else [])
  /\ NoDup (selectStrategy metadata preferences)
  /\ (forall (languages : list string) (language : string),
        selectStrategy
          (mkMetadata (videoId metadata) (title metadata) (description metadata)
             (duration metadata) (isLive metadata) (isUpcoming metadata)
             (hasClosedCaptions metadata) languages)
          (mkPreferences (Some language) (format preferences)
             (fallbackToAudio preferences))
        = selectStrategy metadata preferences).
Proof.
  split; [apply selectStrategy_formula|]. split.
  - rewrite selectStrategy_formula.
    destruct (_isVideoSuitableForExtraction metadata && hasClosedCaptions metadata);
      destruct (p_fallbackToAudio (mergePreferences preferences));
      cbn [app]; repeat constructor; cbn; intuition discriminate.
  - intros languages language. rewrite !selectStrategy_formula. reflexivity.
Qed.

(** X11.  The primary strategy is [youtube-transcript] for a suitable video
    with captions, otherwise [whisper-audio] when the audio fallback is
    enabled, otherwise none.  [isMethodRecommended] accepts the audio
    technique exactly when the fallback is enabled, each caption technique
    exactly for a suitable video with captions, and no other name. *)
Theorem primary_and_recommended (metadata : VideoMetadata)
    (preferences : ExtractionPreferences) :
  let captions := _isVideoSuitableForExtraction metadata && hasClosedCaptions metadata in
  let audio := p_fallbackToAudio (mergePreferences preferences) in
  getPrimaryStrategy metadata preferences
  = (if captions then Some YOUTUBE_TRANSCRIPT
     else if audio then Some WHISPER_AUDIO else None)
  /\ isMethodRecommended metadata WHISPER_AUDIO preferences = audio
  /\ isMethodRecommended metadata YOUTUBE_TRANSCRIPT preferences = captions
  /\ isMethodRecommended metadata YOUTUBE_CAPTION_EXTRACTOR preferences = captions
  /\ (forall method : string,
        isMethodRecommended metadata method preferences = true ->
        method = YOUTUBE_TRANSCRIPT \/ method = YOUTUBE_CAPTION_EXTRACTOR
        \/ method = WHISPER_AUDIO).
Proof.
  cbv zeta. unfold getPrimaryStrategy, isMethodRecommended.
  rewrite selectStrategy_formula.
  destruct (_isVideoSuitableForExtraction metadata && hasClosedCaptions metadata);
    destruct (p_fallbackToAudio (mergePreferences preferences));
    cbn [app]; (repeat split; try reflexivity);
    intros method H; apply includes_In in H; cbn in H; intuition.
Qed.

(** X12.  [_hasPreferredLanguage] holds exactly when some available code
    starts with the part of the preferred code before its first hyphen: the
    test for the preferred code itself adds nothing. *)
Theorem hasPreferredLanguage_is_prefix_test
    (availableLanguages : list string) (preferredLanguage : string) :
  _hasPreferredLanguage availableLanguages preferredLanguage
  = existsb (fun lang => Js.startsWith lang (Js.splitHead "-" preferredLanguage))
            availableLanguages.
Proof.
  unfold _hasPreferredLanguage.
  destruct availableLanguages as [|first others]; [reflexivity|].
  set (available := first :: others).
  destruct (Js.includes available preferredLanguage) eqn:E; [| reflexivity].
  symmetry. apply existsb_exists. exists preferredLanguage.
  split; [now apply includes_In | apply startsWith_splitHead].
Qed.

(** What [pushNew] leaves: the old entries first, then each new code that
    passes the test, once. *)
Lemma pushNew_spec (test : string -> bool) (availableLanguages fallbacks : list string) :
  (forall x, In x (pushNew test availableLanguages fallbacks)
             <-> In x fallbacks \/ (In x availableLanguages /\ test x = true))
  /\ (NoDup fallbacks -> NoDup (pushNew test availableLanguages fallbacks))
  /\ (exists tail, pushNew test availableLanguages fallbacks = fallbacks ++ tail).
Proof.
  unfold pushNew. revert fallbacks.
  induction availableLanguages as [|a rest IH]; intros fallbacks; cbn [fold_left].
  - split; [intros x; cbn; tauto|]. split; [tauto|]. exists []. now rewrite app_nil_r.
  - destruct (test a && negb (Js.includes fallbacks a)) eqn:E.
    + apply andb_true_iff in E as [Ht Hn]. apply negb_true_iff in Hn.
      apply includes_false in Hn.
      destruct (IH (fallbacks ++ [a])) as (Hin & Hnd & tail & Htail).
      split; [| split].
      * intros x. rewrite Hin, in_app_iff. cbn.
        split; [intros [[H | [<- | []]] | [H1 H2]]; tauto|].
        intros [H | [[<- | H] Htx]]; tauto.
      * intros Hf. apply Hnd. apply NoDup_app; [assumption | repeat constructor; tauto |].
        intros y Hy [<- | []]. contradiction.
      * exists ([a] ++ tail). now rewrite Htail, <- app_assoc.
    + destruct (IH fallbacks) as (Hin & Hnd & tail & Htail).
      split; [| split; [assumption | now exists tail]].
      intros x. rewrite Hin. cbn.
      split; [tauto|]. intros [H | [[<- | H] Htx]]; try tauto.
      apply andb_false_iff in E as [E | E]; [congruence|].
      apply negb_false_iff in E. apply includes_In in E. tauto.
Qed.

(** X13.  For a non-empty list of available languages,
    [_getFallbackLanguages] answers exactly the codes of that list: none is
    lost and none is added.  When the list holds no code twice the answer is
    a rearrangement of it, and when the preferred code is available it comes
    first. *)
Theorem getFallbackLanguages_rearranges
    (availableLanguages : list string) (preferredLanguage : string) :
  availableLanguages <> [] ->
  let fallbacks := _getFallbackLanguages availableLanguages preferredLanguage in
  (forall x, In x fallbacks <-> In x availableLanguages)
  /\ (NoDup availableLanguages -> Permutation availableLanguages fallbacks)
  /\ (In preferredLanguage availableLanguages ->
      hd_error fallbacks = Some preferredLanguage).
Proof.
  intros Hne. cbv zeta. unfold _getFallbackLanguages.
  destruct availableLanguages as [|first others]; [contradiction|].
  set (available := first :: others) in *. cbv zeta.
  set (fb0 := if Js.includes available preferredLanguage
              then [preferredLanguage] else []).
  set (fb1 := pushNew _ available fb0).
  set (fb2 := if negb (existsb (fun lang => Js.startsWith lang "en") fb1)
              then fb1 ++ filter (fun lang => Js.startsWith lang "en") available
              else fb1).
  set (fb3 := pushNew (fun _ => true) available fb2).
  assert (H0 : (forall x, In x fb0 -> In x available) /\ NoDup fb0).
  { unfold fb0. destruct (Js.includes available preferredLanguage) eqn:E.
    - apply includes_In in E. split; [intros x [<- | []]; assumption|].
      repeat constructor. intros [].
    - split; [intros x [] | constructor]. }
  destruct H0 as [Hsub0 Hnd0].
  destruct (pushNew_spec (fun lang => Js.startsWith lang (Js.splitHead "-" preferredLanguage))
              available fb0) as (Hin1 & Hnd1 & tail1 & Htail1).
  fold fb1 in Hin1, Hnd1, Htail1.
  assert (Hsub1 : forall x, In x fb1 -> In x available).
  { intros x Hx. apply Hin1 in Hx as [Hx | [Hx _]]; auto. }
  assert (H2 : (forall x, In x fb2 -> In x available)
               /\ (NoDup available -> NoDup fb2)
               /\ exists tail2, fb2 = fb1 ++ tail2).
  { unfold fb2. destruct (negb (existsb _ fb1)) eqn:E.
    - apply negb_true_iff in E. split; [| split].
      + intros x Hx. apply in_app_iff in Hx as [Hx | Hx]; [auto|].
        now apply filter_In in Hx.
      + intros Hnd. apply NoDup_app; [auto | now apply NoDup_filter |].
        intros x Hx Hf. apply filter_In in Hf as [_ Hf].
        assert (existsb (fun lang => Js.startsWith lang "en") fb1 = true)
          by (apply existsb_exists; now exists x).
        congruence.
      + now eexists.
    - split; [assumption|]. split; [auto|]. exists []. now rewrite app_nil_r. }
  destruct H2 as (Hsub2 & Hnd2 & tail2 & Htail2).
  destruct (pushNew_spec (fun _ => true) available fb2) as (Hin3 & Hnd3 & tail3 & Htail3).
  fold fb3 in Hin3, Hnd3, Htail3.
  assert (Hmem : forall x, In x fb3 <-> In x available).
  { intros x. rewrite Hin3. split; [intros [H | [H _]]; auto | tauto]. }
  assert (Hfirst : In first fb3) by (apply Hmem; now left).
  destruct fb3 as [|f rest] eqn:E3; [contradiction|]. rewrite <- E3 in *.
  split; [assumption|]. split.
  - intros Hnd. apply NoDup_Permutation; [assumption | auto |].
    intros x. symmetry. apply Hmem.
  - intros Hp. apply includes_In in Hp.
    rewrite Htail3, Htail2, Htail1. unfold fb0. rewrite Hp. reflexivity.
Qed.

Lemma getFallbackLanguages_rearranges_witness :
  Permutation ["fr"; "en-GB"; "de"; "en"]
              (_getFallbackLanguages ["fr"; "en-GB"; "de"; "en"] "de")
  /\ hd_error (_getFallbackLanguages ["fr"; "en-GB"; "de"; "en"] "de") = Some "de".
Proof.
  destruct (getFallbackLanguages_rearranges ["fr"; "en-GB"; "de"; "en"] "de")
    as (_ & Hperm & Hhead); [discriminate|].
  split.
  - apply Hperm. repeat constructor; cbn; intuition discriminate.
  - apply Hhead. cbn. tauto.
Defined.

End StrategyMoreFacts.

(* ===================================================================== *)
(** ** More facts about the fallback executor *)
(* ===================================================================== *)

Module ExecutorMoreFacts.

Import StrategySelector UnifiedExtractor.

Section Executor.

Variable World : Type.
Variable now : World -> Z.
Variable youtubeTranscript : string -> Config -> World -> Completion RawResult * World.
Variable captionExtractor : string -> Config -> World -> Completion RawResult * World.
Variable whisperAudio : string -> Config -> World -> Completion RawResult * World.

Local Abbreviation run :=
  (transcriptResultOf World now youtubeTranscript captionExtractor whisperAudio).
Local Abbreviation tries :=
  (attempts World now youtubeTranscript captionExtractor whisperAudio).
Local Abbreviation loop :=
  (fallbackLoop World now youtubeTranscript captionExtractor whisperAudio).
Local Abbreviation fallback :=
  (extractWithFallback World now youtubeTranscript captionExtractor whisperAudio).

(** What one call of [extractTranscript] always leaves: the result names the
    method, the log has one more entry, and a failure carries the empty
    transcript. *)
Lemma run_shape (videoId method : string) (config : Config) (s : Exec World) :
  UnifiedExtractor.method (fst (run videoId method config s)) = method
  /\ invoked (snd (run videoId method config s)) = invoked s ++ [method]
  /\ (success (fst (run videoId method config s)) = false ->
      transcript (fst (run videoId method config s)) = Some "").
Proof.
  unfold transcriptResultOf.
  destruct (dispatch _ _ _ _ _ _ _ _) as [[raw|message] w']; cbn.
  - repeat split. discriminate.
  - repeat split.
Qed.

Lemma rejected_is_short (videoId method : string) (config : Config) (s : Exec World) :
  sufficient (fst (run videoId method config s)) = false ->
  (transcriptLength (transcript (fst (run videoId method config s))) <= 50)%N.
Proof.
  destruct (run_shape videoId method config s) as (_ & _ & Hfail).
  destruct (run videoId method config s) as [r s']. cbn [fst] in *.
  unfold sufficient, longEnough, transcriptLength.
  destruct (success r).
  - cbn [andb]. destruct (transcript r) as [t|]; [| intros _; lia].
    destruct t as [|c t']; [intros _; cbn; lia|].
    cbn [Js.truthy String.eqb negb andb]. intros H.
    apply Nat.ltb_ge in H. lia.
  - intros _. rewrite (Hfail eq_refl). cbn. lia.
Qed.

Lemma loop_walks_the_list (videoId : string) (config : Config)
    (methods errors : list string) (s : Exec World) :
  exists tried rest : list string,
    methods = tried ++ rest
    /\ invoked (snd (loop videoId methods config errors s)) = invoked s ++ tried
    /\ (success (fst (loop videoId methods config errors s)) = false ->
        rest = [] /\ method (fst (loop videoId methods config errors s)) = "none")
    /\ (success (fst (loop videoId methods config errors s)) = true ->
        exists before,
          tried = before ++ [method (fst (loop videoId methods config errors s))]).
Proof.
  revert errors s. induction methods as [|m rest IH]; intros errors s.
  - exists [], []. cbn. rewrite app_nil_r. repeat split. discriminate.
  - cbn [fallbackLoop]. unfold extractTranscript.
    destruct (run_shape videoId m config s) as (Hm & Hinv & _).
    destruct (run videoId m config s) as [r s1]. cbn [fst snd] in *.
    destruct (sufficient r) eqn:Hs.
    + exists [m], rest. cbn [fst snd]. split; [reflexivity|]. split; [assumption|].
      unfold sufficient in Hs. apply andb_true_iff in Hs as [Hsucc _].
      split; [rewrite Hsucc; discriminate|].
      intros _. exists []. now rewrite Hm.
    + destruct (IH (errors ++ [insufficientEntry m r]) s1)
        as (tried & rest' & Hsplit & Hlog & Hfail & Hok).
      exists (m :: tried), rest'. split; [cbn; now rewrite Hsplit|].
      split; [rewrite Hlog, Hinv, <- app_assoc; reflexivity|].
      split; [assumption|].
      intros H. destruct (Hok H) as [before Hb]. exists (m :: before).
      cbn. now rewrite Hb.
Qed.

(** X14.  [extractWithFallback] enters the techniques in the order of the
    list, each position once and none skipped.  When it fails it has
    entered them all and names the method [none]; when it succeeds the
    last technique entered is the one the result names. *)
Theorem extractWithFallback_walks_the_list (videoId : string) (methods : list string)
    (config : Config) (s : Exec World) :
  exists tried rest : list string,
    methods = tried ++ rest
    /\ invoked (snd (fallback videoId methods config s)) = invoked s ++ tried
    /\ (success (fst (fallback videoId methods config s)) = false ->
        rest = [] /\ method (fst (fallback videoId methods config s)) = "none")
    /\ (success (fst (fallback videoId methods config s)) = true ->
        exists before,
          tried = before ++ [method (fst (fallback videoId methods config s))]).
Proof.
  apply loop_walks_the_list.
Qed.

Lemma tries_rejected_short (videoId : string) (config : Config) (methods : list string)
    (s : Exec World) :
  rejected (fst (tries videoId methods config s)) = true ->
  Forall (fun r => (transcriptLength (transcript r) <= 50)%N)
         (fst (tries videoId methods config s))
  /\ length (fst (tries videoId methods config s)) = length methods.
Proof.
  revert s. induction methods as [|m rest IH]; intros s.
  - cbn. split; [constructor | reflexivity].
  - cbn [attempts].
    pose proof (rejected_is_short videoId m config s) as Hshort.
    destruct (run videoId m config s) as [r s1]. cbn [fst] in Hshort.
    specialize (IH s1).
    destruct (tries videoId rest config s1) as [rs s2]. cbn [fst] in *.
    unfold rejected. cbn [forallb]. intros H.
    apply andb_true_iff in H as [Hr Hrs]. apply negb_true_iff in Hr.
    destruct (IH Hrs) as [Hall Hlen].
    split; [constructor; auto | cbn; now rewrite Hlen].
Qed.

(** X15.  When no attempt is accepted, [extractWithFallback] returns the
    failure object whose message is "All extraction methods failed.
    Errors: " followed by one entry per technique, in order, joined by "; ";
    each entry is the technique's name, ": Insufficient content (", a count
    of at most 50 and " chars)".  Every technique has been entered. *)
Theorem extractWithFallback_failure_report (videoId : string) (methods : list string)
    (config : Config) (s : Exec World) :
  rejected (fst (tries videoId methods config s)) = true ->
  let results := fst (tries videoId methods config s) in
  fallback videoId methods config s
  = (allFailed config (entries methods results), snd (tries videoId methods config s))
  /\ error (fst (fallback videoId methods config s))
     = Some ("All extraction methods failed. Errors: "
             ++ Js.join "; "
                  (map (fun mr =>
                          fst mr ++ ": Insufficient content ("
                          ++ Js.numberToString (transcriptLength (transcript (snd mr)))
                          ++ " chars)")
                       (combine methods results)))%string
  /\ length results = length methods
  /\ Forall (fun r => (transcriptLength (transcript r) <= 50)%N) results
  /\ invoked (snd (fallback videoId methods config s)) = invoked s ++ methods.
Proof.
  intros Hrej. cbv zeta.
  pose proof (ExecutorFacts.fallback_all_rejected World now youtubeTranscript
                captionExtractor whisperAudio videoId methods config s Hrej) as E.
  destruct (tries_rejected_short videoId config methods s Hrej) as [Hshort Hlen].
  rewrite E. cbn [fst snd].
  split; [reflexivity|]. split; [reflexivity|]. split; [assumption|].
  split; [assumption|].
  apply ExecutorFacts.tries_invoked.
Qed.

(** X16.  A method name that is none of the three techniques reaches no
    backend: whatever the backends are, [extractTranscript] leaves the world
    as it was, enters the name in the log and returns a failure with the
    message "Unsupported extraction method: " followed by the name, an empty
    transcript and the format and language of the configuration ("txt" and
    "en" when it has none). *)
Theorem unsupported_method_reaches_no_backend (videoId method : string)
    (config : Config) (s : Exec World) :
  method <> "youtube-transcript" ->
  method <> "youtube-caption-extractor" ->
  method <> "whisper-audio" ->
  let result := fst (run videoId method config s) in
  extractTranscript World now youtubeTranscript captionExtractor whisperAudio
    videoId method config s
  = (Returned result, mkExec (world s) (invoked s ++ [method]))
  /\ success result = false
  /\ transcript result = Some ""
  /\ UnifiedExtractor.method result = method
  /\ error result = Some ("Unsupported extraction method: " ++ method)%string
  /\ r_format result = orElse (c_format config) "txt"
  /\ r_language result = orElse (c_language config) "en"
  /\ r_segments result = None.
Proof.
  intros H1 H2 H3. cbv zeta.
  unfold extractTranscript, transcriptResultOf, dispatch.
  apply String.eqb_neq in H1, H2, H3.
  change YOUTUBE_TRANSCRIPT with "youtube-transcript".
  change YOUTUBE_CAPTION_EXTRACTOR with "youtube-caption-extractor".
  change WHISPER_AUDIO with "whisper-audio".
  rewrite H1, H2, H3. cbn [fst snd]. repeat split.
Qed.

End Executor.

Lemma extractWithFallback_failure_report_witness :
  error (fst (extractWithFallback Scenario.World Scenario.now
                Scenario.throwingTranscript Scenario.shortCaptions Scenario.longAudio
                "dQw4w9WgXcQ" [YOUTUBE_TRANSCRIPT; YOUTUBE_CAPTION_EXTRACTOR]
                emptyConfig Scenario.startState))
  = Some "All extraction methods failed. Errors: youtube-transcript: Insufficient content (0 chars); youtube-caption-extractor: Insufficient content (5 chars)".
Proof.
  destruct (extractWithFallback_failure_report Scenario.World Scenario.now
              Scenario.throwingTranscript Scenario.shortCaptions Scenario.longAudio
              "dQw4w9WgXcQ" [YOUTUBE_TRANSCRIPT; YOUTUBE_CAPTION_EXTRACTOR]
              emptyConfig Scenario.startState) as (_ & Herr & _).
  - reflexivity.
  - rewrite Herr. reflexivity.
Defined.

Lemma unsupported_method_reaches_no_backend_witness :
  extractTranscript Scenario.World Scenario.now Scenario.throwingTranscript
    Scenario.shortCaptions Scenario.longAudio "dQw4w9WgXcQ" "bogus" emptyConfig
    Scenario.startState
  = (Returned (fst (transcriptResultOf Scenario.World Scenario.now
                      Scenario.throwingTranscript Scenario.shortCaptions
                      Scenario.longAudio "dQw4w9WgXcQ" "bogus" emptyConfig
                      Scenario.startState)),
     mkExec 0%Z ["bogus"])
  /\ error (fst (transcriptResultOf Scenario.World Scenario.now
                   Scenario.throwingTranscript Scenario.shortCaptions
                   Scenario.longAudio "dQw4w9WgXcQ" "bogus" emptyConfig
                   Scenario.startState))
     = Some "Unsupported extraction method: bogus".
Proof.
  assert (H1 : "bogus" <> "youtube-transcript") by discriminate.
  assert (H2 : "bogus" <> "youtube-caption-extractor") by discriminate.
  assert (H3 : "bogus" <> "whisper-audio") by discriminate.
  pose proof (unsupported_method_reaches_no_backend Scenario.World Scenario.now
                Scenario.throwingTranscript Scenario.shortCaptions Scenario.longAudio
                "dQw4w9WgXcQ" "bogus" emptyConfig Scenario.startState H1 H2 H3)
    as (Hrun & _ & _ & _ & Herr & _).
  exact (conj Hrun Herr).
Defined.

End ExecutorMoreFacts.

(* ===================================================================== *)
(** ** Facts about the three backends *)
(* ===================================================================== *)

Module BackendFacts.

Import StrategySelector UnifiedExtractor Backends.

Section Libraries.

Variable World : Type.
Variable Item : Type.
Variable segmentOf : Item -> Segment.
Variable VideoDetails : Type.
Variable stringify : list Segment -> string -> option VideoDetails -> string.
Variable fetchTranscript :
  string -> FetchOptions -> World -> Completion (list Item) * World.
Variable getSubtitles :
  string -> LangArg -> World -> Completion (list Item) * World.
Variable getVideoDetails :
  string -> World -> Completion VideoDetails * World.
Variable openaiConfigured : bool.
Variable downloadAudio : string -> World -> Completion N * World.
Variable createTranscription :
  TranscriptionRequest -> World -> Completion WhisperResponse * World.

Local Abbreviation format := (_formatTranscriptResult Item segmentOf VideoDetails stringify).
Local Abbreviation tryAll :=
  (tryTranscripts World Item segmentOf VideoDetails stringify fetchTranscript).
Local Abbreviation each := (fetchEach World Item fetchTranscript).
Local Abbreviation viaTranscript :=
  (_extractWithYouTubeTranscript World Item segmentOf VideoDetails stringify
     fetchTranscript).
Local Abbreviation viaCaptions :=
  (_extractWithCaptionExtractor World Item segmentOf VideoDetails stringify
     getSubtitles getVideoDetails).
Local Abbreviation viaWhisper :=
  (_extractWithWhisperAudio World openaiConfigured downloadAudio createTranscription).

Lemma call_log {A} (r : Request) (f : World -> Completion A * World) (o : Outside World) :
  calls (snd (call World r f o)) = calls o ++ [r]
  /\ outer (snd (call World r f o)) = snd (f (outer o))
  /\ fst (call World r f o) = fst (f (outer o)).
Proof.
  unfold call. destruct (f (outer o)) as [c w']. repeat split.
Qed.

Lemma format_shape (raw : list Item) (config : Config) (source : string)
    (details : option VideoDetails) :
  raw <> [] ->
  raw_segments (format raw config source details) <> []
  /\ length (raw_segments (format raw config source details)) = length raw
  /\ raw_source (format raw config source details) = Some source
  /\ raw_confidence (format raw config source details) = (9 # 10)%Q.
Proof.
  intros H. unfold _formatTranscriptResult. cbn.
  rewrite length_map. repeat split.
  destruct raw; [contradiction | discriminate].
Qed.

Lemma tryAll_outcomes (videoId : string) (config : Config)
    (attempts : list FetchOptions) (o : Outside World) :
  exists made rest : list FetchOptions,
    attempts = made ++ rest
    /\ calls (snd (tryAll videoId config attempts o))
       = calls o ++ map (FetchTranscript videoId) made
    /\ match fst (tryAll videoId config attempts o) with
       | Threw message =>
           message = "youtube-transcript: No transcript data available" /\ rest = []
       | Returned r =>
           made <> [] /\ raw_segments r <> []
           /\ raw_source r = Some "youtube-transcript"
           /\ raw_confidence r = (9 # 10)%Q
       end.
Proof.
  revert o. induction attempts as [|options rest IH]; intros o.
  - exists [], []. cbn. rewrite app_nil_r. repeat split.
  - cbn [tryTranscripts].
    destruct (call_log (FetchTranscript videoId options)
                (fetchTranscript videoId options) o) as (Hlog & _ & _).
    destruct (call World _ _ o) as [[transcript|message] o1]; cbn [snd] in Hlog.
    + destruct transcript as [|item items].
      * destruct (IH o1) as (made & rest' & Hsplit & Hcalls & Hres).
        exists (options :: made), rest'. split; [cbn; now rewrite Hsplit|].
        split; [rewrite Hcalls, Hlog, <- app_assoc; reflexivity|].
        destruct (fst (tryAll videoId config rest o1)); [| assumption].
        destruct Hres as (_ & Hres). split; [discriminate | assumption].
      * exists [options], rest. cbn [fst snd]. split; [reflexivity|].
        split; [assumption|]. split; [discriminate|].
        destruct (format_shape (item :: items) config "youtube-transcript" None)
          as (H1 & _ & H3 & H4); [discriminate|].
        repeat split; assumption.
    + destruct (IH o1) as (made & rest' & Hsplit & Hcalls & Hres).
      exists (options :: made), rest'. split; [cbn; now rewrite Hsplit|].
      split; [rewrite Hcalls, Hlog, <- app_assoc; reflexivity|].
      destruct (fst (tryAll videoId config rest o1)); [| assumption].
      destruct Hres as (_ & Hres). split; [discriminate | assumption].
Qed.

(** Through requests that are all answered with an error or an empty array
    the loop only goes on. *)
Lemma tryAll_through_unusable (videoId : string) (config : Config)
    (pre rest : list FetchOptions) (o : Outside World) :
  existsb (usable Item) (fst (each videoId pre o)) = false ->
  tryAll videoId config (pre ++ rest) o
  = tryAll videoId config rest (snd (each videoId pre o)).
Proof.
  revert o. induction pre as [|options pre IH]; intros o Hnone.
  - reflexivity.
  - cbn [app tryTranscripts fetchEach] in *.
    destruct (call World _ _ o) as [answer o1].
    specialize (IH o1).
    destruct (each videoId pre o1) as [answers o2].
    cbn [fst snd existsb] in *.
    apply orb_false_iff in Hnone as [Hanswer Hrest].
    destruct answer as [[|item items]|message];
      [apply (IH Hrest) | discriminate Hanswer | apply (IH Hrest)].
Qed.

Lemma each_calls (videoId : string) (attempts : list FetchOptions) (o : Outside World) :
  calls (snd (each videoId attempts o))
  = calls o ++ map (FetchTranscript videoId) attempts.
Proof.
  revert o. induction attempts as [|options rest IH]; intros o.
  - cbn. now rewrite app_nil_r.
  - cbn [fetchEach].
    destruct (call_log (FetchTranscript videoId options)
                (fetchTranscript videoId options) o) as (Hlog & _ & _).
    destruct (call World _ _ o) as [answer o1]. cbn [snd] in Hlog.
    specialize (IH o1).
    destruct (each videoId rest o1) as [answers o2]. cbn [snd] in *.
    rewrite IH, Hlog, <- app_assoc. reflexivity.
Qed.

Lemma each_state (videoId : string) (attempts : list FetchOptions) (o : Outside World) :
  snd (each videoId attempts o)
  = mkOutside (outer (snd (each videoId attempts o)))
      (calls o ++ map (FetchTranscript videoId) attempts).
Proof.
  rewrite <- each_calls. now destruct (snd (each videoId attempts o)).
Qed.

(** X17.  [_extractWithYouTubeTranscript] fetches with the configured
    language and country first, then without options, then with each
    fallback language and the country "US", in that order, and stops at the
    first answer that is a non-empty array: it returns that answer
    formatted, in the world that request left, and no later request is
    made.  When no request is answered with a non-empty array, every
    request has been made and it throws "youtube-transcript: No transcript
    data available", whatever the library reported.  What it returns has at
    least one segment, the source [youtube-transcript] and the confidence
    0.9. *)
Theorem youtubeTranscript_outcomes (videoId : string) (config : Config)
    (o : Outside World) :
  transcriptAttempts config
  = LangCountry (c_language config) (countryOr (c_country config) "US")
      :: NoOptions
      :: map (fun lang => LangCountry (Some lang) (LanguageHandler.CountryCode "US"))
           (match c_fallbackLanguages config with
            | Some languages => languages
            | None => []
            end)
  /\ (forall (pre : list FetchOptions) (options : FetchOptions)
             (post : list FetchOptions) (item : Item) (items : list Item)
             (w' : World),
        transcriptAttempts config = pre ++ options :: post ->
        existsb (usable Item) (fst (each videoId pre o)) = false ->
        fetchTranscript videoId options (outer (snd (each videoId pre o)))
        = (Returned (item :: items), w') ->
        viaTranscript videoId config o
        = (Returned (format (item :: items) config "youtube-transcript" None),
           mkOutside w' (calls o ++ map (FetchTranscript videoId) (pre ++ [options]))))
  /\ (existsb (usable Item) (fst (each videoId (transcriptAttempts config) o)) = false ->
      viaTranscript videoId config o
      = (Threw "youtube-transcript: No transcript data available",
         mkOutside (outer (snd (each videoId (transcriptAttempts config) o)))
           (calls o ++ map (FetchTranscript videoId) (transcriptAttempts config))))
  /\ (forall r : RawResult,
        fst (viaTranscript videoId config o) = Returned r ->
        raw_segments r <> []
        /\ raw_source r = Some "youtube-transcript"
        /\ raw_confidence r = (9 # 10)%Q)
  /\ (forall message : string,
        fst (viaTranscript videoId config o) = Threw message ->
        message = "youtube-transcript: No transcript data available").
Proof.
  split; [| split; [| split; [| split]]].
  - unfold transcriptAttempts.
    destruct (c_fallbackLanguages config); reflexivity.
  - intros pre options post item items w' Hsplit Hnone Hfetch.
    unfold _extractWithYouTubeTranscript. rewrite Hsplit.
    rewrite (tryAll_through_unusable _ _ _ _ _ Hnone).
    cbn [tryTranscripts]. unfold call. rewrite Hfetch.
    rewrite each_calls, map_app, <- app_assoc. reflexivity.
  - intros Hnone.
    unfold _extractWithYouTubeTranscript.
    rewrite <- (app_nil_r (transcriptAttempts config)) at 1.
    rewrite (tryAll_through_unusable _ _ _ _ _ Hnone).
    cbn [tryTranscripts]. now rewrite <- each_state.
  - intros r Hr.
    destruct (tryAll_outcomes videoId config (transcriptAttempts config) o)
      as (made & rest & _ & _ & Hres).
    unfold _extractWithYouTubeTranscript in Hr. rewrite Hr in Hres.
    destruct Hres as (_ & Hseg & Hsrc & Hconf). auto.
  - intros message Hm.
    destruct (tryAll_outcomes videoId config (transcriptAttempts config) o)
      as (made & rest & _ & _ & Hres).
    unfold _extractWithYouTubeTranscript in Hm. rewrite Hm in Hres.
    destruct Hres as (Hmsg & _). exact Hmsg.
Qed.

Local Abbreviation findSubs :=
  (findSubtitles World Item getSubtitles).
Local Abbreviation attemptCaptions :=
  (captionAttempt World Item segmentOf VideoDetails stringify getSubtitles
     getVideoDetails).

(** X18.  Whatever [_extractWithCaptionExtractor] throws starts with
    "youtube-caption-extractor: "; whatever it returns has at least one
    segment and names that source. *)
Theorem captionExtractor_outcomes (videoId : string) (config : Config)
    (o : Outside World) :
  match fst (viaCaptions videoId config o) with
  | Threw message =>
      exists inner : string, message = ("youtube-caption-extractor: " ++ inner)%string
  | Returned r =>
      raw_segments (cr_result r) <> []
      /\ raw_source (cr_result r) = Some "youtube-caption-extractor"
      /\ raw_confidence (cr_result r) = (9 # 10)%Q
  end.
Proof.
  unfold _extractWithCaptionExtractor.
  destruct (attemptCaptions videoId config o) as [[r|message] o'] eqn:E; cbn [fst].
  - unfold captionAttempt in E.
    destruct (findSubs videoId config o) as [[[subtitles usedLanguage]|m] o1];
      [| discriminate].
    destruct subtitles as [[|item items]|]; try discriminate.
    destruct (call World (GetVideoDetails videoId) (getVideoDetails videoId) o1)
      as [[d|m] o2]; injection E as <- _;
      cbn [cr_result];
      match goal with
      | |- context [_formatTranscriptResult _ _ _ _ _ _ _ ?details] =>
          destruct (format_shape (item :: items) config "youtube-caption-extractor"
                      details) as (H1 & _ & H3 & H4); [discriminate|]
      end;
      repeat split; assumption.
  - now exists message.
Qed.



End Libraries.

Lemma youtubeTranscript_outcomes_witness :
  _extractWithYouTubeTranscript LibraryScenario.World LibraryScenario.Item
    LibraryScenario.segmentOf LibraryScenario.VideoDetails LibraryScenario.stringify
    LibraryScenario.fetchThird
    "dQw4w9WgXcQ" LibraryScenario.transcriptConfig LibraryScenario.start
  = (Returned (_formatTranscriptResult LibraryScenario.Item LibraryScenario.segmentOf
                 LibraryScenario.VideoDetails LibraryScenario.stringify
                 ["Hello"] LibraryScenario.transcriptConfig "youtube-transcript" None),
     mkOutside 3%nat
       [LibraryScenario.fetchIn "en";
        FetchTranscript "dQw4w9WgXcQ" NoOptions;
        LibraryScenario.fetchIn "en"])
  /\ _extractWithYouTubeTranscript LibraryScenario.World LibraryScenario.Item
       LibraryScenario.segmentOf LibraryScenario.VideoDetails LibraryScenario.stringify
       LibraryScenario.fetchTranscript
       "dQw4w9WgXcQ" LibraryScenario.transcriptConfig LibraryScenario.start
     = (Threw "youtube-transcript: No transcript data available",
        mkOutside 7%nat
          [LibraryScenario.fetchIn "en";
           FetchTranscript "dQw4w9WgXcQ" NoOptions;
           LibraryScenario.fetchIn "en";
           LibraryScenario.fetchIn "en-US";
           LibraryScenario.fetchIn "en-GB";
           LibraryScenario.fetchIn "en-CA";
           LibraryScenario.fetchIn "en-AU"]).
Proof.
  pose (us := LanguageHandler.CountryCode "US").
  split.
  - destruct (youtubeTranscript_outcomes LibraryScenario.World LibraryScenario.Item
                LibraryScenario.segmentOf LibraryScenario.VideoDetails
                LibraryScenario.stringify LibraryScenario.fetchThird
                "dQw4w9WgXcQ" LibraryScenario.transcriptConfig LibraryScenario.start)
      as (_ & Hfirst & _).
    refine (Hfirst [LangCountry (Some "en") us; NoOptions]
                   (LangCountry (Some "en") us)
                   [LangCountry (Some "en-US") us; LangCountry (Some "en-GB") us;
                    LangCountry (Some "en-CA") us; LangCountry (Some "en-AU") us]
                   "Hello" [] 3%nat _ _ _); reflexivity.
  - destruct (youtubeTranscript_outcomes LibraryScenario.World LibraryScenario.Item
                LibraryScenario.segmentOf LibraryScenario.VideoDetails
                LibraryScenario.stringify LibraryScenario.fetchTranscript
                "dQw4w9WgXcQ" LibraryScenario.transcriptConfig LibraryScenario.start)
      as (_ & _ & Hnone & _).
    refine (Hnone _). reflexivity.
Defined.


End BackendFacts.

(* ===================================================================== *)
(** ** Facts about error codes and HTTP status *)
(* ===================================================================== *)

Module FormatterFacts.

Import ResponseFormatter Mask JsFacts.

Lemma prefix_mask (pattern s : string) :
  noDigit pattern = true -> String.prefix pattern (mask s) = String.prefix pattern s.
Proof.
  revert s. induction pattern as [|a p IH]; intros s Hp.
  - destruct s; reflexivity.
  - cbn [noDigit] in Hp. apply andb_true_iff in Hp as [Ha Hp].
    apply negb_true_iff in Ha.
    destruct s as [|b r]; [reflexivity|]. cbn [mask String.prefix].
    destruct (isDigit b) eqn:Hb.
    + destruct (ascii_dec a "0") as [-> | _]; [discriminate Ha|].
      destruct (ascii_dec a b) as [-> | _]; [congruence | reflexivity].
    + destruct (ascii_dec a b); [now apply IH | reflexivity].
Qed.

Lemma includes_mask (pattern s : string) :
  noDigit pattern = true ->
  JsString.includes (mask s) pattern = JsString.includes s pattern.
Proof.
  intros Hp. induction s as [|c r IH].
  - reflexivity.
  - change (JsString.includes (mask (String c r)) pattern)
      with (String.prefix pattern (mask (String c r))
            || JsString.includes (mask r) pattern).
    rewrite (prefix_mask _ _ Hp), IH. reflexivity.
Qed.

Lemma toLowerCase_mask (s : string) : Js.toLowerCase (mask s) = mask (Js.toLowerCase s).
Proof.
  induction s as [|c r IH]; cbn [mask Js.toLowerCase]; [reflexivity|].
  rewrite IH. f_equal.
  destruct c as [[] [] [] [] [] [] [] []]; reflexivity.
Qed.

Lemma mask_append (a b : string) : mask (a ++ b) = (mask a ++ mask b)%string.
Proof.
  induction a as [|c r IH]; cbn; [reflexivity | now rewrite IH].
Qed.

(** The error code of a message does not depend on its digits. *)
Lemma determine_mask (message : string) :
  _determineErrorCode (Some (mask message)) = _determineErrorCode (Some message).
Proof.
  unfold _determineErrorCode.
  assert (E : (mask message =? "") = (message =? "")) by (destruct message; reflexivity).
  rewrite E. destruct (message =? ""); [reflexivity|]. cbv zeta.
  rewrite toLowerCase_mask.
  rewrite !includes_mask by reflexivity. reflexivity.
Qed.

Lemma mask_count (n : N) :
  (n <= 50)%N ->
  mask (Js.numberToString n) = "0" \/ mask (Js.numberToString n) = "00".
Proof.
  intros Hn.
  assert (H : forallb (fun k => (mask (Js.numberToString (N.of_nat k)) =? "0")
                                || (mask (Js.numberToString (N.of_nat k)) =? "00"))
                      (seq 0 51) = true) by (vm_compute; reflexivity).
  assert (Hlt : (n < N.of_nat 51)%N) by lia.
  pose proof (SrtFacts.checked_below 51
                (fun m => (mask (Js.numberToString m) =? "0")
                          || (mask (Js.numberToString m) =? "00")) n H Hlt) as E.
  cbv beta in E. apply orb_true_iff in E as [E | E]; apply String.eqb_eq in E; auto.
Qed.

Ltac settle_report :=
  unfold report, entry; cbn [map fst snd Js.join String.concat];
  rewrite <- determine_mask; rewrite !mask_append;
  repeat match goal with
         | H : mask (Js.numberToString _) = _ |- _ => rewrite H; clear H
         end;
  vm_compute; reflexivity.

(** The code of the aggregated message over at most three technique names
    and counts of at most 50. *)
Lemma code_of_report (items : list (string * N)) :
  (length items <= 3)%nat ->
  Forall (fun item => standard (fst item) /\ (snd item <= 50)%N) items ->
  _determineErrorCode (Some (report items))
  = if existsb (fun item => fst item =? StrategySelector.WHISPER_AUDIO) items
    then WHISPER_API_ERROR else ALL_METHODS_FAILED.
Proof.
  intros Hlen Hall.
  destruct items as [|[m1 n1] [|[m2 n2] [|[m3 n3] [|? ?]]]];
    cbn [length] in Hlen; try lia;
    repeat match goal with
           | H : Forall _ (_ :: _) |- _ =>
               let Hh := fresh "Hh" in
               apply Forall_cons_iff in H as [Hh H]; cbn [fst snd] in Hh
           | H : Forall _ [] |- _ => clear H
           | H : _ /\ _ |- _ => destruct H
           | H : (_ <= 50)%N |- _ => apply mask_count in H
           end;
    repeat match goal with
           | H : standard _ |- _ => destruct H as [-> | [-> | ->]]
           | H : _ \/ _ |- _ => destruct H
           end;
    settle_report.
Qed.

(** X21.  The code [_determineErrorCode] derives from a message is always
    one of eleven codes (never MISSING_PARAMETERS), and its HTTP status is
    400, 403, 404, 429, 451 or 502.  [formatError] answers the status 500
    only for an error that carries a code of its own outside the twelve
    known ones. *)
Theorem derived_status_is_never_500 (message : option string) :
  In (_determineErrorCode message)
     [INVALID_URL; INVALID_VIDEO_ID; VIDEO_NOT_FOUND; VIDEO_PRIVATE; VIDEO_RESTRICTED;
      NO_CAPTIONS_AVAILABLE; AUDIO_DOWNLOAD_FAILED; WHISPER_API_ERROR;
      ALL_METHODS_FAILED; RATE_LIMIT_EXCEEDED; QUOTA_EXCEEDED]
  /\ In (_getHttpStatusForError (_determineErrorCode message))
        [400; 403; 404; 429; 451; 502]%N
  /\ (forall error : option ErrorObject,
        httpStatusOf error = 500%N ->
        exists (e : ErrorObject) (code : string),
          error = Some e /\ e_code e = Some code /\ code <> ""
          /\ ~ In code [INVALID_URL; INVALID_VIDEO_ID; MISSING_PARAMETERS;
                        VIDEO_NOT_FOUND; VIDEO_PRIVATE; VIDEO_RESTRICTED;
                        NO_CAPTIONS_AVAILABLE; AUDIO_DOWNLOAD_FAILED;
                        WHISPER_API_ERROR; ALL_METHODS_FAILED; RATE_LIMIT_EXCEEDED;
                        QUOTA_EXCEEDED]).
Proof.
  assert (Hcodes : forall m,
             In (_determineErrorCode m)
                [INVALID_URL; INVALID_VIDEO_ID; VIDEO_NOT_FOUND; VIDEO_PRIVATE;
                 VIDEO_RESTRICTED; NO_CAPTIONS_AVAILABLE; AUDIO_DOWNLOAD_FAILED;
                 WHISPER_API_ERROR; ALL_METHODS_FAILED; RATE_LIMIT_EXCEEDED;
                 QUOTA_EXCEEDED]).
  { intros m. unfold _determineErrorCode.
    destruct m as [m|]; [| cbn; tauto].
    destruct (m =? ""); [cbn; tauto|]. cbv zeta.
    repeat match goal with
           | |- context [if ?b then _ else _] => destruct b
           end; cbn; tauto. }
  assert (Hstatus : forall m,
             In (_getHttpStatusForError (_determineErrorCode m))
                [400; 403; 404; 429; 451; 502]%N).
  { intros m. specialize (Hcodes m). cbn [In] in Hcodes.
    repeat (destruct Hcodes as [Hcodes | Hcodes];
            [rewrite <- Hcodes; vm_compute; tauto|]).
    contradiction. }
  split; [apply Hcodes|]. split; [apply Hstatus|].
  intros error H500. unfold httpStatusOf, errorCodeOf in H500.
  assert (Hderived : forall m, _getHttpStatusForError (_determineErrorCode m) <> 500%N).
  { intros m E. specialize (Hstatus m). rewrite E in Hstatus. cbn in Hstatus.
    intuition discriminate. }
  destruct error as [e|];
    [| cbn [StrategySelector.orElse] in H500; now apply Hderived in H500].
  destruct (e_code e) as [code|] eqn:Ecode; cbn [StrategySelector.orElse] in H500;
    [| now apply Hderived in H500].
  destruct (Js.truthy code) eqn:Et; [| now apply Hderived in H500].
  exists e, code. split; [reflexivity|]. split; [assumption|]. split.
  - intros ->. discriminate Et.
  - cbn [In]. intros Hin.
    repeat (destruct Hin as [Hin | Hin];
            [subst code; vm_compute in H500; discriminate|]).
    contradiction.
Qed.


End FormatterFacts.

(* ===================================================================== *)
(** ** Facts about the [/transcript] endpoint *)
(* ===================================================================== *)

Module EndpointFacts.

Import StrategySelector UnifiedExtractor Endpoint.
Import LanguageHandler.

Lemma three_names_distinct :
  NoDup ["youtube-transcript"; "youtube-caption-extractor"; "whisper-audio"]
  /\ NoDup ["youtube-transcript"; "youtube-caption-extractor"].
Proof.
  split; repeat constructor; cbn; intuition discriminate.
Qed.

(** X23.  The strategies the endpoint resolves hold no technique twice.
    With [fallbackToAudio=true] they are never empty and end with
    [whisper-audio]; otherwise [whisper-audio] is among them only when it is
    the forced method.  They are empty in one case only: automatic mode, a
    video with captions whose title does not start with "Video ", not
    suitable for extraction, and the audio fallback not enabled. *)
Theorem resolveStrategies_shape (method lang format fallbackToAudio : string)
    (metadata : VideoMetadata) :
  let strategies := resolveStrategies method lang format fallbackToAudio metadata in
  NoDup strategies
  /\ (fallbackToAudio = "true" -> last strategies "" = "whisper-audio")
  /\ (fallbackToAudio <> "true" -> method <> "whisper-audio" ->
      ~ In "whisper-audio" strategies)
  /\ (strategies = [] <->
      method = "auto" /\ hasClosedCaptions metadata = true
      /\ Js.startsWith (title metadata) "Video " = false
      /\ _isVideoSuitableForExtraction metadata = false
      /\ fallbackToAudio <> "true").
Proof.
  cbv zeta. unfold resolveStrategies.
  destruct three_names_distinct as [Hnd3 Hnd2].
  destruct (String.eqb_spec method "auto") as [-> | Hauto].
  - destruct (hasClosedCaptions metadata) eqn:Hcc; cbn [negb orb].
    + destruct (Js.startsWith (title metadata) "Video ") eqn:Ht.
      * destruct (String.eqb_spec fallbackToAudio "true") as [-> | Hf]; cbn [app].
        -- split; [assumption|]. split; [reflexivity|]. split; [congruence|].
           split; [discriminate | intros (_ & _ & E & _); discriminate].
        -- split; [assumption|]. split; [congruence|].
           split; [intros _ _ [E | [E | []]]; discriminate|].
           split; [discriminate | intros (_ & _ & E & _); discriminate].
      * rewrite StrategyMoreFacts.selectStrategy_formula. rewrite Hcc, andb_true_r.
        unfold requestPreferences, mergePreferences.
        cbn [StrategySelector.fallbackToAudio orDefault p_fallbackToAudio].
        destruct (_isVideoSuitableForExtraction metadata);
          destruct (String.eqb_spec fallbackToAudio "true") as [-> | Hf]; cbn [app].
        -- split; [assumption|]. split; [reflexivity|]. split; [congruence|].
           split; [discriminate | intros (_ & _ & _ & E & _); discriminate].
        -- split; [assumption|]. split; [congruence|].
           split; [intros _ _ [E | [E | []]]; discriminate|].
           split; [discriminate | intros (_ & _ & _ & E & _); discriminate].
        -- split; [repeat constructor; intros []|]. split; [reflexivity|].
           split; [congruence|].
           split; [discriminate | intros (_ & _ & _ & _ & E); congruence].
        -- split; [constructor|]. split; [congruence|]. split; [intros _ _ []|].
           split; [intros _; repeat split; auto | reflexivity].
    + destruct (String.eqb_spec fallbackToAudio "true") as [-> | Hf]; cbn [app].
      * split; [assumption|]. split; [reflexivity|]. split; [congruence|].
        split; [discriminate | intros (_ & E & _); discriminate].
      * split; [assumption|]. split; [congruence|].
        split; [intros _ _ [E | [E | []]]; discriminate|].
        split; [discriminate | intros (_ & E & _); discriminate].
  - destruct (String.eqb_spec fallbackToAudio "true") as [-> | Hf]; cbn [andb].
    + destruct (String.eqb_spec method "whisper-audio") as [-> | Hw]; cbn [negb app].
      * split; [repeat constructor; intros []|]. split; [reflexivity|].
        split; [congruence|].
        split; [discriminate | intros (E & _); congruence].
      * split; [repeat constructor; cbn; intuition|]. split; [reflexivity|].
        split; [congruence|].
        split; [discriminate | intros (E & _); congruence].
    + cbn [app]. split; [repeat constructor; intros []|]. split; [congruence|].
      split; [intros _ Hw [E | []]; congruence|].
      split; [discriminate | intros (E & _); congruence].
Qed.

(** X24.  For a video without detected captions the endpoint, in automatic
    mode, does not consult [selectStrategy]: it tries the two caption
    techniques first (then the audio technique when enabled), although
    [selectStrategy] itself answers no caption technique for such a video,
    and it does so for live and upcoming videos too. *)
Theorem uncaptioned_videos_bypass_selectStrategy (lang format fallbackToAudio : string)
    (metadata : VideoMetadata) :
  hasClosedCaptions metadata = false ->
  resolveStrategies "auto" lang format fallbackToAudio metadata
  = ["youtube-transcript"; "youtube-caption-extractor"]
    ++ (if fallbackToAudio =? "true" then ["whisper-audio"] else [])
  /\ selectStrategy metadata (requestPreferences lang format fallbackToAudio)
     = (if fallbackToAudio =? "true" then ["whisper-audio"] else []).
Proof.
  intros Hcc. split.
  - unfold resolveStrategies. rewrite Hcc. reflexivity.
  - rewrite StrategyMoreFacts.selectStrategy_formula, Hcc, andb_false_r.
    reflexivity.
Qed.

Lemma uncaptioned_videos_bypass_selectStrategy_witness :
  resolveStrategies "auto" "en" "txt" "true"
    (mkMetadata "dQw4w9WgXcQ" "Live" "" 0%Z true false false [])
  = ["youtube-transcript"; "youtube-caption-extractor"; "whisper-audio"]
  /\ selectStrategy (mkMetadata "dQw4w9WgXcQ" "Live" "" 0%Z true false false [])
       (requestPreferences "en" "txt" "true")
     = ["whisper-audio"].
Proof.
  apply (uncaptioned_videos_bypass_selectStrategy "en" "txt" "true"
           (mkMetadata "dQw4w9WgXcQ" "Live" "" 0%Z true false false [])).
  reflexivity.
Defined.

(** X25.  The endpoint builds one configuration, for its first strategy,
    and passes it to every technique.  A configuration built for a method
    other than [whisper-audio] carries no language hint, so when the audio
    technique runs with it the transcription request never names the
    preferred language by way of the hint: it names the normalized code that
    [findBestLanguageMatch] selected among the available caption languages,
    when that is a non-empty code other than [auto], and no language
    otherwise. *)
Theorem fallback_audio_uses_selected_language (method : string)
    (metadata : VideoMetadata) (preferences : ExtractionPreferences) :
  method <> WHISPER_AUDIO ->
  let prefs := mergePreferences preferences in
  let m := findBestLanguageMatch initialStore (availableLanguages metadata)
             (p_preferredLanguage prefs) in
  let config := fst (getMethodConfig method metadata preferences initialStore) in
  c_languageHint config = None
  /\ hintApplies config = false
  /\ tr_language (transcriptionRequest initialStore config)
     = (if Js.truthy (selectedLanguage m) && negb (selectedLanguage m =? "auto")
        then Some (normalizeLanguageCode initialStore (selectedLanguage m))
        else None).
Proof.
  intros Hw. cbv zeta.
  destruct (LanguageFacts.getLanguageVariants_run
              (p_preferredLanguage (mergePreferences preferences)))
    as (arr & _ & Hrun).
  apply String.eqb_neq in Hw.
  assert (Hw' : (method =? "whisper-audio") = false) by exact Hw.
  set (m := findBestLanguageMatch initialStore (availableLanguages metadata)
              (p_preferredLanguage (mergePreferences preferences))).
  assert (E : c_languageHint (fst (getMethodConfig method metadata preferences initialStore))
              = None
              /\ c_language (fst (getMethodConfig method metadata preferences initialStore))
                 = Some (selectedLanguage m)).
  { cbv beta iota zeta delta [getMethodConfig createLanguageConfig bind reads ret].
    rewrite Hrun.
    destruct (method =? "youtube-transcript") eqn:E1;
      [apply String.eqb_eq in E1; subst method; split; reflexivity|].
    destruct (method =? "youtube-caption-extractor") eqn:E2;
      [apply String.eqb_eq in E2; subst method; split; reflexivity|].
    rewrite Hw'. cbv beta iota.
    change (method =? YOUTUBE_TRANSCRIPT) with (method =? "youtube-transcript").
    change (method =? YOUTUBE_CAPTION_EXTRACTOR)
      with (method =? "youtube-caption-extractor").
    rewrite E1, E2, Hw. split; reflexivity. }
  destruct E as [Hhint Hlang].
  split; [assumption|].
  unfold transcriptionRequest, hintApplies, languageSpecified. cbn [tr_language].
  rewrite Hhint, Hlang. split; [reflexivity|].
  unfold orElse. destruct (Js.truthy (selectedLanguage m)); reflexivity.
Qed.

Lemma fallback_audio_uses_selected_language_witness :
  tr_language
    (transcriptionRequest initialStore
       (fst (getMethodConfig YOUTUBE_TRANSCRIPT
               (mkMetadata "dQw4w9WgXcQ" "Film" "" 600%Z false false true ["fr"])
               (mkPreferences (Some "de") None None) initialStore)))
  = Some "fr".
Proof.
  destruct (fallback_audio_uses_selected_language YOUTUBE_TRANSCRIPT
              (mkMetadata "dQw4w9WgXcQ" "Film" "" 600%Z false false true ["fr"])
              (mkPreferences (Some "de") None None)) as (_ & _ & H).
  - discriminate.
  - rewrite H. reflexivity.
Defined.

Section Requests.

Variable World : Type.
Variable now : World -> Z.
Variable youtubeTranscript : string -> Config -> World -> Completion RawResult * World.
Variable captionExtractor : string -> Config -> World -> Completion RawResult * World.
Variable whisperAudio : string -> Config -> World -> Completion RawResult * World.

Local Abbreviation tries :=
  (attempts World now youtubeTranscript captionExtractor whisperAudio).
Local Abbreviation fallback :=
  (extractWithFallback World now youtubeTranscript captionExtractor whisperAudio).

(** The techniques and counts of the aggregated message. *)
Lemma report_items (methods : list string) (results : list TranscriptResult) :
  length results = length methods ->
  Forall Mask.standard methods ->
  Forall (fun r => (transcriptLength (transcript r) <= 50)%N) results ->
  let items := map (fun mr => (fst mr, transcriptLength (transcript (snd mr))))
                   (combine methods results) in
  length items = length methods
  /\ Forall (fun item => Mask.standard (fst item) /\ (snd item <= 50)%N) items
  /\ existsb (fun item => fst item =? WHISPER_AUDIO) items
     = Js.includes methods WHISPER_AUDIO.
Proof.
  cbv zeta. revert results.
  induction methods as [|m rest IH]; intros results Hlen Hstd Hshort.
  - cbn. repeat split. constructor.
  - destruct results as [|r rs]; [discriminate|].
    cbn [length] in Hlen. injection Hlen as Hlen.
    apply Forall_cons_iff in Hstd as [Hm Hstd].
    apply Forall_cons_iff in Hshort as [Hr Hshort].
    destruct (IH rs Hlen Hstd Hshort) as (H1 & H2 & H3).
    cbn [combine map length existsb fst snd Js.includes].
    split; [now rewrite H1|]. split; [constructor; auto|].
    unfold Js.includes in H3. rewrite H3, (String.eqb_sym m WHISPER_AUDIO).
    reflexivity.
Qed.

(** X26.  When every technique of a list of at most three technique names
    is rejected, the endpoint reports the failure with the status 502; the
    code it derives from the aggregated message is WHISPER_API_ERROR as soon
    as [whisper-audio] is among the techniques (its name occurs in the
    message), whatever made the techniques fail, and ALL_METHODS_FAILED
    otherwise. *)
Theorem rejected_request_error_code (videoId : string) (methods : list string)
    (config : Config) (s : Exec World) :
  (length methods <= 3)%nat ->
  Forall Mask.standard methods ->
  rejected (fst (tries videoId methods config s)) = true ->
  let r := fst (fallback videoId methods config s) in
  let e := Some (extractionError r) in
  success r = false
  /\ ResponseFormatter.errorCodeOf e
     = (if Js.includes methods WHISPER_AUDIO
        then ResponseFormatter.WHISPER_API_ERROR
        else ResponseFormatter.ALL_METHODS_FAILED)
  /\ ResponseFormatter.httpStatusOf e = 502%N.
Proof.
  intros Hlen Hstd Hrej. cbv zeta.
  rewrite (ExecutorFacts.fallback_all_rejected World now youtubeTranscript
             captionExtractor whisperAudio videoId methods config s Hrej).
  destruct (ExecutorMoreFacts.tries_rejected_short World now youtubeTranscript
              captionExtractor whisperAudio videoId config methods s Hrej)
    as [Hshort Hlen'].
  destruct (report_items methods _ Hlen' Hstd Hshort) as (Hl & Hall & Hex).
  cbn [fst]. split; [reflexivity|].
  assert (Hcode : ResponseFormatter.errorCodeOf
                    (Some (extractionError
                             (allFailed config
                                (entries methods (fst (tries videoId methods config s))))))
                  = if Js.includes methods WHISPER_AUDIO
                    then ResponseFormatter.WHISPER_API_ERROR
                    else ResponseFormatter.ALL_METHODS_FAILED).
  { unfold ResponseFormatter.errorCodeOf, extractionError, allFailed, entries.
    cbn [error ResponseFormatter.e_code ResponseFormatter.e_message
         ResponseFormatter.messageOf orElse].
    rewrite <- Hex.
    rewrite <- (FormatterFacts.code_of_report _ (eq_ind_r (fun n => (n <= 3)%nat) Hlen Hl)
                  Hall).
    unfold Mask.report. rewrite map_map. reflexivity. }
  split; [exact Hcode|].
  unfold ResponseFormatter.httpStatusOf. rewrite Hcode.
  destruct (Js.includes methods WHISPER_AUDIO); reflexivity.
Qed.

End Requests.

Lemma rejected_request_error_code_witness :
  ResponseFormatter.errorCodeOf
    (Some (extractionError
             (fst (extractWithFallback Scenario.World Scenario.now
                     Scenario.throwingTranscript Scenario.shortCaptions
                     Scenario.throwingTranscript "dQw4w9WgXcQ"
                     [YOUTUBE_TRANSCRIPT; YOUTUBE_CAPTION_EXTRACTOR; WHISPER_AUDIO]
                     emptyConfig Scenario.startState))))
  = ResponseFormatter.WHISPER_API_ERROR
  /\ ResponseFormatter.httpStatusOf
       (Some (extractionError
                (fst (extractWithFallback Scenario.World Scenario.now
                        Scenario.throwingTranscript Scenario.shortCaptions
                        Scenario.throwingTranscript "dQw4w9WgXcQ"
                        [YOUTUBE_TRANSCRIPT; YOUTUBE_CAPTION_EXTRACTOR; WHISPER_AUDIO]
                        emptyConfig Scenario.startState))))
     = 502%N.
Proof.
  assert (Hlen : (length [YOUTUBE_TRANSCRIPT; YOUTUBE_CAPTION_EXTRACTOR; WHISPER_AUDIO]
                  <= 3)%nat) by (cbn; lia).
  assert (Hstd : Forall Mask.standard
                   [YOUTUBE_TRANSCRIPT; YOUTUBE_CAPTION_EXTRACTOR; WHISPER_AUDIO])
    by (repeat constructor; unfold Mask.standard; auto).
  destruct (rejected_request_error_code Scenario.World Scenario.now
              Scenario.throwingTranscript Scenario.shortCaptions
              Scenario.throwingTranscript "dQw4w9WgXcQ"
              [YOUTUBE_TRANSCRIPT; YOUTUBE_CAPTION_EXTRACTOR; WHISPER_AUDIO]
              emptyConfig Scenario.startState Hlen Hstd eq_refl)
    as (_ & Hcode & Hstatus).
  split; [exact Hcode | exact Hstatus].
Defined.

End EndpointFacts.

(* ===================================================================== *)
(** ** A request that reaches the audio technique alone *)
(* ===================================================================== *)

Module AudioRequestFacts.

Import StrategySelector UnifiedExtractor Backends Endpoint.

Section AudioOnly.

Variable World : Type.
Variable clock : World -> Z.
Variable openaiConfigured : bool.
Variable downloadAudio : string -> World -> Completion N * World.
Variable createTranscription :
  TranscriptionRequest -> World -> Completion WhisperResponse * World.

(** The two caption backends, whatever they are. *)
Variable youtubeTranscript :
  string -> Config -> Outside World -> Completion RawResult * Outside World.
Variable captionExtractor :
  string -> Config -> Outside World -> Completion RawResult * Outside World.

Local Abbreviation viaWhisper :=
  (_extractWithWhisperAudio World openaiConfigured downloadAudio createTranscription).
Local Abbreviation fallback :=
  (extractWithFallback (Outside World) (fun o => clock (outer o))
     youtubeTranscript captionExtractor viaWhisper).

(** X27.  When the audio download has fewer than 1,000,000 bytes, a request
    that relies on the audio technique alone fails: no transcription is
    requested, the result is the failure object, and its message reports
    "whisper-audio: Insufficient content (0 chars)", not the size of the
    audio; the endpoint derives the code WHISPER_API_ERROR from it. *)
Theorem small_audio_fails_the_request (videoId : string) (config : Config)
    (s : Exec (Outside World)) (byteLength : N) (w' : World) :
  downloadAudio ("https://www.youtube.com/watch?v=" ++ videoId) (outer (world s))
  = (Returned byteLength, w') ->
  (byteLength < 1000000)%N ->
  let run := fallback videoId [WHISPER_AUDIO] config s in
  success (fst run) = false
  /\ error (fst run)
     = Some "All extraction methods failed. Errors: whisper-audio: Insufficient content (0 chars)"
  /\ calls (world (snd run))
     = calls (world s)
       ++ (if openaiConfigured
           then [DownloadAudio ("https://www.youtube.com/watch?v=" ++ videoId)]
           else [])
  /\ ResponseFormatter.errorCodeOf (Some (extractionError (fst run)))
     = ResponseFormatter.WHISPER_API_ERROR.
Proof.
  intros Hdownload Hsmall. cbv zeta.
  apply N.ltb_lt in Hsmall.
  unfold extractWithFallback. cbn [fallbackLoop].
  unfold extractTranscript, transcriptResultOf, dispatch.
  change (WHISPER_AUDIO =? YOUTUBE_TRANSCRIPT) with false.
  change (WHISPER_AUDIO =? YOUTUBE_CAPTION_EXTRACTOR) with false.
  change (WHISPER_AUDIO =? WHISPER_AUDIO) with true. cbv iota.
  unfold _extractWithWhisperAudio.
  destruct openaiConfigured; cbn [negb].
  - unfold call. rewrite Hdownload, Hsmall. cbn [fst snd world calls].
    repeat split.
  - cbn [fst snd world calls]. rewrite app_nil_r. repeat split.
Qed.

End AudioOnly.

Lemma small_audio_fails_the_request_witness :
  error (fst (extractWithFallback (Outside LibraryScenario.World)
                (fun o => Z.of_nat (outer o))
                (fun _ _ o => (Threw "unused", o)) (fun _ _ o => (Threw "unused", o))
                (_extractWithWhisperAudio LibraryScenario.World true
                   LibraryScenario.downloadAudio LibraryScenario.createTranscription)
                "dQw4w9WgXcQ" [WHISPER_AUDIO] emptyConfig
                (mkExec LibraryScenario.start [])))
  = Some "All extraction methods failed. Errors: whisper-audio: Insufficient content (0 chars)".
Proof.
  apply (small_audio_fails_the_request LibraryScenario.World (fun w => Z.of_nat w) true
           LibraryScenario.downloadAudio LibraryScenario.createTranscription
           (fun _ _ o => (Threw "unused", o)) (fun _ _ o => (Threw "unused", o))
           "dQw4w9WgXcQ" emptyConfig (mkExec LibraryScenario.start [])
           500000%N 1%nat).
  - reflexivity.
  - reflexivity.
Defined.

End AudioRequestFacts.

(* ===================================================================== *)
(** ** Facts about language detection and subtitle timestamps *)
(* ===================================================================== *)

Module DetectionFacts.

Import LanguageDetection JsMoreFacts.

(** X28.  [detectLanguageFromText] ignores letter case: a text and its
    lower-case form get the same answer.  The answer names one of [en],
    [es], [fr], [de], and a text of fewer than 50 code units always gets
    [en] with confidence 0.1 and method [default]. *)
Theorem detection_ignores_case (text : string) :
  detectLanguageFromText (Js.toLowerCase text) = detectLanguageFromText text
  /\ In (detectedLanguage (detectLanguageFromText text)) ["en"; "es"; "fr"; "de"]
  /\ ((String.length text < 50)%nat ->
      detectLanguageFromText text = mkDetection "en" (1 # 10)%Q "default").
Proof.
  split; [| split].
  - unfold detectLanguageFromText. cbv zeta.
    now rewrite toLowerCase_truthy, toLowerCase_length, toLowerCase_idempotent.
  - unfold detectLanguageFromText. cbv zeta.
    repeat match goal with
           | |- context [if ?b then _ else _] => destruct b
           end; cbn; tauto.
  - intros H. unfold detectLanguageFromText.
    apply Nat.ltb_lt in H. rewrite H, orb_true_r. reflexivity.
Qed.

End DetectionFacts.

Module SrtMoreFacts.

Import UnifiedExtractor SrtSpec SrtFacts.

Lemma append_length (a b : string) :
  String.length (a ++ b) = (String.length a + String.length b)%nat.
Proof.
  induction a as [|c r IH]; cbn; [reflexivity | now rewrite IH].
Qed.

Lemma twoDigits_width (n : N) : (n < 100)%N -> String.length (twoDigits n) = 2%nat.
Proof.
  intros H.
  assert (E : forallb (fun k => (String.length (twoDigits (N.of_nat k)) =? 2)%nat)
                      (seq 0 100) = true) by (vm_compute; reflexivity).
  apply Nat.eqb_eq.
  apply (checked_below 100 (fun m => (String.length (twoDigits m) =? 2)%nat) n E H).
Qed.

Lemma threeDigits_width (n : N) : (n < 1000)%N -> String.length (threeDigits n) = 3%nat.
Proof.
  intros H.
  assert (E : forallb (fun k => (String.length (threeDigits (N.of_nat k)) =? 3)%nat)
                      (seq 0 1000) = true) by (vm_compute; reflexivity).
  apply Nat.eqb_eq.
  apply (checked_below 1000 (fun m => (String.length (threeDigits m) =? 3)%nat) n E H).
Qed.

Lemma get_past (a b : string) (k : nat) :
  String.get (String.length a + k) (a ++ b) = String.get k b.
Proof.
  induction a as [|c r IH]; [reflexivity | exact IH].
Qed.

(** X29.  For a whole number of milliseconds below one hundred hours
    (360,000,000 ms) the timestamp [_formatSrtTime] writes has exactly
    twelve characters, with the colons third and sixth and the comma
    ninth. *)
Theorem timestamp_has_twelve_characters (milliseconds : N) :
  (milliseconds < 360000000)%N ->
  String.length (_formatSrtTime milliseconds) = 12%nat
  /\ String.get 2 (_formatSrtTime milliseconds) = Some ":"%char
  /\ String.get 5 (_formatSrtTime milliseconds) = Some ":"%char
  /\ String.get 8 (_formatSrtTime milliseconds) = Some ","%char.
Proof.
  intros H. rewrite formatSrtTime_timestamp. unfold timestamp.
  assert (Hh : String.length (twoDigits (milliseconds / 3600000)) = 2%nat)
    by (apply twoDigits_width, N.Div0.div_lt_upper_bound; exact H).
  assert (Hm : String.length (twoDigits ((milliseconds / 60000) mod 60)) = 2%nat)
    by (apply twoDigits_width; pose proof (N.mod_lt (milliseconds / 60000) 60); lia).
  assert (Hs : String.length (twoDigits ((milliseconds / 1000) mod 60)) = 2%nat)
    by (apply twoDigits_width; pose proof (N.mod_lt (milliseconds / 1000) 60); lia).
  assert (Hms : String.length (threeDigits (milliseconds mod 1000)) = 3%nat)
    by (apply threeDigits_width, N.mod_lt; discriminate).
  split; [| split; [| split]].
  - rewrite !append_length, Hh, Hm, Hs, Hms. reflexivity.
  - pose proof (get_past (twoDigits (milliseconds / 3600000))) as G.
    rewrite Hh in G. rewrite (G _ 0%nat). reflexivity.
  - pose proof (get_past (twoDigits (milliseconds / 3600000))) as G.
    rewrite Hh in G. rewrite (G _ 3%nat). cbn [String.get append Nat.eqb].
    pose proof (get_past (twoDigits ((milliseconds / 60000) mod 60))) as G'.
    rewrite Hm in G'. rewrite (G' _ 0%nat). reflexivity.
  - pose proof (get_past (twoDigits (milliseconds / 3600000))) as G.
    rewrite Hh in G. rewrite (G _ 6%nat). cbn [String.get append Nat.eqb].
    pose proof (get_past (twoDigits ((milliseconds / 60000) mod 60))) as G'.
    rewrite Hm in G'. rewrite (G' _ 3%nat). cbn [String.get append Nat.eqb].
    pose proof (get_past (twoDigits ((milliseconds / 1000) mod 60))) as G''.
    rewrite Hs in G''. rewrite (G'' _ 0%nat). reflexivity.
Qed.

Lemma timestamp_has_twelve_characters_witness :
  String.length (_formatSrtTime 359999999) = 12%nat
  /\ _formatSrtTime 359999999 = "99:59:59,999".
Proof.
  split.
  - apply (timestamp_has_twelve_characters 359999999). reflexivity.
  - reflexivity.
Defined.

End SrtMoreFacts.

(* ===================================================================== *)
(** ** Facts about the caption information of a video *)
(* ===================================================================== *)

Module CaptionInfoFacts.

Import MetadataExtractor JsMoreFacts.

(** X30.  [_extractCaptionInfo] reports captions exactly when there is at
    least one caption track.  The languages it lists hold no duplicate and
    never the code [unknown]; each is the non-empty [languageCode] of a
    track, or the non-empty [vssId] of a track without one.  Tracks without
    either leave the list empty while captions are still reported. *)
Theorem extractCaptionInfo_languages (captionTracks : option (list CaptionTrack)) :
  let info := _extractCaptionInfo captionTracks in
  (ci_hasClosedCaptions info = true <->
   exists track rest, captionTracks = Some (track :: rest))
  /\ NoDup (ci_availableLanguages info)
  /\ ~ In "unknown" (ci_availableLanguages info)
  /\ (forall lang : string,
        In lang (ci_availableLanguages info) ->
        lang <> ""
        /\ exists (tracks : list CaptionTrack) (track : CaptionTrack),
             captionTracks = Some tracks /\ In track tracks
             /\ (languageCode track = Some lang
                 \/ (vssId track = Some lang
                     /\ (languageCode track = None \/ languageCode track = Some ""))))
  /\ (forall tracks : list CaptionTrack,
        captionTracks = Some tracks -> tracks <> [] ->
        Forall (fun track => languageCode track = None /\ vssId track = None) tracks ->
        ci_hasClosedCaptions info = true /\ ci_availableLanguages info = []).
Proof.
  cbv zeta. unfold _extractCaptionInfo.
  destruct captionTracks as [[|track rest]|].
  - cbn. split; [split; [discriminate | intros (t & r & E); discriminate]|].
    split; [constructor|]. split; [tauto|]. split; [intros l []|].
    intros tracks E Hne. injection E as <-. contradiction.
  - set (tracks := track :: rest).
    set (codeOf := fun caption : CaptionTrack =>
                     StrategySelector.orElse (languageCode caption)
                       (StrategySelector.orElse (vssId caption) "unknown")).
    cbn [ci_hasClosedCaptions ci_availableLanguages].
    split; [split; [intros _; now exists track, rest | reflexivity]|].
    split; [apply uniq_NoDup|].
    split.
    { intros H. apply (proj1 (uniq_In _ _)) in H. apply filter_In in H as [_ H].
      discriminate H. }
    split.
    { intros lang H. apply (proj1 (uniq_In _ _)) in H.
      apply filter_In in H as [H Hu]. apply in_map_iff in H as (t & Ht & Hin).
      unfold codeOf, StrategySelector.orElse in Ht.
      destruct (languageCode t) as [code|] eqn:Ec.
      - destruct (Js.truthy code) eqn:Tc.
        + subst code. split; [intros ->; discriminate Tc|].
          exists tracks, t. tauto.
        + assert (code = "") by (destruct code; [reflexivity | discriminate Tc]).
          subst code.
          destruct (vssId t) as [v|] eqn:Ev.
          * destruct (Js.truthy v) eqn:Tv.
            -- subst v. split; [intros ->; discriminate Tv|].
               exists tracks, t. tauto.
            -- subst lang. discriminate Hu.
          * subst lang. discriminate Hu.
      - destruct (vssId t) as [v|] eqn:Ev.
        + destruct (Js.truthy v) eqn:Tv.
          * subst v. split; [intros ->; discriminate Tv|].
            exists tracks, t. tauto.
          * subst lang. discriminate Hu.
        + subst lang. discriminate Hu. }
    intros tracks' E _ Hall. injection E as <-. split; [reflexivity|].
    assert (Hnone : filter (fun lang => negb (lang =? "unknown")) (map codeOf tracks) = []).
    { clearbody tracks. induction tracks as [|t ts IH]; [reflexivity|].
      apply Forall_cons_iff in Hall as [[Hc Hv] Hall].
      cbn [map filter]. unfold codeOf at 1. rewrite Hc, Hv. cbn. now apply IH. }
    fold codeOf. rewrite Hnone. reflexivity.
  - cbn. split; [split; [discriminate | intros (t & r & E); discriminate]|].
    split; [constructor|]. split; [tauto|]. split; [intros l []|].
    intros tracks E. discriminate.
Qed.

End CaptionInfoFacts.
